(** * Ledger consistency of the debtor and transaction routes

    A shallow embedding of [src/routes/debtorRoutes.js] and of the transaction
    router (cash-in, cash-out, edit, delete, list, monthly statistics), over
    an explicit model of the three document collections they touch.

    Conventions of the embedding.
    - A collection is a finite map from [_id] to document ([gmap]); a query
      without a sort returns its documents in ascending [_id] order
      ([scan]).
    - A JavaScript number, and so every Mongoose [Number] path, is an
      IEEE-754 binary64 value ([Num.num], the Standard Library's
      [spec_float] at precision 53): fractions, signed zeros, infinities
      and [NaN] included.  [+] and [-] are the rounding operations
      [Num.add] and [Num.sub].  Statements about exact amounts are made
      for the integers every one of which is a number of its own
      ([Num.safe]), through [Num.ofZ].
    - Request-body values whose JavaScript type the handler inspects
      ([payment], [amount], [currentDebt]) are [jsval]s; the coercions
      [Number(x)], [!x], [typeof x], [x || 0] and [x + y] are written out,
      [Number] on a string and [String] on a number being parameters.
    - The [$sum] accumulator of the aggregation pipeline runs inside the
      database server and is a parameter.
    - A handler is a state-passing function [DB -> Response * DB]; an
      exception thrown inside it reaches the handler's [catch], which answers
      500 and keeps whatever was written before the throw (there is no
      rollback in the source). *)

From Stdlib Require Import ZArith Lia Floats.SpecFloat.
From stdpp Require Import gmap strings list fin_maps sorting.

Local Open Scope Z_scope.

(** ** JavaScript numbers *)

Module Num.

Definition prec : Z := 53.
Definition emax : Z := 1024.

(** A binary64 value. *)
Definition num : Type := spec_float.

Definition zero : num := S754_zero false.
Definition nan : num := S754_nan.

(** [x + y] and [x - y] on numbers: round to nearest, ties to even. *)
Definition add : num -> num -> num := SFadd prec emax.
Definition sub : num -> num -> num := SFsub prec emax.

(** [x < y] and [x <= y]; both false when either side is [NaN]. *)
Definition ltb : num -> num -> bool := SFltb.
Definition leb : num -> num -> bool := SFleb.

(** The number nearest to the integer [z]. *)
Definition ofZ (z : Z) : num := binary_normalize prec emax z 0 false.

Definition isNaN (x : num) : bool :=
  match x with S754_nan => true | _ => false end.

(** [x === 0], true of both zeros. *)
Definition isZero (x : num) : bool :=
  match x with S754_zero _ => true | _ => false end.

(** [Math.max(a, b)]: [NaN] if either is, and [+0] beats [-0]. *)
Definition max (a b : num) : num :=
  match SFcompare a b with
  | None => nan
  | Some Lt => b
  | Some Gt => a
  | Some Eq => match a with S754_zero true => b | _ => a end
  end.

(** The term denotes a binary64 value: its mantissa and exponent are the
    canonical ones. *)
Definition valid (x : num) : bool := valid_binary prec emax x.

(** The integers every one of which is a number of its own:
    [Number.isSafeInteger]. *)
Definition safe (z : Z) : Prop := - (2 ^ 53 - 1) <= z <= 2 ^ 53 - 1.

(** The integer a number is, if it is one. *)
Definition toZ (x : num) : option Z :=
  match x with
  | S754_zero _ => Some 0
  | S754_finite s m e =>
      match e with
      | Z0 => Some (cond_Zopp s (Z.pos m))
      | Z.pos _ => Some (cond_Zopp s (Z.pos m * 2 ^ e))
      | Z.neg k =>
          if Z.pos m mod 2 ^ Z.pos k =? 0
          then Some (cond_Zopp s (Z.pos m / 2 ^ Z.pos k))
          else None
      end
  | _ => None
  end.

(** The mantissa of [n] brought to 53 bits. *)
Definition normal (n : positive) : positive :=
  match (53 - Z.pos (digits2_pos n))%Z with
  | Z.pos k => Pos.iter xO n k
  | _ => n
  end.

(** A mantissa and exponent as rounding leaves them, short of overflow. *)
Definition finite_or_overflow (s : bool) (m : positive) (e : Z) : num :=
  if e <=? 971 then S754_finite s m e else S754_infinity s.

End Num.

Export Num (num).
Coercion Num.ofZ : Z >-> num.

(** ** JavaScript values *)

Module JS.

(** The JSON values a request body can carry.  An object or array is
    represented by the string [ToPrimitive] yields for it, which is all
    [Number(...)] and [+] look at. *)
Inductive jsval : Type :=
| VUndefined
| VNull
| VBool (b : bool)
| VNum (x : num)
| VStr (s : string)
| VObj (prim : string).

(** [!!v] *)
Definition truthy (v : jsval) : bool :=
  match v with
  | VUndefined | VNull => false
  | VBool b => b
  | VNum x => negb (Num.isZero x || Num.isNaN x)
  | VStr s => negb (String.eqb s "")
  | VObj _ => true
  end.

(** [typeof v === "number"] *)
Definition isNumber (v : jsval) : bool :=
  match v with VNum _ => true | _ => false end.

(** The numeric value of a [jsval] already known to be a number. *)
Definition numValue (v : jsval) : num :=
  match v with VNum x => x | _ => Num.zero end.

(** [x || 0] on a number. *)
Definition orZero (x : num) : num :=
  if Num.isZero x || Num.isNaN x then Num.zero else x.

(** [v || 0] on a body value. *)
Definition orZeroValue (v : jsval) : jsval :=
  if truthy v then v else VNum Num.zero.

Section Coercion.
(** ECMAScript [StringToNumber] and [Number::toString]. *)
Variable StringToNumber : string -> num.
Variable NumberToString : num -> string.

(** [Number(v)] *)
Definition toNumber (v : jsval) : num :=
  match v with
  | VUndefined => Num.nan
  | VNull => Num.zero
  | VBool b => if b then Num.ofZ 1 else Num.zero
  | VNum x => x
  | VStr s => StringToNumber s
  | VObj prim => StringToNumber prim
  end.

(** [Number(v) || 0] *)
Definition numberOrZero (v : jsval) : num := orZero (toNumber v).

(** [x + v] with a number on the left: an addition, unless [v] is a string
    (or an object), when it is the concatenation of [String(x)] and [v]. *)
Definition plus (x : num) (v : jsval) : jsval :=
  match v with
  | VUndefined => VNum Num.nan
  | VNull => VNum (Num.add x Num.zero)
  | VBool b => VNum (Num.add x (if b then Num.ofZ 1 else Num.zero))
  | VNum y => VNum (Num.add x y)
  | VStr s => VStr (NumberToString x ++ s)
  | VObj prim => VStr (NumberToString x ++ prim)
  end.

(** Mongoose's cast of a value assigned to a [Number] path that has to hold
    a number: numbers other than [NaN] and booleans are taken, a non-empty
    string is read by [Number(...)] and taken unless the result is [NaN],
    everything else is refused. *)
Definition castNumber (v : jsval) : option num :=
  match v with
  | VNum x => if Num.isNaN x then None else Some x
  | VBool b => Some (if b then Num.ofZ 1 else Num.zero)
  | VStr s =>
      if String.eqb s "" then None
      else if Num.isNaN (StringToNumber s) then None
      else Some (StringToNumber s)
  | _ => None
  end.
End Coercion.

End JS.
Export JS.

(** ** Documents *)

Abbreviation ObjectId := N (only parsing).

Inductive Month : Type :=
| Jan | Feb | Mar | Apr | May | Jun | Jul | Aug | Sep | Oct | Nov | Dec.

(** A UTC instant by calendar position: year, month, and the milliseconds
    elapsed since that month began. *)
Record Date : Type := mkDate {
  d_year : Z;
  d_month : Month;
  d_offset : N
}.

(** [$month]: 1 for January up to 12 for December. *)
Definition monthNumber (m : Month) : nat :=
  match m with
  | Jan => 1 | Feb => 2 | Mar => 3 | Apr => 4 | May => 5 | Jun => 6
  | Jul => 7 | Aug => 8 | Sep => 9 | Oct => 10 | Nov => 11 | Dec => 12
  end%nat.

Definition date_ltb (a b : Date) : bool :=
  (d_year a <? d_year b)
  || ((d_year a =? d_year b)
      && ((monthNumber (d_month a) <? monthNumber (d_month b))%nat
          || ((monthNumber (d_month a) =? monthNumber (d_month b))%nat
              && (d_offset a <? d_offset b)%N))).

Definition date_leb (a b : Date) : bool := negb (date_ltb b a).

(** Modelled from the spec: the Client model file is not among the sources.
    The spec gives a client an identity and one mutable signed scalar
    [debt]; the identity is the key of the collection. *)
Record Client : Type := mkClient {
  c_fullName : string;
  c_debt : num
}.

Definition set_c_debt (v : num) (c : Client) : Client :=
  {| c_fullName := c_fullName c; c_debt := v |}.

Inductive Status : Type := pending | partial | paid | overdue.

Record Payment : Type := mkPayment {
  p_amount : num;
  p_date : Date
}.

Record NextPayment : Type := mkNextPayment {
  np_amount : option num;
  np_dueDate : option Date
}.

(** Modelled from the spec: the Debtor model file is not among the sources.
    The fields are those the spec lists and the route handlers read or
    write; the amounts are [Number] paths. *)
Record Debtor : Type := mkDebtor {
  client : ObjectId;
  currentDebt : num;
  initialDebt : num;
  initialDebtDate : Date;
  totalPaid : num;
  lastPayment : option Payment;
  nextPayment : NextPayment;
  description : string;
  status : Status;
  isDeleted : bool;
  deletedAt : option Date
}.

(** [src/models/transactions/transaction.model.js] *)
Inductive TxType : Type :=
| cash_in | cash_out | order | debt_payment | debt_created.

Inductive PaymentType : Type := cash | card | debt.

Inductive RelatedModel : Type := RelOrder | RelDebtor.

(** A stored ledger entry.  The free-text [description] of a transaction
    carries no logic and is left out. *)
Record Transaction : Type := mkTransaction {
  t_type : TxType;
  t_amount : num;
  t_paymentType : PaymentType;
  t_relatedModel : option RelatedModel;
  t_relatedId : option ObjectId;
  t_client : option ObjectId;
  t_createdBy : option ObjectId;
  t_isDeleted : bool;
  t_createdAt : Date
}.

#[global] Instance TxType_eq_dec : EqDecision TxType.
Proof. solve_decision. Defined.
#[global] Instance Month_eq_dec : EqDecision Month.
Proof. solve_decision. Defined.

(** ** The database and the handler monad *)

Record DB : Type := mkDB {
  clients : gmap N Client;
  debtors : gmap N Debtor;
  transactions : gmap N Transaction
}.

Definition set_clients (f : gmap N Client -> gmap N Client) (db : DB) : DB :=
  {| clients := f (clients db); debtors := debtors db;
     transactions := transactions db |}.
Definition set_debtors (f : gmap N Debtor -> gmap N Debtor) (db : DB) : DB :=
  {| clients := clients db; debtors := f (debtors db);
     transactions := transactions db |}.
Definition set_transactions
    (f : gmap N Transaction -> gmap N Transaction) (db : DB) : DB :=
  {| clients := clients db; debtors := debtors db;
     transactions := f (transactions db) |}.

(** The order of two documents in a collection scan: by [_id]. *)
Definition byId {A : Type} (a b : N * A) : Prop := (a.1 <= b.1)%N.

#[global] Instance byId_dec {A : Type} (a b : N * A) : Decision (byId a b).
Proof. unfold byId. apply _. Defined.

(** The documents of a collection in the order a query without a sort
    returns them. *)
Definition scan {A : Type} (m : gmap N A) : list (N * A) :=
  merge_sort byId (map_to_list m).

(** What the handler sees of the world besides the database. *)
Record Env : Type := mkEnv {
  now : Date;             (* new Date() *)
  fullYear : Z;           (* new Date().getFullYear() *)
  ledgerFault : bool      (* the store refuses the next Transaction insert *)
}.

Inductive Error : Type :=
| ValidationError      (* a Mongoose schema validator rejected the document *)
| CastError            (* a value could not be cast to its schema type *)
| StoreError.          (* the store refused the write *)

Inductive Outcome (A : Type) : Type :=
| Done (a : A)
| Thrown (e : Error).
Arguments Done {A} a.
Arguments Thrown {A} e.

Definition Op (A : Type) : Type := DB -> Outcome A * DB.

Definition ret {A} (a : A) : Op A := fun db => (Done a, db).
Definition throw {A} (e : Error) : Op A := fun db => (Thrown e, db).
Definition bind {A B} (m : Op A) (k : A -> Op B) : Op B :=
  fun db =>
    match m db with
    | (Done a, db') => k a db'
    | (Thrown e, db') => (Thrown e, db')
    end.
(** [try { m } catch (e) { h e }] *)
Definition try_catch {A} (m : Op A) (h : Error -> Op A) : Op A :=
  fun db =>
    match m db with
    | (Done a, db') => (Done a, db')
    | (Thrown e, db') => h e db'
    end.

Declare Scope op_scope.
Delimit Scope op_scope with op.
Notation "x <~ m ; k" := (bind m (fun x => k))
  (at level 20, m at level 100, k at level 200, only parsing,
   right associativity) : op_scope.
Notation "'run' m ; k" := (bind m (fun _ => k))
  (at level 20, m at level 100, k at level 200, only parsing,
   right associativity) : op_scope.

Inductive Body : Type :=
| BMessage (m : string)
| BErrors (errors : list string)
| BDebtor (d : option (Debtor * option Client))
| BTransaction (t : Transaction)
| BTransactions (ts : list (Transaction * option Client))
| BMonthly (cashIn cashOut : list num)
| BFailure (e : Error).

Record Response : Type := mkResponse {
  statusCode : N;
  body : Body
}.

(** The outer [try { ... } catch (error) { res.status(500)... }]. *)
Definition handle (h : Op Response) : DB -> Response * DB :=
  fun db =>
    match h db with
    | (Done r, db') => (r, db')
    | (Thrown e, db') => (mkResponse 500 (BFailure e), db')
    end.

(** ** Mongoose operations on the three collections *)

(** A reference taken from a request body: missing ([undefined] or [null]),
    present but not castable to an ObjectId, or a well-formed id. *)
Inductive IdRef : Type :=
| NoId
| BadId
| GoodId (id : N).

Definition castId (r : IdRef) : option (option N) :=
  match r with
  | NoId => Some None
  | BadId => None
  | GoodId id => Some (Some id)
  end.

(** The document handed to [Transaction.create]; [amount] is a number (a
    numeric string is cast where the document is built). *)
Record TxDoc : Type := mkTxDoc {
  x_type : TxType;
  x_amount : num;
  x_paymentType : jsval;
  x_relatedModel : option RelatedModel;
  x_relatedId : option N;
  x_client : IdRef;
  x_createdBy : IdRef
}.

(** [paymentType: { type: String, enum: ["cash", "card", "debt"],
    required: true }] *)
Definition castPaymentType (v : jsval) : option PaymentType :=
  match v with
  | VStr s =>
      if String.eqb s "cash" then Some cash
      else if String.eqb s "card" then Some card
      else if String.eqb s "debt" then Some debt
      else None
  | _ => None
  end.

(** Schema validation of a new ledger entry: [amount] has [min: 0], which
    [NaN] does not meet either, the payment type must be one of the enum,
    both references must cast.  The result is the document as stored, with
    the defaults filled in. *)
Definition transactionSchema (createdAt : Date) (doc : TxDoc)
    : option Transaction :=
  if negb (Num.leb Num.zero (x_amount doc)) then None else
  match castPaymentType (x_paymentType doc),
        castId (x_client doc), castId (x_createdBy doc) with
  | Some pt, Some cl, Some by_ =>
      Some {| t_type := x_type doc;
              t_amount := x_amount doc;
              t_paymentType := pt;
              t_relatedModel := x_relatedModel doc;
              t_relatedId := x_relatedId doc;
              t_client := cl;
              t_createdBy := by_;
              t_isDeleted := false;
              t_createdAt := createdAt |}
  | _, _, _ => None
  end.

Module Store.
Section WithSchemas.
(** The Client and Debtor schemas are not among the sources: whether a
    document passes their validators on [save] is a parameter.  Reads, and
    writes the schema lets through, reach the store; only the ledger insert
    can in addition be refused by it ([ledgerFault]). *)
Variable clientSchema : Client -> bool.
Variable debtorSchema : Debtor -> bool.

Definition Client_findById (id : N) : Op (option Client) :=
  fun db => (Done (clients db !! id), db).

(** [ref ? await Client.findById(ref) : null] with a reference straight
    from the body; the document found is returned with its [_id]. *)
Definition Client_findByRef (r : IdRef) : Op (option (N * Client)) :=
  match r with
  | NoId => ret None
  | BadId => throw CastError
  | GoodId id => fun db => (Done (pair id <$> clients db !! id), db)
  end.

(** [doc.save()] on a client document fetched under [id]. *)
Definition Client_save (id : N) (c : Client) : Op unit :=
  fun db =>
    if clientSchema c
    then (Done tt, set_clients (insert id c) db)
    else (Thrown ValidationError, db).

(** [Client.findByIdAndUpdate(id, { $set: { debt: v } })]: the value is
    cast, which [NaN] fails; no document, no effect; update validators are
    not run. *)
Definition Client_setDebt (id : N) (v : num) : Op unit :=
  if Num.isNaN v then throw CastError
  else fun db => (Done tt, set_clients (alter (set_c_debt v) id) db).

(** [Debtor.findOne({ _id: id, isDeleted: false })] *)
Definition Debtor_findOne (id : N) : Op (option Debtor) :=
  fun db =>
    (Done match debtors db !! id with
          | Some d => if isDeleted d then None else Some d
          | None => None
          end, db).

(** [Debtor.find({ client: cid, isDeleted: false })] *)
Definition Debtor_find (cid : N) : Op (list Debtor) :=
  fun db =>
    (Done (List.filter (fun d => (client d =? cid)%N && negb (isDeleted d))
             (scan (debtors db)).*2), db).

(** [Debtor.findById(id).populate("client")] *)
Definition Debtor_findById_populate (id : N)
    : Op (option (Debtor * option Client)) :=
  fun db =>
    (Done match debtors db !! id with
          | Some d => Some (d, clients db !! client d)
          | None => None
          end, db).

(** [new Debtor(...)] draws an [_id] no stored debtor has. *)
Definition Debtor_new : Op N :=
  fun db => (Done (fresh (dom (debtors db))), db).

(** [debtor.save()] *)
Definition Debtor_save (id : N) (d : Debtor) : Op unit :=
  fun db =>
    if debtorSchema d
    then (Done tt, set_debtors (insert id d) db)
    else (Thrown ValidationError, db).

(** [Transaction.create(doc)] *)
Definition Transaction_create (env : Env) (doc : TxDoc) : Op Transaction :=
  fun db =>
    match transactionSchema (now env) doc with
    | None => (Thrown ValidationError, db)
    | Some t =>
        if ledgerFault env then (Thrown StoreError, db)
        else (Done t,
              set_transactions
                (insert (fresh (dom (transactions db))) t) db)
    end.

(** [Transaction.findByIdAndDelete(id)] *)
Definition Transaction_findByIdAndDelete (id : N) : Op (option Transaction) :=
  fun db => (Done (transactions db !! id), set_transactions (delete id) db).

(** [Transaction.find({ isDeleted: false }).populate("client")] *)
Definition Transaction_find : Op (list (Transaction * option Client)) :=
  fun db =>
    (Done ((fun t => (t, match t_client t with
                         | Some c => clients db !! c
                         | None => None
                         end))
             <$> List.filter (fun t => negb (t_isDeleted t))
                   (scan (transactions db)).*2), db).

End WithSchemas.
End Store.
(** ** [src/routes/debtorRoutes.js] *)

Module DebtorRoutes.

(** Body of [POST /debtors], as [debtorValidation] lets it through: a
    well-formed client id, a [currentDebt] that [isNumeric] accepts, which
    is a number of either sign or a numeric string (the validator does not
    sanitize), and an optional [initialDebt] of the same kind. *)
Record CreateBody : Type := mkCreateBody {
  cb_client : N;
  cb_currentDebt : jsval;
  cb_initialDebt : option jsval;
  cb_nextPayment : option NextPayment;
  cb_description : option string
}.

Record CreateReq : Type := mkCreateReq {
  cr_errors : list string;     (* validationResult(req).array() *)
  cr_body : CreateBody;
  cr_user : option N           (* req.user?.id *)
}.

(** The [nextPayment] object of a payment request. *)
Record NextPaymentArg : Type := mkNextPaymentArg {
  na_amount : jsval;
  na_dueDate : option Date
}.

Record PayReq : Type := mkPayReq {
  pr_payment : jsval;
  pr_nextPayment : option NextPaymentArg;
  pr_user : option N
}.

(** The rest of a [PATCH] body after [nextPayment] and [description] are
    taken out: the Debtor paths it assigns. *)
Record Updates : Type := mkUpdates {
  u_client : option N;
  u_currentDebt : option num;
  u_initialDebt : option num;
  u_initialDebtDate : option Date;
  u_totalPaid : option num;
  u_lastPayment : option (option Payment);
  u_status : option Status;
  u_isDeleted : option bool;
  u_deletedAt : option (option Date)
}.

Record PatchReq : Type := mkPatchReq {
  pt_nextPayment : option NextPayment;
  pt_description : option string;
  pt_updates : Updates
}.

(** [Object.assign(debtor, updates)] *)
Definition assign (d : Debtor) (u : Updates) : Debtor :=
  {| client := default (client d) (u_client u);
     currentDebt := default (currentDebt d) (u_currentDebt u);
     initialDebt := default (initialDebt d) (u_initialDebt u);
     initialDebtDate := default (initialDebtDate d) (u_initialDebtDate u);
     totalPaid := default (totalPaid d) (u_totalPaid u);
     lastPayment := default (lastPayment d) (u_lastPayment u);
     nextPayment := nextPayment d;
     description := description d;
     status := default (status d) (u_status u);
     isDeleted := default (isDeleted d) (u_isDeleted u);
     deletedAt := default (deletedAt d) (u_deletedAt u) |}.

(** [let totalDebt = 0; for (const d of allDebts) totalDebt +=
    d.currentDebt || 0;] *)
Definition totalDebtLoop (allDebts : list Debtor) : num :=
  fold_left (fun totalDebt d => Num.add totalDebt (orZero (currentDebt d)))
    allDebts Num.zero.

(** The ledger entry of a debt creation:
    [{ type: "debt-created", amount: currentDebt, paymentType: "debt",
       relatedModel: "Debtor", relatedId: debtor._id, client,
       createdBy: req.user?.id || null }]; the [amount] path casts
    [currentDebt] to the number the new debtor holds. *)
Definition debtCreatedEntry (req : CreateReq) (debtorId : N)
    (debtor : Debtor) : TxDoc :=
  {| x_type := debt_created;
     x_amount := currentDebt debtor;
     x_paymentType := VStr "debt";
     x_relatedModel := Some RelDebtor;
     x_relatedId := Some debtorId;
     x_client := GoodId (cb_client (cr_body req));
     x_createdBy := from_option GoodId NoId (cr_user req) |}.

(** The ledger entry of a payment:
    [{ type: "debt-payment", amount: payment, paymentType: "cash",
       relatedModel: "Debtor", relatedId: debtor._id,
       client: debtor.client, createdBy: req.user?.id || null }]. *)
Definition debtPaymentEntry (req : PayReq) (id : N) (debtor : Debtor)
    : TxDoc :=
  {| x_type := debt_payment;
     x_amount := numValue (pr_payment req);
     x_paymentType := VStr "cash";
     x_relatedModel := Some RelDebtor;
     x_relatedId := Some id;
     x_client := GoodId (client debtor);
     x_createdBy := from_option GoodId NoId (pr_user req) |}.

(** The debtor as the delete handler saves it. *)
Definition softDeleted (env : Env) (d : Debtor) : Debtor :=
  {| client := client d; currentDebt := currentDebt d;
     initialDebt := initialDebt d;
     initialDebtDate := initialDebtDate d;
     totalPaid := totalPaid d; lastPayment := lastPayment d;
     nextPayment := nextPayment d;
     description := description d; status := status d;
     isDeleted := true; deletedAt := Some (now env) |}.

Section Handlers.
Variable clientSchema : Client -> bool.
Variable debtorSchema : Debtor -> bool.
Variable StringToNumber : string -> num.
Variable NumberToString : num -> string.

Local Abbreviation Client_save := (Store.Client_save clientSchema).
Local Abbreviation Debtor_save := (Store.Debtor_save debtorSchema).
Local Abbreviation castNumber := (castNumber StringToNumber).
Local Open Scope op_scope.

(** The document built by [new Debtor({ ... })] in the creation handler,
    its [Number] paths cast; [None] when [currentDebt] or [initialDebt]
    does not cast, which [save] then reports. *)
Definition newDebtor (env : Env) (b : CreateBody) : option Debtor :=
  match castNumber (cb_currentDebt b),
        castNumber (default (cb_currentDebt b) (cb_initialDebt b)) with
  | Some currentDebt_, Some initialDebt_ =>
      Some {| client := cb_client b;
              currentDebt := currentDebt_;
              initialDebt := initialDebt_;
              initialDebtDate := now env;
              totalPaid := Num.zero;
              lastPayment := None;
              nextPayment :=
                default (mkNextPayment None None) (cb_nextPayment b);
              description := default "" (cb_description b);
              status := pending;
              isDeleted := false;
              deletedAt := None |}
  | _, _ => None
  end.

(** [clientDoc.debt = (clientDoc.debt || 0) + (currentDebt || 0)] with the
    [currentDebt] of the body as it came: the value computed, cast to the
    [Number] path it is assigned to. *)
Definition createdDebt (c : Client) (b : CreateBody) : option num :=
  castNumber
    (plus NumberToString (orZero (c_debt c))
       (orZeroValue (cb_currentDebt b))).

(** [router.post("/", ...)] *)
Definition createDebt (env : Env) (req : CreateReq) : DB -> Response * DB :=
  handle
    (if negb (bool_decide (cr_errors req = []))
     then ret (mkResponse 400 (BErrors (cr_errors req)))
     else
       let b := cr_body req in
       clientExists <~ Store.Client_findById (cb_client b);
       match clientExists with
       | None => ret (mkResponse 404 (BMessage "Mijoz topilmadi"))
       | Some _ =>
           match newDebtor env b with
           | None => throw ValidationError      (* debtor.save() *)
           | Some debtor =>
               debtorId <~ Store.Debtor_new;
               run Debtor_save debtorId debtor;
               run try_catch
                     (run Store.Transaction_create env
                            (debtCreatedEntry req debtorId debtor);
                      ret tt)
                     (fun transactionError => ret tt);
               clientDoc <~ Store.Client_findById (cb_client b);
               run match clientDoc with
                   | Some c =>
                       match createdDebt c b with
                       | Some v => Client_save (cb_client b) (set_c_debt v c)
                       | None => throw ValidationError  (* clientDoc.save() *)
                       end
                   | None => ret tt
                   end;
               populatedDebtor <~ Store.Debtor_findById_populate debtorId;
               ret (mkResponse 201 (BDebtor populatedDebtor))
           end
       end).

(** The debtor after the in-memory assignments of the payment handler. *)
Definition applyPayment (env : Env) (req : PayReq) (d : Debtor) : Debtor :=
  let payment := numValue (pr_payment req) in
  {| client := client d;
     currentDebt := Num.max Num.zero (Num.sub (currentDebt d) payment);
     initialDebt := initialDebt d;
     initialDebtDate := initialDebtDate d;
     totalPaid := Num.add (totalPaid d) payment;
     lastPayment := Some {| p_amount := payment; p_date := now env |};
     nextPayment :=
       match pr_nextPayment req with
       | Some np =>
           {| np_amount := Some (numberOrZero StringToNumber (na_amount np));
              np_dueDate := na_dueDate np |}
       | None => nextPayment d
       end;
     description := description d;
     status := status d;
     isDeleted := isDeleted d;
     deletedAt := deletedAt d |}.

(** [router.post("/:id/payment", ...)] *)
Definition payDebt (env : Env) (id : N) (req : PayReq)
    : DB -> Response * DB :=
  handle
    (if negb (truthy (pr_payment req)) || negb (isNumber (pr_payment req))
     then ret (mkResponse 400
                 (BMessage "To'lov miqdori raqam bo'lishi kerak"))
     else
       found <~ Store.Debtor_findOne id;
       match found with
       | None => ret (mkResponse 404 (BMessage "Qarzdor topilmadi"))
       | Some d =>
           let payment := numValue (pr_payment req) in
           let debtor := applyPayment env req d in
           run Debtor_save id debtor;
           run try_catch
                 (run Store.Transaction_create env
                        (debtPaymentEntry req id debtor);
                  ret tt)
                 (fun transactionError => ret tt);
           clientDoc <~ Store.Client_findById (client debtor);
           run match clientDoc with
               | Some c =>
                   Client_save (client debtor)
                     (set_c_debt (Num.sub (orZero (c_debt c)) payment) c)
               | None => ret tt
               end;
           updatedDebtor <~ Store.Debtor_findById_populate id;
           ret (mkResponse 200 (BDebtor updatedDebtor))
       end).

(** The debtor after the merge of the PATCH handler. *)
Definition applyPatch (req : PatchReq) (d : Debtor) : Debtor :=
  let d1 :=
    match pt_nextPayment req with
    | Some np =>
        {| client := client d; currentDebt := currentDebt d;
           initialDebt := initialDebt d;
           initialDebtDate := initialDebtDate d;
           totalPaid := totalPaid d; lastPayment := lastPayment d;
           nextPayment := np;
           description := description d; status := status d;
           isDeleted := isDeleted d; deletedAt := deletedAt d |}
    | None => d
    end in
  let d2 :=
    match pt_description req with
    | Some s =>
        {| client := client d1; currentDebt := currentDebt d1;
           initialDebt := initialDebt d1;
           initialDebtDate := initialDebtDate d1;
           totalPaid := totalPaid d1; lastPayment := lastPayment d1;
           nextPayment := nextPayment d1;
           description := s; status := status d1;
           isDeleted := isDeleted d1; deletedAt := deletedAt d1 |}
    | None => d1
    end in
  assign d2 (pt_updates req).

(** [router.patch("/:id", ...)] *)
Definition editDebt (env : Env) (id : N) (req : PatchReq)
    : DB -> Response * DB :=
  handle
    (found <~ Store.Debtor_findOne id;
     match found with
     | None => ret (mkResponse 404 (BMessage "Qarzdor topilmadi"))
     | Some d =>
         let debtor := applyPatch req d in
         run Debtor_save id debtor;
         let clientId := client debtor in   (* an ObjectId: always truthy *)
         allDebts <~ Store.Debtor_find clientId;
         run Store.Client_setDebt clientId (totalDebtLoop allDebts);
         updatedDebtor <~ Store.Debtor_findById_populate id;
         ret (mkResponse 200 (BDebtor updatedDebtor))
     end).

(** [router.delete("/:id", ...)] *)
Definition deleteDebt (env : Env) (id : N) : DB -> Response * DB :=
  handle
    (found <~ Store.Debtor_findOne id;
     match found with
     | None => ret (mkResponse 404 (BMessage "Qarzdor topilmadi"))
     | Some d =>
         clientDoc <~ Store.Client_findById (client d);
         run match clientDoc with
             | Some c =>
                 run Client_save (client d)
                       (set_c_debt
                          (Num.sub (orZero (c_debt c))
                             (orZero (currentDebt d))) c);
                 Store.Client_setDebt (client d) Num.zero
             | None => ret tt
             end;
         run Debtor_save id (softDeleted env d);
         ret (mkResponse 200 (BMessage "Qarzdor o'chirildi"))
     end).

End Handlers.
End DebtorRoutes.

(** ** The transaction router *)

Module TransactionRoutes.

(** Body of [POST /transactions/cash-in] and [/cash-out]; [description]
    and the unused [branch] are left out. *)
Record CashReq : Type := mkCashReq {
  cq_amount : jsval;
  cq_paymentType : jsval;
  cq_createdBy : IdRef;
  cq_client : IdRef
}.

(** The document a cash movement hands to [Transaction.create]:
    [{ type, amount, paymentType, description, branch, createdBy,
       client }]. *)
Definition cashEntry (type : TxType) (req : CashReq) (amount : num)
    : TxDoc :=
  {| x_type := type;
     x_amount := amount;
     x_paymentType := cq_paymentType req;
     x_relatedModel := None;
     x_relatedId := None;
     x_client := cq_client req;
     x_createdBy := cq_createdBy req |}.

(** [new Date(`${year}-01-01T00:00:00.000Z`)], for a four-digit year. *)
Definition yearStart (year : Z) : Date := mkDate year Jan 0.

(** One output document of the [$group] stage:
    [{ _id: { month, type }, total }]. *)
Record Group : Type := mkGroup {
  g_month : nat;
  g_type : TxType;
  g_total : num
}.

(** The amounts of the projected documents keyed [(month, type)], in
    pipeline order. *)
Definition keyed (month : nat) (type : TxType)
    (docs : list (nat * TxType * num)) : list num :=
  snd <$> List.filter
            (fun d => bool_decide (d.1.1 = month /\ d.1.2 = type)) docs.

Section Aggregation.
(** The accumulator of [$sum] on the amounts of one group, in pipeline
    order.  The summation runs inside the database server: how it adds up
    is not in the sources. *)
Variable sumAccumulator : list num -> num.

(** The pipeline [$match], [$project], [$group] of the monthly statistics:
    one output document for each key [(month, type)] that occurs, with the
    [$sum] of the amounts keyed so as its [total]. *)
Definition aggregate (from to : Date) (db : DB) : list Group :=
  let matched :=
    List.filter
      (fun t => date_leb from (t_createdAt t) && date_ltb (t_createdAt t) to)
      (scan (transactions db)).*2 in
  let projected :=
    List.map
      (fun t => (monthNumber (d_month (t_createdAt t)), t_type t, t_amount t))
      matched in
  (fun k => mkGroup k.1 k.2 (sumAccumulator (keyed k.1 k.2 projected)))
    <$> remove_dups (fst <$> projected).
End Aggregation.

(** The body of [result.forEach((item) => { ... })] on the pair of arrays.
    [$month] is at least 1 and at most 12, so [index] is one of the twelve
    slots and the assignment never extends the array. *)
Definition place (arrays : list num * list num) (item : Group)
    : list num * list num :=
  let '(cashIn, cashOut) := arrays in
  let index := (g_month item - 1)%nat in
  match g_type item with
  | cash_in => (<[index := g_total item]> cashIn, cashOut)
  | cash_out => (cashIn, <[index := g_total item]> cashOut)
  | _ => (cashIn, cashOut)
  end.

Section Handlers.
Variable clientSchema : Client -> bool.
Variable StringToNumber : string -> num.
Variable sumAccumulator : list num -> num.

Local Abbreviation Client_save := (Store.Client_save clientSchema).
Local Open Scope op_scope.

(** [router.get("/", ...)] *)
Definition listTransactions : DB -> Response * DB :=
  handle
    (result <~ Store.Transaction_find;
     ret (mkResponse 200 (BTransactions result))).

(** [router.post("/cash-in", ...)] *)
Definition cashIn (env : Env) (req : CashReq) : DB -> Response * DB :=
  handle
    (let amount := numberOrZero StringToNumber (cq_amount req) in
     if Num.ltb amount Num.zero
     then ret (mkResponse 400 (BMessage "amount musbat bo'lishi kerak"))
     else
       isClient <~ Store.Client_findByRef (cq_client req);
       run match isClient with
           | Some (cid, c) =>
               (* isClient.debt -= amount; await isClient.save() *)
               Client_save cid (set_c_debt (Num.sub (c_debt c) amount) c)
           | None => ret tt
           end;
       transaction <~ Store.Transaction_create env
                        (cashEntry cash_in req amount);
       ret (mkResponse 201 (BTransaction transaction))).

(** [router.post("/cash-out", ...)] *)
Definition cashOut (env : Env) (req : CashReq) : DB -> Response * DB :=
  handle
    (let amount := numberOrZero StringToNumber (cq_amount req) in
     if Num.ltb amount Num.zero
     then ret (mkResponse 400 (BMessage "amount musbat bo'lishi kerak"))
     else
       isClient <~ Store.Client_findByRef (cq_client req);
       run match isClient with
           | Some (cid, c) =>
               (* isClient.debt += amount; await isClient.save() *)
               Client_save cid (set_c_debt (Num.add (c_debt c) amount) c)
           | None => ret tt
           end;
       transaction <~ Store.Transaction_create env
                        (cashEntry cash_out req amount);
       ret (mkResponse 201 (BTransaction transaction))).

(** [router.delete("/:id", ...)] *)
Definition deleteTransaction (id : N) : DB -> Response * DB :=
  handle
    (transaction <~ Store.Transaction_findByIdAndDelete id;
     match transaction with
     | None => ret (mkResponse 404 (BMessage "Transaction not found"))
     | Some _ => ret (mkResponse 200 (BMessage "Transaction o`chirildi"))
     end).

(** [parseInt(req.query.year) || new Date().getFullYear()]; [None] is the
    [NaN] of an absent or non-numeric query parameter. *)
Definition requestedYear (env : Env) (query : option Z) : Z :=
  match query with
  | Some y => if y =? 0 then fullYear env else y
  | None => fullYear env
  end.

(** [router.get("/statistics/monthly-transactions", ...)] *)
Definition monthlyTransactions (env : Env) (query : option Z)
    : DB -> Response * DB :=
  handle
    (let year := requestedYear env query in
     fun db =>
       let result :=
         aggregate sumAccumulator (yearStart year) (yearStart (year + 1))
           db in
       let '(cashIn, cashOut) :=
         fold_left place result
           (replicate 12 Num.zero, replicate 12 Num.zero) in
       (Done (mkResponse 200 (BMonthly cashIn cashOut)), db)).

End Handlers.
End TransactionRoutes.

(** ** The read routes of [src/routes/debtorRoutes.js] *)

Module DebtorQueries.

(** The query string of [GET /debtors]: [client] is absent, not castable
    to an ObjectId, or an id; [status] is absent (or empty) or a non-empty
    string; the two dates are absent or dates ([new Date(...)] of a
    well-formed date string). *)
Record ListQuery : Type := mkListQuery {
  lq_client : IdRef;
  lq_status : option string;
  lq_startDate : option Date;
  lq_endDate : option Date
}.

(** The stored spelling of a status. *)
Definition statusName (s : Status) : string :=
  match s with
  | pending => "pending"
  | partial => "partial"
  | paid => "paid"
  | overdue => "overdue"
  end.

(** [createdAt: { $gte: startDate, $lte: endDate }], each bound present only
    when the query gives it. *)
Definition inWindow (startDate endDate : option Date) (createdAt : Date)
    : bool :=
  match startDate with Some s => date_leb s createdAt | None => true end
  && match endDate with Some e => date_leb createdAt e | None => true end.

(** One debtor of a list answer: its [_id], the document, the populated
    client. *)
Record Listed : Type := mkListed {
  l_id : N;
  l_debtor : Debtor;
  l_client : option Client
}.

(** [statusCounts] of the summary. *)
Record StatusCounts : Type := mkStatusCounts {
  n_pending : nat;
  n_partial : nat;
  n_paid : nat;
  n_overdue : nat
}.

(** The answer of [GET /debtors/stats/summary]. *)
Record Summary : Type := mkSummary {
  s_totalCurrentDebt : num;
  s_totalPaid : num;
  s_statusCounts : StatusCounts;
  s_totalDebtors : nat
}.

(** Bodies of the two list answers. *)
Inductive ReadBody : Type :=
| RDebtors (debtors : list Listed)
| RSummary (stats : Summary)
| RFailure (e : Error).

Record ReadResponse : Type := mkReadResponse {
  r_statusCode : N;
  r_body : ReadBody
}.

(** The outer [try]/[catch] of a list handler. *)
Definition handleRead (h : Op ReadResponse) : DB -> ReadResponse * DB :=
  fun db =>
    match h db with
    | (Done r, db') => (r, db')
    | (Thrown e, db') => (mkReadResponse 500 (RFailure e), db')
    end.

(** [statusCounts[debtor.status]++] *)
Definition countStatus (s : Status) (c : StatusCounts) : StatusCounts :=
  match s with
  | pending => mkStatusCounts (S (n_pending c)) (n_partial c) (n_paid c)
                 (n_overdue c)
  | partial => mkStatusCounts (n_pending c) (S (n_partial c)) (n_paid c)
                 (n_overdue c)
  | paid => mkStatusCounts (n_pending c) (n_partial c) (S (n_paid c))
              (n_overdue c)
  | overdue => mkStatusCounts (n_pending c) (n_partial c) (n_paid c)
                 (S (n_overdue c))
  end.

(** The three accumulators of the summary loop
    [for (const debtor of debtors) { totalCurrentDebt += debtor.currentDebt
     || 0; totalPaid += debtor.totalPaid || 0;
     statusCounts[debtor.status]++; }]. *)
Definition summaryLoop (found : list Debtor) : num * num * StatusCounts :=
  fold_left
    (fun '(totalCurrentDebt, totalPaid_, statusCounts) debtor =>
       (Num.add totalCurrentDebt (orZero (currentDebt debtor)),
        Num.add totalPaid_ (orZero (totalPaid debtor)),
        countStatus (status debtor) statusCounts))
    found (Num.zero, Num.zero, mkStatusCounts 0 0 0 0).

Section Handlers.
(** The [createdAt] timestamp Mongoose keeps for each stored debtor, by
    [_id]; the Debtor record of the model does not carry it. *)
Variable createdAt : N -> Date.

(** [sort({ createdAt: -1 })]: the newer document comes first. *)
Definition newerFirst (a b : N * Debtor) : Prop :=
  date_leb (createdAt b.1) (createdAt a.1) = true.

#[global] Instance newerFirst_dec (a b : N * Debtor) :
  Decision (newerFirst a b).
Proof. unfold newerFirst. apply _. Defined.

(** The filter [{ isDeleted: false, client?, status?, createdAt? }] of the
    list route on one stored debtor. *)
Definition listFilter (q : ListQuery) (kd : N * Debtor) : bool :=
  negb (isDeleted kd.2)
  && match lq_client q with
     | GoodId c => (client kd.2 =? c)%N
     | _ => true
     end
  && match lq_status q with
     | Some s => String.eqb (statusName (status kd.2)) s
     | None => true
     end
  && inWindow (lq_startDate q) (lq_endDate q) (createdAt kd.1).

(** [Debtor.find(query).populate("client").sort({ createdAt: -1 })]; a
    [client] that does not cast makes the query throw. *)
Definition Debtor_findList (q : ListQuery) : Op (list Listed) :=
  match lq_client q with
  | BadId => throw CastError
  | _ =>
      fun db =>
        (Done ((fun kd => mkListed kd.1 kd.2 (clients db !! client kd.2))
                 <$> merge_sort newerFirst
                       (List.filter (listFilter q)
                          (scan (debtors db)))), db)
  end.

Local Open Scope op_scope.

(** [router.get("/", ...)] *)
Definition listDebtors (q : ListQuery) : DB -> ReadResponse * DB :=
  handleRead
    (found <~ Debtor_findList q;
     ret (mkReadResponse 200 (RDebtors found))).

(** [router.get("/:id", ...)] *)
Definition getDebtor (id : N) : DB -> Response * DB :=
  handle
    (found <~ Store.Debtor_findOne id;
     match found with
     | None => ret (mkResponse 404 (BMessage "Qarzdor topilmadi"))
     | Some d =>
         populated <~ (fun db => (Done (Some (d, clients db !! client d)),
                                  db));
         ret (mkResponse 200 (BDebtor populated))
     end).

(** [Debtor.find({ isDeleted: false, createdAt? })] of the summary. *)
Definition Debtor_findActive (startDate endDate : option Date)
    : Op (list Debtor) :=
  fun db =>
    (Done (List.filter
             (fun kd => negb (isDeleted kd.2)
                        && inWindow startDate endDate (createdAt kd.1))
             (scan (debtors db))).*2, db).

(** [router.get("/stats/summary", ...)] *)
Definition statsSummary (startDate endDate : option Date)
    : DB -> ReadResponse * DB :=
  handleRead
    (found <~ Debtor_findActive startDate endDate;
     let '(totalCurrentDebt, totalPaid_, statusCounts) :=
       summaryLoop found in
     ret (mkReadResponse 200
            (RSummary (mkSummary totalCurrentDebt totalPaid_ statusCounts
                         (length found))))).

End Handlers.
End DebtorQueries.

(** ** [PUT /transactions/:id] of the transaction router *)

Module TransactionEdit.
Import TransactionRoutes.

(** [client && client !== String(transaction.client)]: the body names a
    client and it is not the one stored on the entry.  Ids are compared by
    value: the body spells an id the way [String] prints it (24 lower-case
    hex digits). *)
Definition namesOtherClient (r : IdRef) (stored : option N) : bool :=
  match r with
  | NoId => false
  | BadId => true
  | GoodId c =>
      match stored with
      | Some c' => negb (c =? c')%N
      | None => true
      end
  end.

(** The reference an untouched [transaction.client] hands back to the
    schema on [save]. *)
Definition storedRef (stored : option N) : IdRef :=
  from_option GoodId NoId stored.

(** Undoing the entry on its old client:
    [if (type === "cash-in") debt += transaction.amount;
     else if (type === "cash-out") debt -= transaction.amount]. *)
Definition reverted (t : Transaction) (debt_ : num) : num :=
  match t_type t with
  | cash_in => Num.add debt_ (t_amount t)
  | cash_out => Num.sub debt_ (t_amount t)
  | _ => debt_
  end.

(** Applying the new amount to the new client:
    [if (type === "cash-in") debt -= amount;
     else if (type === "cash-out") debt += amount]. *)
Definition applied (t : Transaction) (amount debt_ : num) : num :=
  match t_type t with
  | cash_in => Num.sub debt_ amount
  | cash_out => Num.add debt_ amount
  | _ => debt_
  end.

(** Adjusting the same client by the change of amount:
    [if (type === "cash-in") debt += transaction.amount - amount;
     else if (type === "cash-out") debt -= transaction.amount - amount]. *)
Definition adjusted (t : Transaction) (amount debt_ : num) : num :=
  match t_type t with
  | cash_in => Num.add debt_ (Num.sub (t_amount t) amount)
  | cash_out => Num.sub debt_ (Num.sub (t_amount t) amount)
  | _ => debt_
  end.

(** The entry as the handler leaves it in memory before [save]:
    [client] reassigned when the body names another one, [amount],
    [paymentType] and [createdBy] taken from the body, the rest kept. *)
Definition editedEntry (t : Transaction) (req : CashReq) (amount : num)
    : TxDoc :=
  {| x_type := t_type t;
     x_amount := amount;
     x_paymentType := cq_paymentType req;
     x_relatedModel := t_relatedModel t;
     x_relatedId := t_relatedId t;
     x_client :=
       if namesOtherClient (cq_client req) (t_client t)
       then cq_client req else storedRef (t_client t);
     x_createdBy := cq_createdBy req |}.

(** [Transaction.findById(id)] *)
Definition Transaction_findById (id : N) : Op (option Transaction) :=
  fun db => (Done (transactions db !! id), db).

(** [transaction.save()] on an entry found not flagged: the schema
    validates the reassigned paths and the document replaces the stored
    one, keeping its [createdAt]. *)
Definition Transaction_save (id : N) (t : Transaction) (doc : TxDoc)
    : Op Transaction :=
  fun db =>
    match transactionSchema (t_createdAt t) doc with
    | None => (Thrown ValidationError, db)
    | Some t' => (Done t', set_transactions (insert id t') db)
    end.

(** [Client.findById(transaction.client)]; [findById(null)] finds
    nothing. *)
Definition Client_findStored (stored : option N) : Op (option (N * Client)) :=
  match stored with
  | Some c => fun db => (Done (pair c <$> clients db !! c), db)
  | None => ret None
  end.

Section Handlers.
Variable clientSchema : Client -> bool.
Variable StringToNumber : string -> num.

Local Abbreviation Client_save := (Store.Client_save clientSchema).
Local Open Scope op_scope.

(** [router.put("/:id", ...)] *)
Definition editTransaction (id : N) (req : CashReq) : DB -> Response * DB :=
  handle
    (let amount := numberOrZero StringToNumber (cq_amount req) in
     if Num.ltb amount Num.zero
     then ret (mkResponse 400 (BMessage "amount musbat bo'lishi kerak"))
     else
       found <~ Transaction_findById id;
       match found with
       | None => ret (mkResponse 404 (BMessage "Transaction topilmadi"))
       | Some transaction =>
           if t_isDeleted transaction
           then ret (mkResponse 404 (BMessage "Transaction topilmadi"))
           else
             run (if namesOtherClient (cq_client req) (t_client transaction)
                  then
                    oldClient <~ Client_findStored (t_client transaction);
                    run match oldClient with
                        | Some (cid, c) =>
                            Client_save cid
                              (set_c_debt (reverted transaction (c_debt c)) c)
                        | None => ret tt
                        end;
                    newClient <~ Store.Client_findByRef (cq_client req);
                    match newClient with
                    | Some (cid, c) =>
                        Client_save cid
                          (set_c_debt
                             (applied transaction amount (c_debt c)) c)
                    | None => ret tt
                    end
                  else
                    match cq_client req with
                    | NoId => ret tt
                    | client_ =>
                        curClient <~ Store.Client_findByRef client_;
                        match curClient with
                        | Some (cid, c) =>
                            Client_save cid
                              (set_c_debt
                                 (adjusted transaction amount (c_debt c)) c)
                        | None => ret tt
                        end
                    end);
             saved <~ Transaction_save id transaction
                        (editedEntry transaction req amount);
             ret (mkResponse 200 (BTransaction saved))
       end).

End Handlers.
End TransactionEdit.
(** ** Reference quantities of the specification *)

#[global] Instance num_eq_dec : EqDecision num.
Proof. unfold num. solve_decision. Defined.

(** The whole amount a number stands for: the integer it is, 0 when it is
    none. *)
Definition whole (x : num) : Z := default 0 (Num.toZ x).

(** The number is a whole, non-negative amount that is a safe integer. *)
Definition isWhole (x : num) : bool :=
  match Num.toZ x with
  | Some n => (0 <=? n) && (n <=? 2 ^ 53 - 1) && bool_decide (x = Num.ofZ n)
  | None => false
  end.

(** The non-deleted Debtor records of client [cid], in query order. *)
Definition openDebts (db : DB) (cid : N) : list Debtor :=
  List.filter (fun d => (client d =? cid)%N && negb (isDeleted d))
    (scan (debtors db)).*2.

(** The specification's client balance, in whole amounts: the sum of
    [currentDebt] over all non-deleted Debtor records of client [cid]. *)
Definition activeDebtSum (db : DB) (cid : N) : Z :=
  map_fold
    (fun _ d acc =>
       if bool_decide (client d = cid /\ isDeleted d = false)
       then whole (currentDebt d) + acc else acc)
    0 (debtors db).

(** The amounts of every stored transaction of type [type] created in
    month [m] of [year], whatever its [isDeleted] flag, in scan order. *)
Definition monthAmounts (db : DB) (year : Z) (type : TxType) (m : Month)
    : list num :=
  t_amount
    <$> List.filter
          (fun t => bool_decide (d_year (t_createdAt t) = year
                                 /\ d_month (t_createdAt t) = m
                                 /\ t_type t = type))
          (scan (transactions db)).*2.

(** Their [$sum]; 0 when there is none. *)
Definition monthTotal (sumAccumulator : list num -> num) (db : DB)
    (year : Z) (type : TxType) (m : Month) : num :=
  match monthAmounts db year type m with
  | [] => Num.zero
  | amounts => sumAccumulator amounts
  end.

(** ** Auxiliary definitions for the proofs *)

(** The state after the guarded ledger append
    [try { await Transaction.create(doc) } catch (e) { console.error(...) }]. *)
Definition afterAppend (env : Env) (doc : TxDoc) (db : DB) : DB :=
  match transactionSchema (now env) doc with
  | Some t =>
      if ledgerFault env then db
      else set_transactions (insert (fresh (dom (transactions db))) t) db
  | None => db
  end.

(** The append fails: the schema rejects the entry or the store refuses
    the insert. *)
Definition appendFails (env : Env) (doc : TxDoc) : bool :=
  match transactionSchema (now env) doc with
  | Some _ => ledgerFault env
  | None => true
  end.

(** The total of the group keyed [(month, type)] in a [$group] output, if
    there is such a group. *)
Fixpoint groupTotal (month : nat) (type : TxType)
    (groups : list TransactionRoutes.Group) : option num :=
  match groups with
  | [] => None
  | g :: rest =>
      if bool_decide (TransactionRoutes.g_month g = month
                      /\ TransactionRoutes.g_type g = type)
      then Some (TransactionRoutes.g_total g)
      else groupTotal month type rest
  end.

(** The keys [_id: { month, type }] of a [$group] output, in order. *)
Definition groupKeys (groups : list TransactionRoutes.Group)
    : list (nat * TxType) :=
  List.map (fun g => (TransactionRoutes.g_month g,
                      TransactionRoutes.g_type g)) groups.

(** The outcome of a handler that ends with an unguarded
    [const transaction = await Transaction.create(doc);
     res.status(201).json(transaction)]. *)
Definition recorded (env : Env) (doc : TxDoc) (db : DB) : Response * DB :=
  match transactionSchema (now env) doc with
  | None => (mkResponse 500 (BFailure ValidationError), db)
  | Some t =>
      if ledgerFault env
      then (mkResponse 500 (BFailure StoreError), db)
      else (mkResponse 201 (BTransaction t),
            set_transactions (insert (fresh (dom (transactions db))) t) db)
  end.

(** ** Auxiliary definitions for the read and edit routes *)

(** The outcome of the final [await transaction.save(); res.json(...)] of
    the edit handler. *)
Definition editSaved (id : N) (t : Transaction) (doc : TxDoc) (db : DB)
    : Response * DB :=
  match transactionSchema (t_createdAt t) doc with
  | None => (mkResponse 500 (BFailure ValidationError), db)
  | Some t' =>
      (mkResponse 200 (BTransaction t'), set_transactions (insert id t') db)
  end.

(** The outcome of [doc.debt = v; await doc.save()] on the client found
    under a body reference, followed by [next]; [debt_] computes the new
    debt from the stored one. *)
Definition withClient (clientSchema : Client -> bool) (r : IdRef)
    (debt_ : num -> num) (next : DB -> Response * DB) (db : DB)
    : Response * DB :=
  match r with
  | NoId => next db
  | BadId => (mkResponse 500 (BFailure CastError), db)
  | GoodId c =>
      match clients db !! c with
      | Some C =>
          if clientSchema (set_c_debt (debt_ (c_debt C)) C)
          then next (set_clients (insert c (set_c_debt (debt_ (c_debt C)) C))
                       db)
          else (mkResponse 500 (BFailure ValidationError), db)
      | None => next db
      end
  end.

(** The twelve months in calendar order. *)
Definition months : list Month :=
  [Jan; Feb; Mar; Apr; May; Jun; Jul; Aug; Sep; Oct; Nov; Dec].

(** The twelve monthly totals of one transaction type. *)
Definition monthSeries (sumAccumulator : list num -> num) (db : DB)
    (year : Z) (type : TxType) : list num :=
  (fun m => monthTotal sumAccumulator db year type m) <$> months.

(** The sum of [g], in whole amounts, over the non-deleted debtors. *)
Definition activeSum (g : Debtor -> num) (db : DB) : Z :=
  map_fold (fun _ d acc => if isDeleted d then acc else whole (g d) + acc)
    0 (debtors db).

(** The sum of the whole amounts of a list of numbers. *)
Definition wholeSum (amounts : list num) : Z :=
  foldr (fun x a => whole x + a) 0 amounts.

(** The non-deleted debtors in query order. *)
Definition openDebtors (db : DB) : list Debtor :=
  (List.filter (fun kd : N * Debtor => negb (isDeleted kd.2))
     (scan (debtors db))).*2.

(** The running double-precision sum of [g || 0] over a list of debtors,
    as the accumulation loops of the handlers compute it. *)
Definition runningTotal (g : Debtor -> num) (l : list Debtor) : num :=
  fold_left (fun a d => Num.add a (orZero (g d))) l Num.zero.

(** Every open debtor carries whole amounts. *)
Definition wholeBooks (db : DB) : bool :=
  forallb (fun d => isWhole (currentDebt d) && isWhole (totalPaid d))
    (openDebtors db).

(** The body [{}] of a [PATCH]. *)
Definition emptyPatch : DebtorRoutes.PatchReq :=
  DebtorRoutes.mkPatchReq None None
    (DebtorRoutes.mkUpdates None None None None None None None None None).

(** The number of counted debtors in a [statusCounts] object. *)
Definition countedDebtors (c : DebtorQueries.StatusCounts) : nat :=
  (DebtorQueries.n_pending c + DebtorQueries.n_partial c
   + DebtorQueries.n_paid c + DebtorQueries.n_overdue c)%nat.

(** Concrete schemas and coercions used to run the handlers. *)
Definition acceptAll {A : Type} (_ : A) : bool := true.

(** A strict Debtor schema: every amount has [min: 0]. *)
Definition nonNegativeDebtor (d : Debtor) : bool :=
  Num.leb Num.zero (currentDebt d) && Num.leb Num.zero (initialDebt d)
  && Num.leb Num.zero (totalPaid d).

(** A sample [$sum]: the running double-precision sum, left to right. *)
Definition runningSum (amounts : list num) : num :=
  fold_left Num.add amounts Num.zero.

(** A [StringToNumber] that reads no string as a number. *)
Definition notANumber (_ : string) : num := Num.nan.

(** The decimal digits of a natural number, and the natural number a string
    of decimal digits writes. *)
Definition digitChar (n : N) : Ascii.ascii := Ascii.ascii_of_N (48 + n).

Fixpoint decimal (fuel : nat) (n : N) (acc : string) : string :=
  match fuel with
  | O => acc
  | S fuel' =>
      let acc' := String (digitChar (n mod 10)) acc in
      if (n <? 10)%N then acc' else decimal fuel' (n / 10) acc'
  end.

Fixpoint readDecimal (s : string) (acc : N) : option N :=
  match s with
  | EmptyString => Some acc
  | String c rest =>
      let d := Ascii.N_of_ascii c in
      if ((48 <=? d) && (d <=? 57))%N
      then readDecimal rest (10 * acc + (d - 48))
      else None
  end.

(** [Number::toString] and [StringToNumber] where they deal with whole,
    non-negative amounts, which are written in plain decimal digits;
    elsewhere the first answers ["NaN"] and the second [NaN]. *)
Definition wholeToString (x : num) : string :=
  match Num.toZ x with
  | Some n => if 0 <=? n then decimal 400 (Z.to_N n) "" else "NaN"
  | None => "NaN"
  end.

Definition wholeOfString (s : string) : num :=
  match s with
  | EmptyString => Num.zero
  | _ => match readDecimal s 0 with
         | Some n => Num.ofZ (Z.of_N n)
         | None => Num.nan
         end
  end.

(** ** Sample states and requests *)

Module Sample.
Import DebtorRoutes TransactionRoutes.

Definition march : Date := mkDate 2024 Mar 0.
Definition env : Env := mkEnv march 2024 false.
(** The same instant with the ledger store refusing inserts. *)
Definition envDown : Env := mkEnv march 2024 true.

(** A debt of 1000 of which 400 are paid. *)
Definition D1 : Debtor :=
  {| client := 1; currentDebt := 600; initialDebt := 1000;
     initialDebtDate := mkDate 2024 Jan 0; totalPaid := 400;
     lastPayment := Some (mkPayment 400 (mkDate 2024 Feb 0));
     nextPayment := mkNextPayment None None; description := "";
     status := pending; isDeleted := false; deletedAt := None |}.

(** A second open debt of the same client. *)
Definition D2 : Debtor :=
  {| client := 1; currentDebt := 250; initialDebt := 250;
     initialDebtDate := mkDate 2024 Feb 0; totalPaid := 0;
     lastPayment := None;
     nextPayment := mkNextPayment None None; description := "";
     status := pending; isDeleted := false; deletedAt := None |}.

(** A client with no debt and no debtor record. *)
Definition fresh_client : DB :=
  mkDB {[ 1%N := mkClient "C" 0 ]} ∅ ∅.

(** A client with the single open debt [D1]. *)
Definition one_debt : DB :=
  mkDB {[ 1%N := mkClient "C" 600 ]} {[ 10%N := D1 ]} ∅.

(** A client with the two open debts [D1] and [D2]. *)
Definition two_debts : DB :=
  mkDB {[ 1%N := mkClient "C" 850 ]}
       (<[ 10%N := D1 ]> {[ 11%N := D2 ]}) ∅.

(** A cash-in of 50 recorded in March 2024 and flagged [isDeleted]. *)
Definition flagged_entry : Transaction :=
  {| t_type := cash_in; t_amount := 50; t_paymentType := cash;
     t_relatedModel := None; t_relatedId := None;
     t_client := Some 1%N; t_createdBy := None;
     t_isDeleted := true; t_createdAt := march |}.

Definition flagged_ledger : DB :=
  mkDB {[ 1%N := mkClient "C" (-50) ]} ∅ {[ 7%N := flagged_entry ]}.

(** A client whose debt is [-2^53], with the open debt [D1]. *)
Definition deep_credit : DB :=
  mkDB {[ 1%N := mkClient "C" (-9007199254740992) ]} {[ 10%N := D1 ]} ∅.

(** A client whose debt is [2^53]. *)
Definition large_balance : DB :=
  mkDB {[ 1%N := mkClient "C" 9007199254740992 ]} ∅ ∅.

(** An open debt of [amount], nothing paid. *)
Definition owing (amount : Z) : Debtor :=
  {| client := 1; currentDebt := amount; initialDebt := amount;
     initialDebtDate := mkDate 2024 Jan 0; totalPaid := 0;
     lastPayment := None;
     nextPayment := mkNextPayment None None; description := "";
     status := pending; isDeleted := false; deletedAt := None |}.

(** Two open debts of one client: [2^53] and 1. *)
Definition large_debts : DB :=
  mkDB {[ 1%N := mkClient "C" 0 ]}
       (<[ 10%N := owing 9007199254740992 ]> {[ 11%N := owing 1 ]}) ∅.

(** Three open debts of one client: [2^53], 1 and 1. *)
Definition three_large_debts : DB :=
  mkDB {[ 1%N := mkClient "C" 0 ]}
       (<[ 10%N := owing 9007199254740992 ]>
          (<[ 11%N := owing 1 ]> {[ 12%N := owing 1 ]})) ∅.

(** The two open debts [D1] and [D2] of a client whose [debt] has drifted
    to 0. *)
Definition drifted : DB :=
  mkDB {[ 1%N := mkClient "C" 0 ]}
       (<[ 10%N := D1 ]> {[ 11%N := D2 ]}) ∅.

(** The debtor a creation request for client 1 with the number
    [currentDebt] and nothing else builds. *)
Definition owed (env : Env) (currentDebt : Z) : Debtor :=
  {| client := 1; currentDebt := currentDebt; initialDebt := currentDebt;
     initialDebtDate := now env; totalPaid := Num.zero;
     lastPayment := None;
     nextPayment := mkNextPayment None None; description := "";
     status := pending; isDeleted := false; deletedAt := None |}.

Definition create (currentDebt : Z) : CreateReq :=
  mkCreateReq [] (mkCreateBody 1 (VNum currentDebt) None None None) None.

(** The same request with the amount sent as a string. *)
Definition createWith (currentDebt : string) : CreateReq :=
  mkCreateReq [] (mkCreateBody 1 (VStr currentDebt) None None None) None.

Definition pay (payment : Z) : PayReq :=
  mkPayReq (VNum payment) None None.

(** [PATCH] body [{ currentDebt: v }]. *)
Definition patch_currentDebt (v : num) : PatchReq :=
  mkPatchReq None None
    (mkUpdates None (Some v) None None None None None None None).

(** [PATCH] body [{ totalPaid: v }]. *)
Definition patch_totalPaid (v : num) : PatchReq :=
  mkPatchReq None None
    (mkUpdates None None None None (Some v) None None None None).

Definition move (amount : Z) : CashReq :=
  mkCashReq (VNum amount) (VStr "cash") NoId (GoodId 1).

End Sample.

(** Further sample states for the read and edit routes. *)
Module Sample2.
Import DebtorRoutes TransactionRoutes DebtorQueries.

(** A cash-in of 50 for client 1, recorded in March 2024, not flagged. *)
Definition live_entry : Transaction :=
  {| t_type := cash_in; t_amount := 50; t_paymentType := cash;
     t_relatedModel := None; t_relatedId := None;
     t_client := Some 1%N; t_createdBy := None;
     t_isDeleted := false; t_createdAt := Sample.march |}.

(** Two clients; the first carries the cash-in of 50. *)
Definition live_ledger : DB :=
  mkDB (<[ 1%N := mkClient "C" (-50) ]> {[ 2%N := mkClient "B" 0 ]})
       ∅ {[ 7%N := live_entry ]}.

(** A cash request for client [c]. *)
Definition move_for (c : N) (amount : Z) : CashReq :=
  mkCashReq (VNum amount) (VStr "cash") NoId (GoodId c).

(** A cash request that names no client. *)
Definition move_for_nobody (amount : Z) : CashReq :=
  mkCashReq (VNum amount) (VStr "cash") NoId NoId.

(** A cash request for client 1 without a payment type. *)
Definition move_without_type (amount : Z) : CashReq :=
  mkCashReq (VNum amount) VUndefined NoId (GoodId 1).

(** A cash request whose client does not cast to an id. *)
Definition move_for_garbage (amount : Z) : CashReq :=
  mkCashReq (VNum amount) (VStr "cash") NoId BadId.

(** The first open debt, flagged. *)
Definition D1_flagged : Debtor := softDeleted Sample.env Sample.D1.

(** A debtor whose client is not stored. *)
Definition orphan_debt : DB :=
  mkDB ∅ {[ 10%N := Sample.D1 ]} ∅.

(** Creation stamps: debtor [n] was created [n] milliseconds into January
    2024. *)
Definition stamp (id : N) : Date := mkDate 2024 Jan id.

End Sample2.
(** ** Facts about binary64 arithmetic *)

Section FloatFacts.
Import Num.

Lemma iter_pos_eq {A} (f : A -> A) p x :
  SpecFloat.iter_pos f p x = Pos.iter f x p.
Proof.
  revert x. induction p as [p IH|p IH|]; intros x; cbn.
  - rewrite !IH, <- !Pos.iter_swap. reflexivity.
  - rewrite !IH. reflexivity.
  - reflexivity.
Qed.

Lemma digits2_shift m k :
  digits2_pos (Pos.iter xO m k) = (digits2_pos m + k)%positive.
Proof.
  induction k as [|k IH] using Pos.peano_ind.
  - cbn. lia.
  - rewrite Pos.iter_succ. cbn. rewrite IH. lia.
Qed.

Lemma shift_value m k : Z.pos (Pos.iter xO m k) = Z.pos m * 2 ^ Z.pos k.
Proof.
  induction k as [|k IH] using Pos.peano_ind.
  - cbn. lia.
  - rewrite Pos.iter_succ, Pos2Z.inj_succ, Z.pow_succ_r by lia.
    rewrite Pos2Z.inj_xO, IH. lia.
Qed.

Lemma shr_exact m k :
  Pos.iter shr_1 (Build_shr_record (Z.pos (Pos.iter xO m k)) false false) k
  = Build_shr_record (Z.pos m) false false.
Proof.
  induction k as [|k IH] using Pos.peano_ind.
  - reflexivity.
  - rewrite Pos.iter_succ_r, Pos.iter_succ. cbn [shr_1 orb]. exact IH.
Qed.

Lemma fexp_eq e : fexp prec emax e = Z.max (e - 53) (-1074).
Proof. reflexivity. Qed.

Lemma round_canonical_gen s m e :
  fexp prec emax (Z.pos (digits2_pos m) + e) = e -> e <= 971 ->
  binary_round_aux prec emax s (Z.pos m) e loc_Exact = S754_finite s m e.
Proof.
  intros Hc He. unfold binary_round_aux, shr_fexp.
  cbn [Zdigits2 shr_record_of_loc]. rewrite Hc, Z.sub_diag.
  cbn [shr shr_m loc_of_shr_record round_nearest_even Zdigits2
       shr_record_of_loc].
  rewrite Hc, Z.sub_diag. cbn [shr shr_m].
  unfold emax, prec. destruct (Z.leb_spec e (1024 - 53)); [reflexivity | lia].
Qed.

Lemma round_canonical s m e :
  digits2_pos m = 53%positive -> -1074 <= e <= 971 ->
  binary_round_aux prec emax s (Z.pos m) e loc_Exact = S754_finite s m e.
Proof.
  intros Hd He. apply round_canonical_gen; [|lia].
  rewrite Hd, fexp_eq. lia.
Qed.

(** A value written with [k] extra trailing zero bits. *)
Lemma round_longer s m e k :
  digits2_pos m = 53%positive -> -1074 <= e <= 971 ->
  binary_round prec emax s (Pos.iter xO m k) (e - Z.pos k)
  = S754_finite s m e.
Proof.
  intros Hd He. unfold binary_round.
  rewrite digits2_shift, Hd, fexp_eq.
  replace (Z.max (Z.pos (53 + k) + (e - Z.pos k) - 53) (-1074)) with e by lia.
  unfold shl_align.
  replace (e - (e - Z.pos k)) with (Z.pos k) by lia.
  unfold binary_round_aux, shr_fexp. cbn [Zdigits2 shr_record_of_loc].
  rewrite digits2_shift, Hd, fexp_eq.
  replace (Z.max (Z.pos (53 + k) + (e - Z.pos k) - 53) (-1074)
           - (e - Z.pos k)) with (Z.pos k) by lia.
  cbn [shr]. rewrite iter_pos_eq, shr_exact.
  cbn [shr_m loc_of_shr_record round_nearest_even Zdigits2 shr_record_of_loc].
  rewrite Hd, fexp_eq.
  replace (e - Z.pos k + Z.pos k) with e by lia.
  replace (Z.max (53 + e - 53) (-1074) - e) with 0 by lia.
  cbn [shr shr_m].
  unfold emax, prec. destruct (Z.leb_spec e (1024 - 53)); [reflexivity | lia].
Qed.

(** A value written with [k] bits fewer than the 53 of its mantissa. *)
Lemma round_shorter s n e k :
  (digits2_pos n + k = 53)%positive -> -1074 <= e <= 971 ->
  binary_round prec emax s n (e + Z.pos k)
  = S754_finite s (Pos.iter xO n k) e.
Proof.
  intros Hd He. unfold binary_round.
  rewrite fexp_eq.
  replace (Z.max (Z.pos (digits2_pos n) + (e + Z.pos k) - 53) (-1074))
    with e by lia.
  unfold shl_align.
  replace (e - (e + Z.pos k)) with (Z.neg k) by lia.
  apply round_canonical; [|exact He].
  rewrite digits2_shift. exact Hd.
Qed.


Lemma digits2_bounds n :
  2 ^ (Z.pos (digits2_pos n) - 1) <= Z.pos n < 2 ^ Z.pos (digits2_pos n).
Proof.
  induction n as [n IH|n IH|]; cbn [digits2_pos];
    [rewrite Pos2Z.inj_succ, (Pos2Z.inj_xI n)
    |rewrite Pos2Z.inj_succ, (Pos2Z.inj_xO n)
    |cbn; lia];
    (replace (Z.succ (Z.pos (digits2_pos n)) - 1)
       with (Z.succ (Z.pos (digits2_pos n) - 1)) by lia;
     rewrite !Z.pow_succ_r by lia;
     remember (2 ^ (Z.pos (digits2_pos n) - 1)) as a eqn:Ha;
     remember (2 ^ Z.pos (digits2_pos n)) as b eqn:Hb;
     clear Ha Hb; lia).
Qed.

Lemma digits2_safe n :
  Z.pos n <= 2 ^ 53 - 1 -> (digits2_pos n <= 53)%positive.
Proof.
  intros Hn. pose proof (digits2_bounds n) as [Hlo _].
  destruct (Pos.leb_spec (digits2_pos n) 53) as [|Hgt]; [assumption|].
  exfalso.
  assert (2 ^ 53 <= 2 ^ (Z.pos (digits2_pos n) - 1))
    by (apply Z.pow_le_mono_r; lia).
  lia.
Qed.

Lemma round_repr s n E :
  (digits2_pos n <= 53)%positive ->
  -1074 <= Z.pos (digits2_pos n) + E - 53 <= 971 ->
  binary_round prec emax s n E
  = S754_finite s (normal n) (Z.pos (digits2_pos n) + E - 53).
Proof.
  intros Hd He. unfold normal.
  destruct (53 - Z.pos (digits2_pos n)) as [|k|k] eqn:Hk; [|  |lia].
  - assert (digits2_pos n = 53%positive) as Hd53 by lia.
    unfold binary_round. rewrite Hd53, fexp_eq.
    replace (Z.max (53 + E - 53) (-1074)) with E by lia.
    unfold shl_align. replace (E - E) with 0 by lia.
    replace (53 + E - 53) with E by lia.
    apply round_canonical; [exact Hd53 | lia].
  - replace E with (Z.pos (digits2_pos n) + E - 53 + Z.pos k) at 1 by lia.
    apply round_shorter; [lia | exact He].
Qed.

Lemma normal_shift n k :
  (digits2_pos n + k <= 53)%positive -> normal (Pos.iter xO n k) = normal n.
Proof.
  intros Hk. unfold normal. rewrite digits2_shift.
  destruct (53 - Z.pos (digits2_pos n + k)) as [|j|j] eqn:Hj; [| |lia].
  - destruct (53 - Z.pos (digits2_pos n)) as [|i|i] eqn:Hi; [lia| |lia].
    f_equal. lia.
  - destruct (53 - Z.pos (digits2_pos n)) as [|i|i] eqn:Hi; [lia| |lia].
    rewrite <- Pos.iter_add. f_equal. lia.
Qed.

(** Rounding sees the value, not the way it is written: [k] trailing zero
    bits moved from the exponent into the mantissa change nothing. *)
Lemma round_scaled s n E k :
  (digits2_pos n <= 53)%positive ->
  -1074 <= Z.pos (digits2_pos n) + E - 53 <= 971 ->
  binary_round prec emax s (Pos.iter xO n k) (E - Z.pos k)
  = binary_round prec emax s n E.
Proof.
  intros Hd He. rewrite (round_repr s n E Hd He).
  destruct (Pos.leb_spec (digits2_pos n + k) 53) as [Hle|Hgt].
  - rewrite round_repr; rewrite digits2_shift; [|exact Hle|lia].
    rewrite normal_shift by exact Hle. f_equal. lia.
  - unfold normal.
    destruct (53 - Z.pos (digits2_pos n)) as [|i|i] eqn:Hi; [| |lia].
    + replace (E - Z.pos k)
        with (Z.pos (digits2_pos n) + E - 53 - Z.pos k) by lia.
      apply round_longer; [lia | exact He].
    + assert (exists j, k = (i + j)%positive) as [j ->]
        by (exists (k - i)%positive; lia).
      rewrite Pos.add_comm, Pos.iter_add.
      replace (E - Z.pos (j + i))
        with (Z.pos (digits2_pos n) + E - 53 - Z.pos j) by lia.
      apply round_longer; [rewrite digits2_shift; lia | exact He].
Qed.

Lemma round_value s p n E K :
  0 <= K -> Z.pos p = Z.pos n * 2 ^ K ->
  (digits2_pos n <= 53)%positive ->
  -1074 <= Z.pos (digits2_pos n) + E - 53 <= 971 ->
  binary_round prec emax s p (E - K) = binary_round prec emax s n E.
Proof.
  intros HK Hp Hd He. destruct K as [|k|k]; [| |lia].
  - replace p with n by lia. f_equal. lia.
  - rewrite <- shift_value in Hp. injection Hp as ->.
    apply round_scaled; assumption.
Qed.

Lemma normalize_value m n E K :
  0 <= K -> m = n * 2 ^ K -> - (2 ^ 53 - 1) <= n <= 2 ^ 53 - 1 ->
  -1074 <= E - 52 -> E <= 971 ->
  binary_normalize prec emax m (E - K) false
  = binary_normalize prec emax n E false.
Proof.
  intros HK Hm Hn HE1 HE2.
  assert (0 < 2 ^ K) by (apply Z.pow_pos_nonneg; lia).
  destruct n as [|n|n].
  - subst m. reflexivity.
  - destruct m as [|m|m]; [lia| |lia]. cbn [binary_normalize].
    pose proof (digits2_safe n ltac:(lia)).
    apply round_value; [exact HK | exact Hm | assumption | lia].
  - destruct m as [|m|m]; [lia|lia|]. cbn [binary_normalize].
    pose proof (digits2_safe n ltac:(lia)).
    apply round_value; [exact HK | lia | assumption | lia].
Qed.


Lemma normal_value n :
  (digits2_pos n <= 53)%positive ->
  Z.pos (normal n) = Z.pos n * 2 ^ (53 - Z.pos (digits2_pos n)).
Proof.
  intros Hd. unfold normal.
  destruct (53 - Z.pos (digits2_pos n)) as [|k|k] eqn:Hk; [| |lia].
  - cbn. lia.
  - apply shift_value.
Qed.

Lemma shl_align_value m e ez :
  ez <= e -> Z.pos (shl_align m e ez).1 = Z.pos m * 2 ^ (e - ez).
Proof.
  intros Hle. unfold shl_align.
  destruct (ez - e) as [|k|k] eqn:Hk; [|lia|].
  - replace (e - ez) with 0 by lia. cbn. lia.
  - cbn [fst]. rewrite shift_value. f_equal. f_equal. lia.
Qed.

Lemma ofZ_finite z :
  safe z -> z <> 0 ->
  ofZ z = S754_finite (z <? 0) (normal (Z.to_pos (Z.abs z)))
            (Z.pos (digits2_pos (Z.to_pos (Z.abs z))) - 53).
Proof.
  unfold safe. intros Hs Hz. unfold ofZ.
  destruct z as [|p|p]; [congruence| |]; cbn [binary_normalize Z.abs Z.to_pos Z.ltb Z.compare].
  - pose proof (digits2_safe p ltac:(lia)) as Hd.
    rewrite round_repr; [f_equal; lia | exact Hd | lia].
  - pose proof (digits2_safe p ltac:(lia)) as Hd.
    rewrite round_repr; [f_equal; lia | exact Hd | lia].
Qed.

(** The aligned, signed mantissa of a safe integer. *)
Lemma aligned_mantissa z ez :
  safe z -> z <> 0 ->
  ez <= Z.pos (digits2_pos (Z.to_pos (Z.abs z))) - 53 ->
  cond_Zopp (z <? 0)
    (Z.pos (shl_align (normal (Z.to_pos (Z.abs z)))
              (Z.pos (digits2_pos (Z.to_pos (Z.abs z))) - 53) ez).1)
  = z * 2 ^ (- ez).
Proof.
  unfold safe. intros Hs Hz Hez.
  assert (Z.pos (Z.to_pos (Z.abs z)) = Z.abs z) as Hp by lia.
  pose proof (digits2_safe (Z.to_pos (Z.abs z)) ltac:(lia)) as Hd.
  rewrite shl_align_value by exact Hez.
  rewrite normal_value by exact Hd.
  rewrite <- Z.mul_assoc, <- Z.pow_add_r by lia.
  replace (53 - Z.pos (digits2_pos (Z.to_pos (Z.abs z)))
           + (Z.pos (digits2_pos (Z.to_pos (Z.abs z))) - 53 - ez))
    with (- ez) by lia.
  rewrite Hp. unfold cond_Zopp.
  destruct (Z.ltb_spec z 0).
  - rewrite Z.abs_neq by lia. lia.
  - rewrite Z.abs_eq by lia. reflexivity.
Qed.

(** Double addition is exact on safe integers whose sum is safe. *)
Lemma add_ofZ a b :
  safe a -> safe b -> safe (a + b) -> add (ofZ a) (ofZ b) = ofZ (a + b).
Proof.
  intros Ha Hb Hab.
  destruct (Z.eq_dec a 0) as [->|Ha0].
  { destruct (Z.eq_dec b 0) as [->|Hb0]; [reflexivity|].
    rewrite Z.add_0_l, (ofZ_finite b Hb Hb0). reflexivity. }
  destruct (Z.eq_dec b 0) as [->|Hb0].
  { rewrite Z.add_0_r, (ofZ_finite a Ha Ha0). reflexivity. }
  rewrite (ofZ_finite a Ha Ha0), (ofZ_finite b Hb Hb0).
  unfold add, SFadd. cbv zeta.
  rewrite (aligned_mantissa a _ Ha Ha0) by lia.
  rewrite (aligned_mantissa b _ Hb Hb0) by lia.
  set (ea := Z.pos (digits2_pos (Z.to_pos (Z.abs a))) - 53).
  set (eb := Z.pos (digits2_pos (Z.to_pos (Z.abs b))) - 53).
  unfold safe in *.
  pose proof (digits2_safe (Z.to_pos (Z.abs a)) ltac:(lia)).
  pose proof (digits2_safe (Z.to_pos (Z.abs b)) ltac:(lia)).
  replace (Z.min ea eb) with (0 - (- Z.min ea eb)) at 3 by lia.
  apply normalize_value; [lia | lia | lia | lia | lia].
Qed.

(** Double subtraction is exact on safe integers whose difference is
    safe. *)
Lemma sub_ofZ a b :
  safe a -> safe b -> safe (a - b) -> sub (ofZ a) (ofZ b) = ofZ (a - b).
Proof.
  intros Ha Hb Hab.
  destruct (Z.eq_dec b 0) as [->|Hb0].
  { rewrite Z.sub_0_r.
    destruct (Z.eq_dec a 0) as [->|Ha0]; [reflexivity|].
    rewrite (ofZ_finite a Ha Ha0). reflexivity. }
  destruct (Z.eq_dec a 0) as [->|Ha0].
  { assert (safe (- b)) as Hnb by (unfold safe in *; lia).
    rewrite (ofZ_finite b Hb Hb0). cbn [Z.sub Z.add].
    replace (0 - b) with (- b) by lia.
    rewrite (ofZ_finite (- b) Hnb ltac:(lia)).
    rewrite Z.abs_opp. unfold ofZ, sub, SFsub. cbn [binary_normalize].
    f_equal. destruct (Z.ltb_spec b 0), (Z.ltb_spec (- b) 0);
      first [reflexivity | lia]. }
  rewrite (ofZ_finite a Ha Ha0), (ofZ_finite b Hb Hb0).
  unfold sub, SFsub. cbv zeta.
  rewrite (aligned_mantissa a _ Ha Ha0) by lia.
  rewrite (aligned_mantissa b _ Hb Hb0) by lia.
  set (ea := Z.pos (digits2_pos (Z.to_pos (Z.abs a))) - 53).
  set (eb := Z.pos (digits2_pos (Z.to_pos (Z.abs b))) - 53).
  unfold safe in *.
  pose proof (digits2_safe (Z.to_pos (Z.abs a)) ltac:(lia)).
  pose proof (digits2_safe (Z.to_pos (Z.abs b)) ltac:(lia)).
  replace (Z.min ea eb) with (0 - (- Z.min ea eb)) at 3 by lia.
  apply normalize_value; [lia | lia | lia | lia | lia].
Qed.

(** [Math.max(0, x)] on a safe integer. *)
Lemma max_zero_ofZ z : safe z -> max zero (ofZ z) = ofZ (Z.max 0 z).
Proof.
  intros Hz. destruct (Z.eq_dec z 0) as [->|Hz0]; [reflexivity|].
  rewrite (ofZ_finite z Hz Hz0). unfold max, zero. cbn [SFcompare].
  destruct (Z.ltb_spec z 0).
  - rewrite Z.max_l by lia. reflexivity.
  - rewrite Z.max_r by lia. rewrite (ofZ_finite z Hz Hz0).
    destruct (Z.ltb_spec z 0); [lia | reflexivity].
Qed.


(** *** Rounding never crosses a representable number *)

Lemma digits2_unique n k :
  2 ^ (Z.pos k - 1) <= Z.pos n < 2 ^ Z.pos k -> digits2_pos n = k.
Proof.
  intros [Hlo Hhi]. pose proof (digits2_bounds n) as [Hlo' Hhi'].
  destruct (Pos.compare_spec (digits2_pos n) k) as [Heq|Hlt|Hgt];
    [exact Heq| |]; exfalso.
  - assert (2 ^ Z.pos (digits2_pos n) <= 2 ^ (Z.pos k - 1))
      by (apply Z.pow_le_mono_r; lia). lia.
  - assert (2 ^ Z.pos k <= 2 ^ (Z.pos (digits2_pos n) - 1))
      by (apply Z.pow_le_mono_r; lia). lia.
Qed.

Lemma digits2_mono m n :
  Z.pos m <= Z.pos n -> (digits2_pos m <= digits2_pos n)%positive.
Proof.
  intros Hle. pose proof (digits2_bounds m) as [Hlo _].
  pose proof (digits2_bounds n) as [_ Hhi].
  destruct (Pos.leb_spec (digits2_pos m) (digits2_pos n)) as [|Hgt];
    [assumption|]. exfalso.
  assert (2 ^ Z.pos (digits2_pos n) <= 2 ^ (Z.pos (digits2_pos m) - 1))
    by (apply Z.pow_le_mono_r; lia). lia.
Qed.

Lemma shr_1_m mrs : 0 <= shr_m mrs -> shr_m (shr_1 mrs) = shr_m mrs / 2.
Proof.
  destruct mrs as [m r s]. cbn [shr_m]. intros Hm.
  destruct m as [|[p|p|]|p]; cbn [shr_1 shr_m]; [reflexivity| | | |lia].
  - rewrite (Pos2Z.inj_xI p). apply Z.div_unique with 1; lia.
  - rewrite (Pos2Z.inj_xO p). apply Z.div_unique with 0; lia.
  - reflexivity.
Qed.

Lemma shr_iter_m mrs j :
  0 <= shr_m mrs ->
  shr_m (Pos.iter shr_1 mrs j) = shr_m mrs / 2 ^ Z.pos j.
Proof.
  intros Hm. induction j as [|j IH] using Pos.peano_ind.
  - cbn [Pos.iter]. rewrite shr_1_m by exact Hm. reflexivity.
  - rewrite Pos.iter_succ, shr_1_m, IH.
    + rewrite Pos2Z.inj_succ, Z.pow_succ_r by lia.
      rewrite Z.div_div by (try apply Z.pow_pos_nonneg; lia).
      f_equal. lia.
    + rewrite IH. apply Z.div_pos; [exact Hm|].
      apply Z.pow_pos_nonneg; lia.
Qed.

Lemma round_nearest_even_cases m l :
  round_nearest_even m l = m \/ round_nearest_even m l = m + 1.
Proof.
  destruct l as [|[| |]]; cbn; [left; reflexivity| | |right; reflexivity].
  - destruct (Z.even m); [left|right]; reflexivity.
  - left; reflexivity.
Qed.

(** The shape of a rounding that has to drop [j] bits of a normal
    number: the mantissa is the quotient or its successor, and a successor
    of 54 bits carries into the exponent. *)
Lemma round_dropping s M ez j :
  -1074 <= ez ->
  Z.pos (digits2_pos M) = 53 + Z.pos j ->
  exists q : positive,
    (Z.pos q = Z.pos M / 2 ^ Z.pos j
     \/ Z.pos q = Z.pos M / 2 ^ Z.pos j + 1)
    /\ ((digits2_pos q = 53%positive
         /\ binary_round prec emax s M ez
            = finite_or_overflow s q (ez + Z.pos j))
        \/ (Z.pos q = 2 ^ 53
            /\ binary_round prec emax s M ez
               = finite_or_overflow s 4503599627370496
                   (ez + Z.pos j + 1))).
Proof.
  intros Hez Hd.
  assert (0 < 2 ^ Z.pos j) as Hpow by (apply Z.pow_pos_nonneg; lia).
  pose proof (digits2_bounds M) as [Hlo Hhi]. rewrite Hd in Hlo, Hhi.
  replace (53 + Z.pos j - 1) with (52 + Z.pos j) in Hlo by lia.
  rewrite Z.pow_add_r in Hlo, Hhi by lia.
  assert (2 ^ 52 <= Z.pos M / 2 ^ Z.pos j) as Hqlo.
  { apply Z.div_le_lower_bound; lia. }
  assert (Z.pos M / 2 ^ Z.pos j < 2 ^ 53) as Hqhi.
  { apply Z.div_lt_upper_bound; lia. }
  unfold binary_round. rewrite fexp_eq, Hd.
  replace (Z.max (53 + Z.pos j + ez - 53) (-1074)) with (ez + Z.pos j) by lia.
  unfold shl_align. replace (ez + Z.pos j - ez) with (Z.pos j) by lia.
  unfold binary_round_aux, shr_fexp. cbn [Zdigits2 shr_record_of_loc].
  rewrite fexp_eq, Hd.
  replace (Z.max (53 + Z.pos j + ez - 53) (-1074) - ez) with (Z.pos j) by lia.
  cbn [shr]. rewrite iter_pos_eq.
  set (mrs := Pos.iter shr_1 _ j).
  assert (shr_m mrs = Z.pos M / 2 ^ Z.pos j) as Hm
    by (apply shr_iter_m; cbn; lia).
  unfold finite_or_overflow.
  destruct (round_nearest_even_cases (shr_m mrs) (loc_of_shr_record mrs))
    as [Hq|Hq]; rewrite Hq, Hm.
  - destruct (Z.pos M / 2 ^ Z.pos j) as [|q|q] eqn:Hdiv; [lia| |lia].
    assert (digits2_pos q = 53%positive) as Hdq
      by (apply digits2_unique; cbn; lia).
    cbn [Zdigits2 shr_record_of_loc]. rewrite Hdq, fexp_eq.
    replace (Z.max (53 + (ez + Z.pos j) - 53) (-1074) - (ez + Z.pos j))
      with 0 by lia.
    cbn [shr shr_m].
    exists q. split; [left; reflexivity|]. left. split; [exact Hdq|reflexivity].
  - destruct (Z.pos M / 2 ^ Z.pos j + 1) as [|q|q] eqn:Hdiv; [lia| |lia].
    destruct (Z.eq_dec (Z.pos q) (2 ^ 53)) as [Heq|Hne].
    + assert (q = 9007199254740992%positive) as -> by (cbn in Heq; lia).
      cbn [Zdigits2 shr_record_of_loc].
      replace (digits2_pos 9007199254740992) with 54%positive
        by (vm_compute; reflexivity).
      rewrite fexp_eq.
      replace (Z.max (Z.pos 54 + (ez + Z.pos j) - 53) (-1074)
               - (ez + Z.pos j)) with 1 by lia.
      cbn [shr SpecFloat.iter_pos shr_1 shr_m].
      exists 9007199254740992%positive. split; [right; lia|].
      right. split; reflexivity.
    + assert (digits2_pos q = 53%positive) as Hdq
        by (apply digits2_unique; cbn; lia).
      cbn [Zdigits2 shr_record_of_loc]. rewrite Hdq, fexp_eq.
      replace (Z.max (53 + (ez + Z.pos j) - 53) (-1074) - (ez + Z.pos j))
        with 0 by lia.
      cbn [shr shr_m].
      exists q. split; [right; lia|]. left. split; [exact Hdq|reflexivity].
Qed.

(** The shape of a rounding that drops nothing. *)
Lemma round_keeping s M ez :
  -1074 <= ez -> (digits2_pos M <= 53)%positive ->
  let t := Z.max (Z.pos (digits2_pos M) + ez - 53) (-1074) in
  t <= 971 ->
  exists m, Z.pos m = Z.pos M * 2 ^ (ez - t)
            /\ binary_round prec emax s M ez = S754_finite s m t.
Proof.
  intros Hez Hd t Ht. unfold binary_round. rewrite fexp_eq. fold t.
  exists (shl_align M ez t).1. split; [apply shl_align_value; lia|].
  unfold shl_align.
  destruct (t - ez) as [|k|k] eqn:Hk; [|lia|]; cbn [fst].
  - assert (t = ez) as Heq by lia. rewrite Heq.
    apply round_canonical_gen; [rewrite fexp_eq; lia | lia].
  - apply round_canonical_gen; [|exact Ht].
    rewrite digits2_shift, fexp_eq. lia.
Qed.

Lemma valid_finite s m e :
  valid (S754_finite s m e) = true ->
  -1074 <= e <= 971
  /\ (digits2_pos m <= 53)%positive
  /\ (-1074 < e -> digits2_pos m = 53%positive).
Proof.
  unfold valid, valid_binary, bounded, canonical_mantissa.
  rewrite andb_true_iff, Z.eqb_eq, Z.leb_le, fexp_eq.
  unfold emax, prec. lia.
Qed.

(** Rounding a magnitude that is at least a representable one gives at
    least that one. *)
Lemma round_not_below s M ez mx ex :
  valid (S754_finite s mx ex) = true ->
  -1074 <= ez <= ex ->
  Z.pos mx * 2 ^ (ex - ez) <= Z.pos M ->
  binary_round prec emax s M ez = S754_infinity s
  \/ exists m e, binary_round prec emax s M ez = S754_finite s m e
                 /\ (ex < e \/ (e = ex /\ Z.pos mx <= Z.pos m)).
Proof.
  intros Hv Hez Hle. apply valid_finite in Hv as (Hex & Hdx & Hnorm).
  assert (0 < 2 ^ (ex - ez)) as Hpow by (apply Z.pow_pos_nonneg; lia).
  pose proof (digits2_bounds mx) as [Hxlo _].
  pose proof (digits2_bounds M) as [_ HMhi].
  assert (Z.pos (digits2_pos mx) + (ex - ez) <= Z.pos (digits2_pos M)) as Hd.
  { assert (2 ^ (Z.pos (digits2_pos mx) - 1 + (ex - ez))
            < 2 ^ Z.pos (digits2_pos M)) as Hlt.
    { rewrite Z.pow_add_r by lia. nia. }
    apply Z.pow_lt_mono_r_iff in Hlt; lia. }
  destruct (Z.le_gt_cases (Z.pos (digits2_pos M)) 53) as [Hsmall|Hbig].
  - right.
    destruct (round_keeping s M ez ltac:(lia) ltac:(lia)) as (m & Hm & ->).
    { lia. }
    assert (Z.max (Z.pos (digits2_pos M) + ez - 53) (-1074) = ex
            /\ ez = ex) as [Ht ->] by lia.
    rewrite Ht in *. rewrite Z.sub_diag in *.
    exists m, ex. split; [reflexivity|]. right. split; [reflexivity|lia].
  - destruct (Z.pos (digits2_pos M) - 53) as [|j|j] eqn:Hj; [lia| |lia].
    destruct (round_dropping s M ez j ltac:(lia) ltac:(lia))
      as (q & Hq & [[Hdq ->]|[Hq53 ->]]); unfold finite_or_overflow.
    + destruct (Z.leb_spec (ez + Z.pos j) 971); [right|left; reflexivity].
      exists q, (ez + Z.pos j). split; [reflexivity|].
      destruct (Z.lt_ge_cases ex (ez + Z.pos j)) as [|Hge]; [left; lia|].
      right. assert (ez + Z.pos j = ex) as Heq by lia.
      split; [exact Heq|].
      assert (Z.pos mx <= Z.pos M / 2 ^ Z.pos j).
      { apply Z.div_le_lower_bound; [apply Z.pow_pos_nonneg; lia|].
        replace (Z.pos j) with (ex - ez) by lia. lia. }
      lia.
    + destruct (Z.leb_spec (ez + Z.pos j + 1) 971); [right|left; reflexivity].
      eexists _, _. split; [reflexivity|]. left. lia.
Qed.

(** Rounding a magnitude below a representable one gives at most that
    one, and never overflows. *)
Lemma round_not_above s M ez mx ex :
  valid (S754_finite s mx ex) = true ->
  -1074 <= ez <= ex ->
  Z.pos M < Z.pos mx * 2 ^ (ex - ez) ->
  exists m e, binary_round prec emax s M ez = S754_finite s m e
              /\ (e < ex \/ (e = ex /\ Z.pos m <= Z.pos mx)).
Proof.
  intros Hv Hez Hlt. apply valid_finite in Hv as (Hex & Hdx & Hnorm).
  assert (0 < 2 ^ (ex - ez)) as Hpow by (apply Z.pow_pos_nonneg; lia).
  pose proof (digits2_bounds mx) as [Hxlo Hxhi].
  pose proof (digits2_bounds M) as [HMlo _].
  assert (Z.pos (digits2_pos M) <= Z.pos (digits2_pos mx) + (ex - ez)) as Hd.
  { assert (2 ^ (Z.pos (digits2_pos M) - 1)
            < 2 ^ (Z.pos (digits2_pos mx) + (ex - ez))) as Hlt2.
    { rewrite Z.pow_add_r by lia. nia. }
    apply Z.pow_lt_mono_r_iff in Hlt2; lia. }
  destruct (Z.le_gt_cases (Z.pos (digits2_pos M)) 53) as [Hsmall|Hbig].
  - destruct (round_keeping s M ez ltac:(lia) ltac:(lia)) as (m & Hm & ->).
    { lia. }
    set (t := Z.max (Z.pos (digits2_pos M) + ez - 53) (-1074)) in *.
    exists m, t. split; [reflexivity|].
    destruct (Z.lt_ge_cases t ex) as [|Hge]; [left; assumption|].
    right. assert (t = ex /\ ez = ex) as [Ht Hez'] by lia.
    split; [exact Ht|]. rewrite Ht, Hez', Z.sub_diag in *. lia.
  - destruct (Z.pos (digits2_pos M) - 53) as [|j|j] eqn:Hj; [lia| |lia].
    assert (ez + Z.pos j <= ex) as Ht by lia.
    assert (ez + Z.pos j = ex -> Z.pos M / 2 ^ Z.pos j + 1 <= Z.pos mx) as Hq'.
    { intros Heq.
      assert (Z.pos M / 2 ^ Z.pos j < Z.pos mx); [|lia].
      apply Z.div_lt_upper_bound; [apply Z.pow_pos_nonneg; lia|].
      replace (Z.pos j) with (ex - ez) by lia. lia. }
    assert (Z.pos mx < 2 ^ 53) as Hmx53.
    { assert (2 ^ Z.pos (digits2_pos mx) <= 2 ^ 53)
        by (apply Z.pow_le_mono_r; lia). lia. }
    destruct (round_dropping s M ez j ltac:(lia) ltac:(lia))
      as (q & Hq & [[Hdq ->]|[Hq53 ->]]); unfold finite_or_overflow.
    + destruct (Z.leb_spec (ez + Z.pos j) 971); [|lia].
      exists q, (ez + Z.pos j). split; [reflexivity|].
      destruct (Z.lt_ge_cases (ez + Z.pos j) ex) as [|Hge]; [left; lia|].
      right. split; [lia|]. specialize (Hq' ltac:(lia)). lia.
    + assert (ez + Z.pos j < ex) as Hlt3.
      { destruct (Z.lt_ge_cases (ez + Z.pos j) ex) as [|Hge]; [assumption|].
        specialize (Hq' ltac:(lia)). lia. }
      destruct (Z.leb_spec (ez + Z.pos j + 1) 971); [|lia].
      eexists _, _. split; [reflexivity|].
      destruct (Z.lt_ge_cases (ez + Z.pos j + 1) ex) as [|Hge]; [left; lia|].
      right. split; [lia|].
      specialize (Hnorm ltac:(lia)). rewrite Hnorm in Hxlo.
      change (2 ^ (53 - 1)) with 4503599627370496 in Hxlo. lia.
Qed.


Lemma ltb_irrefl x : ltb x x = false.
Proof.
  unfold ltb, SFltb. destruct x as [s|s| |s m e]; cbn [SFcompare];
    try (destruct s; reflexivity); try reflexivity.
  rewrite Z.compare_refl, Pos.compare_cont_refl. destruct s; reflexivity.
Qed.

(** The sign of a rounded magnitude is the sign asked for. *)
Lemma round_sign s l m e :
  match binary_round_aux prec emax s m e l with
  | S754_zero s' | S754_infinity s' | S754_finite s' _ _ => s' = s
  | S754_nan => True
  end.
Proof.
  unfold binary_round_aux.
  destruct (shr_fexp prec emax m e l) as [mrs' e'].
  destruct (shr_fexp prec emax _ e' loc_Exact) as [mrs'' e''].
  destruct (shr_m mrs'') as [|p|p]; [reflexivity| |exact I].
  destruct (e'' <=? emax - prec); reflexivity.
Qed.

Lemma binary_round_sign s m e :
  match binary_round prec emax s m e with
  | S754_zero s' | S754_infinity s' | S754_finite s' _ _ => s' = s
  | S754_nan => True
  end.
Proof.
  unfold binary_round. destruct (shl_align m e _) as [mz ez].
  apply round_sign.
Qed.

(** Adding a number that is not negative never gives less: the sum is not
    below the first summand. *)
Theorem add_nonneg_not_below x p :
  valid x = true -> valid p = true -> leb zero p = true ->
  ltb (add x p) x = false.
Proof.
  intros Hx Hp Hpos.
  destruct p as [sp|[|]| |[|] my ey];
    try (cbn in Hpos; discriminate Hpos).
  - (* a zero *)
    destruct x as [sx|sx| |sx mx ex]; cbn [add SFadd];
      try apply ltb_irrefl; try reflexivity.
    destruct sx, sp; reflexivity.
  - (* +Infinity *)
    destruct x as [sx|[|]| |sx mx ex]; reflexivity.
  - (* a positive number *)
    destruct x as [sx|sx| |sx mx ex]; try reflexivity.
    { destruct sx; reflexivity. }
    pose proof (valid_finite _ _ _ Hx) as (Hex & _ & _).
    pose proof (valid_finite _ _ _ Hp) as (Hey & _ & _).
    unfold add, SFadd. cbv zeta.
    set (ez := Z.min ex ey).
    rewrite (shl_align_value mx ex ez), (shl_align_value my ey ez) by lia.
    assert (0 < 2 ^ (ey - ez)) by (apply Z.pow_pos_nonneg; lia).
    cbn [cond_Zopp].
    destruct sx; cbn [cond_Zopp].
    + (* x is negative *)
      destruct (- (Z.pos mx * 2 ^ (ex - ez)) + Z.pos my * 2 ^ (ey - ez))
        as [|M|M] eqn:HM; cbn [binary_normalize].
      * reflexivity.
      * pose proof (binary_round_sign false M ez) as Hs.
        destruct (binary_round prec emax false M ez) as [s'|s'| |s' m' e'];
          try subst s'; reflexivity.
      * destruct (round_not_above true M ez mx ex Hx ltac:(lia) ltac:(lia))
          as (m & e & -> & Hcmp).
        unfold ltb, SFltb. cbn [SFcompare].
        destruct Hcmp as [Hlt|[-> Hle]].
        -- rewrite (proj2 (Z.compare_lt_iff e ex) Hlt). reflexivity.
        -- rewrite Z.compare_refl.
           change (Pos.compare_cont Eq m mx) with (Pos.compare m mx).
           destruct (Pos.compare_spec m mx); [reflexivity|reflexivity|lia].
    + (* x is positive *)
      destruct (Z.pos mx * 2 ^ (ex - ez) + Z.pos my * 2 ^ (ey - ez))
        as [|M|M] eqn:HM; [lia| |lia]. cbn [binary_normalize].
      destruct (round_not_below false M ez mx ex Hx ltac:(lia) ltac:(lia))
        as [->|(m & e & -> & Hcmp)]; [reflexivity|].
      unfold ltb, SFltb. cbn [SFcompare].
      destruct Hcmp as [Hlt|[-> Hle]].
      * rewrite (proj2 (Z.compare_gt_iff e ex) Hlt). reflexivity.
      * rewrite Z.compare_refl.
        change (Pos.compare_cont Eq m mx) with (Pos.compare m mx).
        destruct (Pos.compare_spec m mx); [reflexivity|lia|reflexivity].
Qed.


Lemma ofZ_zero : Num.ofZ 0 = Num.zero.
Proof. reflexivity. Qed.

(** A safe integer other than 0 is no zero of the numbers. *)
Lemma ofZ_nonzero z : safe z -> z <> 0 -> Num.isZero (ofZ z) = false.
Proof. intros Hs Hz. rewrite (ofZ_finite z Hs Hz). reflexivity. Qed.

Lemma ofZ_not_nan z : safe z -> Num.isNaN (ofZ z) = false.
Proof.
  intros Hs. destruct (Z.eq_dec z 0) as [->|Hz]; [reflexivity|].
  rewrite (ofZ_finite z Hs Hz). reflexivity.
Qed.

(** [x || 0] leaves a safe integer as it is. *)
Lemma orZero_ofZ z : safe z -> orZero (ofZ z) = ofZ z.
Proof.
  intros Hs. destruct (Z.eq_dec z 0) as [->|Hz]; [reflexivity|].
  unfold orZero. rewrite (ofZ_nonzero z Hs Hz), (ofZ_not_nan z Hs).
  reflexivity.
Qed.

(** Distinct safe integers are distinct numbers. *)
Lemma toZ_ofZ z : safe z -> Num.toZ (ofZ z) = Some z.
Proof.
  intros Hs. destruct (Z.eq_dec z 0) as [->|Hz]; [reflexivity|].
  rewrite (ofZ_finite z Hs Hz). unfold Num.toZ.
  unfold safe in Hs.
  assert (Z.pos (Z.to_pos (Z.abs z)) = Z.abs z) as Hp by lia.
  pose proof (digits2_safe (Z.to_pos (Z.abs z)) ltac:(lia)) as Hd.
  pose proof (normal_value _ Hd) as Hn. rewrite Hp in Hn.
  assert (cond_Zopp (z <? 0) (Z.abs z) = z) as Hsign.
  { unfold cond_Zopp. destruct (Z.ltb_spec z 0); lia. }
  destruct (Z.pos (digits2_pos (Z.to_pos (Z.abs z))) - 53)
    as [|k|k] eqn:Hk; [|lia|].
  - rewrite Hn. replace (53 - Z.pos (digits2_pos (Z.to_pos (Z.abs z))))
      with 0 by lia.
    rewrite Z.pow_0_r, Z.mul_1_r. f_equal. exact Hsign.
  - rewrite Hn.
    replace (53 - Z.pos (digits2_pos (Z.to_pos (Z.abs z))))
      with (Z.pos k) by lia.
    assert (0 < 2 ^ Z.pos k) by (apply Z.pow_pos_nonneg; lia).
    rewrite Z.mod_mul, Z.div_mul by lia. cbn [Z.eqb].
    f_equal. exact Hsign.
Qed.

Lemma ofZ_inj a b : safe a -> safe b -> ofZ a = ofZ b -> a = b.
Proof.
  intros Ha Hb Heq. apply (f_equal Num.toZ) in Heq.
  rewrite !toZ_ofZ in Heq by assumption. congruence.
Qed.

(** A whole amount is the number of its integer. *)
Lemma isWhole_spec x :
  isWhole x = true -> 0 <= whole x <= 2 ^ 53 - 1 /\ x = ofZ (whole x).
Proof.
  unfold isWhole, whole. destruct (Num.toZ x) as [n|]; [|discriminate].
  rewrite !andb_true_iff, !Z.leb_le, bool_decide_eq_true. cbn. tauto.
Qed.

Lemma isWhole_ofZ n : 0 <= n <= 2 ^ 53 - 1 -> isWhole (ofZ n) = true.
Proof.
  intros Hn. unfold isWhole. rewrite toZ_ofZ by (unfold safe; lia).
  rewrite !andb_true_iff, !Z.leb_le, bool_decide_eq_true. tauto.
Qed.

(** The running sum of whole amounts is their sum, as long as that is a
    safe integer. *)
Lemma running_sum_whole (l : list num) (acc : Z) :
  forallb isWhole l = true ->
  0 <= acc ->
  acc + foldr (fun x a => whole x + a) 0 l <= 2 ^ 53 - 1 ->
  fold_left (fun a x => Num.add a (orZero x)) l (ofZ acc)
  = ofZ (acc + foldr (fun x a => whole x + a) 0 l).
Proof.
  revert acc. induction l as [|x l IH]; intros acc Hall Hacc Hsum.
  - cbn. f_equal. lia.
  - cbn [forallb] in Hall. apply andb_true_iff in Hall as [Hx Hl].
    apply isWhole_spec in Hx as [Hx Hxeq].
    assert (0 <= foldr (fun x a => whole x + a) 0 l) as Hrest.
    { clear -Hl. induction l as [|y l IH]; [cbn; lia|].
      cbn [forallb] in Hl. apply andb_true_iff in Hl as [Hy Hl].
      apply isWhole_spec in Hy as [Hy _]. specialize (IH Hl). cbn. lia. }
    cbn [fold_left foldr] in *.
    rewrite Hxeq at 1.
    rewrite orZero_ofZ, add_ofZ by (unfold safe; lia).
    rewrite IH by (try assumption; lia). f_equal. lia.
Qed.

End FloatFacts.

(** ** Basic facts *)

#[global] Arguments Num.add : simpl never.
#[global] Arguments Num.sub : simpl never.
#[global] Arguments Num.max : simpl never.
#[global] Arguments Num.ltb : simpl never.
#[global] Arguments Num.leb : simpl never.
#[global] Arguments Num.ofZ : simpl never.

Lemma orZero_truthy (x : num) : truthy (VNum x) = true -> orZero x = x.
Proof.
  unfold truthy, orZero. destruct (Num.isZero x || Num.isNaN x);
    [discriminate | reflexivity].
Qed.

Lemma orZeroValue_number (x : num) : orZeroValue (VNum x) = VNum (orZero x).
Proof.
  unfold orZeroValue, orZero, truthy.
  destruct (Num.isZero x || Num.isNaN x); reflexivity.
Qed.

Lemma orZero_not_nan (x : num) : Num.isNaN (orZero x) = false.
Proof. destruct x as [s|s| |s m e]; reflexivity. Qed.

(** A number below 0 does not meet [min: 0]. *)
Lemma below_zero_not_above (x : num) :
  Num.ltb x Num.zero = true -> Num.leb Num.zero x = false.
Proof. destruct x as [s|[|]| |[|] m e]; cbv; congruence. Qed.

(** A number that meets [min: 0] is no [NaN]. *)
Lemma above_zero_not_nan (x : num) :
  Num.leb Num.zero x = true -> Num.isNaN x = false.
Proof. destruct x as [s|[|]| |[|] m e]; cbv; congruence. Qed.

(** [SFcompare] the other way round. *)
Lemma SFcompare_antisym (a b : num) :
  SFcompare b a = option_map CompOpp (SFcompare a b).
Proof.
  destruct a as [s1|s1| |s1 m1 e1], b as [s2|s2| |s2 m2 e2];
    cbn [SFcompare option_map];
    try (destruct s1; reflexivity); try (destruct s2; reflexivity);
    try reflexivity.
  - destruct s1, s2; reflexivity.
  - destruct s1, s2; try reflexivity.
    + rewrite (Z.compare_antisym e1 e2).
      destruct (e1 ?= e2); cbn [CompOpp]; try reflexivity.
      rewrite (Pos.compare_cont_antisym m1 m2 Eq). reflexivity.
    + rewrite (Z.compare_antisym e1 e2).
      destruct (e1 ?= e2); cbn [CompOpp]; try reflexivity.
      rewrite (Pos.compare_cont_antisym m1 m2 Eq).
      destruct (Pos.compare_cont Eq m1 m2); reflexivity.
Qed.

(** Of two numbers the first of which is not below the second, the second
    is at most the first. *)
Lemma not_below_at_least (a b : num) :
  Num.isNaN a = false -> Num.isNaN b = false ->
  Num.ltb a b = false -> Num.leb b a = true.
Proof.
  unfold Num.ltb, Num.leb, SFltb, SFleb. intros Ha Hb.
  rewrite (SFcompare_antisym a b).
  destruct (SFcompare a b) as [[| |]|] eqn:Hc; cbn [option_map CompOpp];
    try reflexivity; try discriminate.
  intros _. destruct a, b; cbn in Ha, Hb, Hc; discriminate.
Qed.

Lemma swallowed_append env doc db :
  try_catch (bind (Store.Transaction_create env doc) (fun _ => ret tt))
    (fun _ => ret tt) db
  = (Done tt, afterAppend env doc db).
Proof.
  unfold try_catch, bind, Store.Transaction_create, afterAppend, ret.
  destruct (transactionSchema (now env) doc); [|reflexivity].
  destruct (ledgerFault env); reflexivity.
Qed.

(** [appendFails] says exactly that [Transaction.create] throws. *)
Lemma appendFails_throws env doc db :
  appendFails env doc = true
  <-> exists e, Store.Transaction_create env doc db = (Thrown e, db).
Proof.
  unfold appendFails, Store.Transaction_create.
  destruct (transactionSchema (now env) doc) as [t|].
  - destruct (ledgerFault env); split.
    + intros _. exists StoreError. reflexivity.
    + reflexivity.
    + discriminate.
    + intros [e He]. discriminate.
  - split; [|reflexivity]. intros _. exists ValidationError. reflexivity.
Qed.

Lemma afterAppend_clients env doc db :
  clients (afterAppend env doc db) = clients db.
Proof.
  unfold afterAppend.
  destruct (transactionSchema _ _); [|reflexivity].
  destruct (ledgerFault env); reflexivity.
Qed.

Lemma afterAppend_debtors env doc db :
  debtors (afterAppend env doc db) = debtors db.
Proof.
  unfold afterAppend.
  destruct (transactionSchema _ _); [|reflexivity].
  destruct (ledgerFault env); reflexivity.
Qed.

Lemma afterAppend_fails env doc db :
  appendFails env doc = true -> afterAppend env doc db = db.
Proof.
  unfold appendFails, afterAppend.
  destruct (transactionSchema _ _); [|reflexivity].
  intros ->. reflexivity.
Qed.

Lemma negative_amount_rejected createdAt doc :
  Num.ltb (x_amount doc) Num.zero = true ->
  transactionSchema createdAt doc = None.
Proof.
  intros H. unfold transactionSchema.
  rewrite (below_zero_not_above _ H). reflexivity.
Qed.

(** *** The order of a collection scan *)

Lemma List_filter_sublist {A : Type} (p : A -> bool) (l : list A) :
  List.filter p l `sublist_of` l.
Proof.
  induction l as [|x l IH]; [constructor|].
  cbn. destruct (p x); [apply sublist_skip | apply sublist_cons]; exact IH.
Qed.

Lemma elem_of_List_filter {A : Type} (p : A -> bool) (l : list A) x :
  x ∈ List.filter p l <-> p x = true /\ x ∈ l.
Proof. rewrite !list_elem_of_In, filter_In. tauto. Qed.

Lemma StronglySorted_List_filter {A : Type} (R : relation A)
    (p : A -> bool) (l : list A) :
  StronglySorted R l -> StronglySorted R (List.filter p l).
Proof.
  induction 1 as [|x l Hl IH Hx]; [constructor|].
  cbn. destruct (p x); [|exact IH].
  constructor; [exact IH|].
  apply Forall_forall. intros y Hy. apply elem_of_List_filter in Hy as [_ Hy].
  rewrite Forall_forall in Hx. apply Hx. exact Hy.
Qed.

Lemma scan_perm {A : Type} (m : gmap N A) : scan m ≡ₚ map_to_list m.
Proof. apply merge_sort_Permutation. Qed.

#[local] Instance byId_total {A : Type} : Total (@byId A).
Proof. intros a b. unfold byId. lia. Qed.

#[local] Instance byId_trans {A : Type} : Transitive (@byId A).
Proof. intros a b c. unfold byId. lia. Qed.

Lemma scan_sorted {A : Type} (m : gmap N A) : StronglySorted byId (scan m).
Proof. apply StronglySorted_merge_sort; apply _. Qed.

Lemma scan_lookup {A : Type} (m : gmap N A) (k : N) (x : A) :
  (k, x) ∈ scan m <-> m !! k = Some x.
Proof. rewrite scan_perm. apply elem_of_map_to_list. Qed.

Lemma scan_NoDup {A : Type} (m : gmap N A) : NoDup (scan m).*1.
Proof. rewrite scan_perm. apply NoDup_fst_map_to_list. Qed.

Lemma NoDup_fst_functional {A : Type} (l : list (N * A)) k x1 x2 :
  NoDup l.*1 -> (k, x1) ∈ l -> (k, x2) ∈ l -> x1 = x2.
Proof.
  induction l as [|[j y] l IH]; intros Hnd H1 H2.
  - inversion H1.
  - cbn in Hnd. apply NoDup_cons in Hnd as [Hj Hnd].
    apply elem_of_cons in H1 as [H1|H1], H2 as [H2|H2].
    + congruence.
    + injection H1 as -> ->. exfalso. apply Hj.
      apply list_elem_of_fmap. exists (j, x2). split; [reflexivity|exact H2].
    + injection H2 as -> ->. exfalso. apply Hj.
      apply list_elem_of_fmap. exists (j, x1). split; [reflexivity|exact H1].
    + apply IH; assumption.
Qed.

(** Two scans with the same documents are the same list. *)
Lemma sorted_scan_unique {A : Type} (l1 l2 : list (N * A)) :
  NoDup l1.*1 -> StronglySorted byId l1 -> StronglySorted byId l2 ->
  l1 ≡ₚ l2 -> l1 = l2.
Proof.
  intros Hnd H1 H2 Hp. apply (StronglySorted_unique_strong byId); try assumption.
  intros [k1 x1] [k2 x2] Hin1 Hin2 Hle1 Hle2. unfold byId in *. cbn in *.
  assert (k1 = k2) as -> by lia. f_equal.
  rewrite <- Hp in Hin2.
  exact (NoDup_fst_functional l1 k2 x1 x2 Hnd Hin1 Hin2).
Qed.

(** A new document does not reorder the others: what a query keeps of a
    scan is kept in place when a document the query does not keep is
    inserted. *)
Lemma scan_insert_filter {A : Type} (p : A -> bool) (m : gmap N A) k x :
  m !! k = None -> p x = false ->
  List.filter p (scan (<[k := x]> m)).*2 = List.filter p (scan m).*2.
Proof.
  intros Hk Hp.
  set (others := List.filter (fun kd : N * A => negb (kd.1 =? k)%N)
                   (scan (<[k := x]> m))).
  assert (NoDup others.*1) as Hnd.
  { eapply sublist_NoDup; [apply (scan_NoDup (<[k := x]> m))|].
    apply fmap_sublist, List_filter_sublist. }
  assert (others = scan m) as Hothers.
  { apply sorted_scan_unique.
    - exact Hnd.
    - apply StronglySorted_List_filter, scan_sorted.
    - apply scan_sorted.
    - apply NoDup_Permutation.
      + exact (NoDup_fmap_1 fst _ Hnd).
      + exact (NoDup_fmap_1 fst _ (scan_NoDup m)).
      + intros [j y]. unfold others.
        rewrite elem_of_List_filter, !scan_lookup. cbn [fst].
        rewrite negb_true_iff, N.eqb_neq. split.
        * intros [Hne Hl]. rewrite lookup_insert_ne in Hl by congruence.
          exact Hl.
        * intros Hl. split; [congruence|].
          rewrite lookup_insert_ne by congruence. exact Hl. }
  clear Hnd.
  rewrite <- Hothers. unfold others. clear others Hothers.
  assert (Hall : forall kd, kd ∈ scan (<[k := x]> m) ->
                            kd.1 = k -> p kd.2 = false).
  { intros [j y] Hin Hj. cbn in Hj. subst j. apply scan_lookup in Hin.
    rewrite lookup_insert_eq in Hin. injection Hin as <-. exact Hp. }
  induction (scan (<[k := x]> m)) as [|[j y] l IH]; [reflexivity|].
  assert (IH' : List.filter p l.*2
                = List.filter p
                    (List.filter (fun kd : N * A => negb (kd.1 =? k)%N) l).*2)
    by (apply IH; intros kd Hin; apply Hall; right; exact Hin).
  cbn [List.filter fst snd fmap list_fmap].
  destruct (N.eqb_spec j k) as [->|Hne]; cbn [negb].
  - assert (p y = false) as ->
      by (apply (Hall (k, y)); [left | reflexivity]).
    exact IH'.
  - cbn [fmap list_fmap List.filter snd].
    destruct (p y); [f_equal|]; exact IH'.
Qed.

(** Splitting the equation [h db = (r, db')] reached at the end of a run:
    a branch that answered another status than the one assumed is closed,
    the remaining one names the response and the final state. *)
Ltac finish_run Hrun Hok :=
  apply pair_equal_spec in Hrun;
  first [ destruct Hrun as [<- _]; discriminate Hok
        | destruct Hrun as [<- <-] ].

(** ** The debtor handlers, step by step *)

Section DebtorProperties.
Import DebtorRoutes.
Variable clientSchema : Client -> bool.
Variable debtorSchema : Debtor -> bool.
Variable StringToNumber : string -> num.
Variable NumberToString : num -> string.

Local Abbreviation createDebt :=
  (createDebt clientSchema debtorSchema StringToNumber NumberToString).
Local Abbreviation newDebtor := (newDebtor StringToNumber).
Local Abbreviation createdDebt :=
  (createdDebt StringToNumber NumberToString).
Local Abbreviation payDebt :=
  (payDebt clientSchema debtorSchema StringToNumber).
Local Abbreviation applyPayment := (applyPayment StringToNumber).
Local Abbreviation editDebt := (editDebt debtorSchema).
Local Abbreviation deleteDebt := (deleteDebt clientSchema debtorSchema).

Lemma payDebt_guard env id req db :
  (truthy (pr_payment req) && isNumber (pr_payment req)) = false ->
  payDebt env id req db
  = (mkResponse 400 (BMessage "To'lov miqdori raqam bo'lishi kerak"), db).
Proof.
  intros H. unfold DebtorRoutes.payDebt, handle.
  destruct (truthy (pr_payment req)), (isNumber (pr_payment req));
    try discriminate; reflexivity.
Qed.

Lemma payDebt_missing env id req db p :
  pr_payment req = VNum p -> truthy (VNum p) = true ->
  Store.Debtor_findOne id db = (Done None, db) ->
  payDebt env id req db
  = (mkResponse 404 (BMessage "Qarzdor topilmadi"), db).
Proof.
  intros Hp Hnz Hf. unfold DebtorRoutes.payDebt, handle. rewrite Hp, Hnz.
  cbn [isNumber negb orb].
  unfold bind at 1. rewrite Hf. reflexivity.
Qed.

Lemma payDebt_run env id req db p D :
  pr_payment req = VNum p -> truthy (VNum p) = true ->
  debtors db !! id = Some D -> isDeleted D = false ->
  payDebt env id req db =
    let D' := applyPayment env req D in
    if debtorSchema D' then
      let db2 := afterAppend env (debtPaymentEntry req id D')
                   (set_debtors (insert id D') db) in
      match clients db !! client D with
      | Some C =>
          let C' := set_c_debt (Num.sub (orZero (c_debt C)) p) C in
          if clientSchema C'
          then (mkResponse 200 (BDebtor (Some (D', Some C'))),
                set_clients (insert (client D) C') db2)
          else (mkResponse 500 (BFailure ValidationError), db2)
      | None => (mkResponse 200 (BDebtor (Some (D', None))), db2)
      end
    else (mkResponse 500 (BFailure ValidationError), db).
Proof.
  intros Hp Hnz HD Hdel.
  unfold DebtorRoutes.payDebt, handle. rewrite Hp, Hnz.
  cbn [isNumber negb orb numValue].
  unfold bind at 1. unfold Store.Debtor_findOne. rewrite HD, Hdel.
  unfold bind at 1. unfold Store.Debtor_save.
  destruct (debtorSchema _) eqn:Hs; [|reflexivity].
  unfold bind at 1. rewrite swallowed_append.
  unfold bind at 1. unfold Store.Client_findById.
  rewrite afterAppend_clients. simpl.
  destruct (clients db !! client D) as [C|] eqn:HC.
  - unfold bind at 1. unfold Store.Client_save.
    destruct (clientSchema _) eqn:Hc; [|reflexivity].
    unfold bind, Store.Debtor_findById_populate, ret. simpl.
    rewrite afterAppend_debtors. simpl.
    rewrite !lookup_insert_eq. reflexivity.
  - unfold bind, Store.Debtor_findById_populate, ret. simpl.
    rewrite afterAppend_debtors, afterAppend_clients. simpl.
    rewrite lookup_insert_eq. simpl. rewrite HC. reflexivity.
Qed.

Lemma createDebt_invalid env req db :
  cr_errors req <> [] ->
  createDebt env req db = (mkResponse 400 (BErrors (cr_errors req)), db).
Proof.
  intros H. unfold DebtorRoutes.createDebt, handle.
  rewrite bool_decide_eq_false_2 by assumption. reflexivity.
Qed.

Lemma createDebt_no_client env req db :
  cr_errors req = [] ->
  clients db !! cb_client (cr_body req) = None ->
  createDebt env req db = (mkResponse 404 (BMessage "Mijoz topilmadi"), db).
Proof.
  intros He Hc. unfold DebtorRoutes.createDebt, handle.
  rewrite bool_decide_eq_true_2 by assumption. simpl.
  unfold bind, Store.Client_findById. rewrite Hc. reflexivity.
Qed.

Lemma newDebtor_client env b D :
  newDebtor env b = Some D -> client D = cb_client b.
Proof.
  unfold DebtorRoutes.newDebtor. intros H.
  destruct (castNumber _ (cb_currentDebt b)); [|discriminate].
  destruct (castNumber _ (default _ _)); [|discriminate].
  injection H as <-. reflexivity.
Qed.

Lemma createDebt_run env req db C :
  cr_errors req = [] ->
  clients db !! cb_client (cr_body req) = Some C ->
  createDebt env req db =
    let b := cr_body req in
    match newDebtor env b with
    | None => (mkResponse 500 (BFailure ValidationError), db)
    | Some D =>
        let did := fresh (dom (debtors db)) in
        if debtorSchema D then
          let db2 := afterAppend env (debtCreatedEntry req did D)
                       (set_debtors (insert did D) db) in
          match createdDebt C b with
          | Some v =>
              let C' := set_c_debt v C in
              if clientSchema C'
              then (mkResponse 201 (BDebtor (Some (D, Some C'))),
                    set_clients (insert (cb_client b) C') db2)
              else (mkResponse 500 (BFailure ValidationError), db2)
          | None => (mkResponse 500 (BFailure ValidationError), db2)
          end
        else (mkResponse 500 (BFailure ValidationError), db)
    end.
Proof.
  intros He HC. unfold DebtorRoutes.createDebt, handle.
  rewrite bool_decide_eq_true_2 by assumption. simpl.
  unfold bind at 1. unfold Store.Client_findById at 1. rewrite HC.
  destruct (DebtorRoutes.newDebtor _ _ _) as [D|] eqn:HD; [|reflexivity].
  apply newDebtor_client in HD.
  unfold bind at 1. unfold Store.Debtor_new.
  unfold bind at 1. unfold Store.Debtor_save.
  destruct (debtorSchema _) eqn:Hs; [|reflexivity].
  unfold bind at 1. rewrite swallowed_append.
  unfold bind at 1. unfold Store.Client_findById.
  rewrite afterAppend_clients. simpl. rewrite HC.
  destruct (DebtorRoutes.createdDebt _ _ _ _) as [v|]; [|reflexivity].
  unfold bind at 1. unfold Store.Client_save.
  destruct (clientSchema _) eqn:Hc; [|reflexivity].
  unfold bind, Store.Debtor_findById_populate, ret. simpl.
  rewrite afterAppend_debtors. simpl.
  rewrite lookup_insert_eq. simpl. rewrite HD, lookup_insert_eq. reflexivity.
Qed.

Lemma deleteDebt_missing env id db :
  Store.Debtor_findOne id db = (Done None, db) ->
  deleteDebt env id db = (mkResponse 404 (BMessage "Qarzdor topilmadi"), db).
Proof.
  intros Hf. unfold DebtorRoutes.deleteDebt, handle.
  unfold bind at 1. rewrite Hf. reflexivity.
Qed.

Lemma deleteDebt_run env id db D :
  debtors db !! id = Some D -> isDeleted D = false ->
  deleteDebt env id db =
    let saved db1 :=
      if debtorSchema (softDeleted env D)
      then (mkResponse 200 (BMessage "Qarzdor o'chirildi"),
            set_debtors (insert id (softDeleted env D)) db1)
      else (mkResponse 500 (BFailure ValidationError), db1) in
    match clients db !! client D with
    | Some C =>
        let C1 := set_c_debt
                    (Num.sub (orZero (c_debt C)) (orZero (currentDebt D)))
                    C in
        if clientSchema C1
        then saved (set_clients (alter (set_c_debt Num.zero) (client D))
                      (set_clients (insert (client D) C1) db))
        else (mkResponse 500 (BFailure ValidationError), db)
    | None => saved db
    end.
Proof.
  intros HD Hdel. unfold DebtorRoutes.deleteDebt, handle.
  unfold bind at 1. unfold Store.Debtor_findOne. rewrite HD, Hdel.
  unfold bind at 1. unfold Store.Client_findById. simpl.
  destruct (clients db !! client D) as [C|] eqn:HC; simpl.
  - unfold bind at 1. unfold bind at 1.
    unfold Store.Client_save.
    destruct (clientSchema _) eqn:Hc; [|reflexivity].
    unfold Store.Client_setDebt. cbn [Num.isNaN Num.zero].
    unfold bind, Store.Debtor_save, ret.
    destruct (debtorSchema _); reflexivity.
  - unfold bind, Store.Debtor_save, ret.
    destruct (debtorSchema _); reflexivity.
Qed.

Lemma editDebt_missing env id req db :
  Store.Debtor_findOne id db = (Done None, db) ->
  editDebt env id req db
  = (mkResponse 404 (BMessage "Qarzdor topilmadi"), db).
Proof.
  intros Hf. unfold DebtorRoutes.editDebt, handle.
  unfold bind at 1. rewrite Hf. reflexivity.
Qed.

Lemma editDebt_run env id req db D :
  debtors db !! id = Some D -> isDeleted D = false ->
  editDebt env id req db =
    let D' := applyPatch req D in
    if debtorSchema D' then
      let db1 := set_debtors (insert id D') db in
      let total := totalDebtLoop (openDebts db1 (client D')) in
      if Num.isNaN total
      then (mkResponse 500 (BFailure CastError), db1)
      else
        let db2 :=
          set_clients (alter (set_c_debt total) (client D')) db1 in
        (mkResponse 200 (BDebtor (Some (D', clients db2 !! client D'))), db2)
    else (mkResponse 500 (BFailure ValidationError), db).
Proof.
  intros HD Hdel. unfold DebtorRoutes.editDebt, handle.
  unfold bind at 1. unfold Store.Debtor_findOne. rewrite HD, Hdel.
  unfold bind at 1. unfold Store.Debtor_save.
  destruct (debtorSchema _) eqn:Hs; [|reflexivity].
  unfold bind at 1. unfold Store.Debtor_find at 1.
  fold (openDebts (set_debtors (insert id (applyPatch req D)) db)
          (client (applyPatch req D))).
  unfold bind at 1. unfold Store.Client_setDebt.
  destruct (Num.isNaN _) eqn:Hnan; [reflexivity|].
  unfold bind, Store.Debtor_findById_populate, ret. simpl.
  rewrite lookup_insert_eq. reflexivity.
Qed.

(** The whole amounts of the debts a query for the client finds add up to
    the specification's balance. *)
Lemma openDebts_sum (db : DB) (cid : N) :
  foldr (fun x a => whole x + a) 0 (currentDebt <$> openDebts db cid)
  = activeDebtSum db cid.
Proof.
  unfold openDebts, activeDebtSum. rewrite map_fold_foldr.
  transitivity
    (foldr (fun kd a =>
              if bool_decide (client kd.2 = cid /\ isDeleted kd.2 = false)
              then whole (currentDebt kd.2) + a else a) 0
       (scan (debtors db))).
  - induction (scan (debtors db)) as [|[k d] l IH]; [reflexivity|].
    cbn [fmap list_fmap List.filter snd foldr].
    destruct (N.eqb_spec (client d) cid) as [Hc|Hc];
      destruct (isDeleted d) eqn:Hd; cbn [andb negb].
    + rewrite bool_decide_eq_false_2 by (intros [_ ?]; discriminate).
      exact IH.
    + rewrite bool_decide_eq_true_2 by (split; [assumption | reflexivity]).
      cbn [fmap list_fmap foldr]. rewrite <- IH. reflexivity.
    + rewrite bool_decide_eq_false_2 by (intros [? _]; contradiction).
      exact IH.
    + rewrite bool_decide_eq_false_2 by (intros [? _]; contradiction).
      exact IH.
  - assert (Hfold : forall l : list (N * Debtor),
      foldr (fun kd a =>
               if bool_decide (client kd.2 = cid /\ isDeleted kd.2 = false)
               then whole (currentDebt kd.2) + a else a) 0 l
      = foldr (fun '(_, d) acc =>
                 if bool_decide (client d = cid /\ isDeleted d = false)
                 then whole (currentDebt d) + acc else acc) 0 l).
    { intros l. induction l as [|[k d] l IH]; [reflexivity|].
      cbn. rewrite IH. reflexivity. }
    rewrite <- Hfold.
    apply (foldr_permutation (=) _ 0); [|apply scan_perm].
    intros j1 [k1 d1] j2 [k2 d2] a _ _ _. cbn.
    repeat case_bool_decide; lia.
Qed.

(** The accumulation loop of the PATCH handler over debts that are whole
    amounts computes the specification's sum. *)
Lemma totalDebtLoop_sum (db : DB) (cid : N) :
  forallb (fun d => isWhole (currentDebt d)) (openDebts db cid) = true ->
  activeDebtSum db cid <= 2 ^ 53 - 1 ->
  totalDebtLoop (openDebts db cid) = Num.ofZ (activeDebtSum db cid).
Proof.
  intros Hall Hsum. rewrite <- openDebts_sum in *.
  unfold totalDebtLoop.
  assert (Hmap : forall (l : list Debtor) acc,
    fold_left (fun a d => Num.add a (orZero (currentDebt d))) l acc
    = fold_left (fun a x => Num.add a (orZero x)) (currentDebt <$> l) acc).
  { intros l. induction l as [|d l IH]; intros acc; [reflexivity|].
    cbn. apply IH. }
  rewrite Hmap. change Num.zero with (Num.ofZ 0).
  rewrite running_sum_whole; [reflexivity| |lia|lia].
  rewrite forallb_forall in Hall. apply forallb_forall.
  intros x Hx. apply in_map_iff in Hx as (d & <- & Hd).
  apply Hall. exact Hd.
Qed.

(** What one debtor record contributes to the balance of client [cid]. *)
Lemma activeDebtSum_insert (db : DB) (id cid : N) (D D2 : Debtor) :
  debtors db !! id = Some D ->
  activeDebtSum (set_debtors (insert id D2) db) cid
  = activeDebtSum db cid
    - (if bool_decide (client D = cid /\ isDeleted D = false)
       then whole (currentDebt D) else 0)
    + (if bool_decide (client D2 = cid /\ isDeleted D2 = false)
       then whole (currentDebt D2) else 0).
Proof.
  intros HD. unfold activeDebtSum. cbn [debtors set_debtors].
  set (f := fun (_ : N) (d : Debtor) (acc : Z) =>
              if bool_decide (client d = cid /\ isDeleted d = false)
              then whole (currentDebt d) + acc else acc).
  assert (Hcomm : forall (j1 j2 : N) (z1 z2 : Debtor) (y : Z),
             f j1 z1 (f j2 z2 y) = f j2 z2 (f j1 z1 y)).
  { intros. unfold f. repeat case_bool_decide; lia. }
  rewrite (map_fold_delete_L f 0 id D (debtors db));
    [|intros; apply Hcomm|exact HD].
  rewrite <- (insert_delete_eq (debtors db) id D2).
  rewrite (map_fold_insert_L f 0 id D2 (delete id (debtors db)));
    [|intros; apply Hcomm|apply lookup_delete_eq].
  unfold f. repeat case_bool_decide; lia.
Qed.

(** The debts a query finds do not depend on the client collection. *)
Lemma openDebts_clients (f : gmap N Client -> gmap N Client) db cid :
  openDebts (set_clients f db) cid = openDebts db cid.
Proof. reflexivity. Qed.

(** When the handlers answer 200. *)
Lemma payDebt_accepted env id req db p D C :
  pr_payment req = VNum p -> truthy (VNum p) = true ->
  debtors db !! id = Some D -> isDeleted D = false ->
  clients db !! client D = Some C ->
  debtorSchema (applyPayment env req D) = true ->
  clientSchema (set_c_debt (Num.sub (orZero (c_debt C)) p) C) = true ->
  statusCode (payDebt env id req db).1 = 200%N.
Proof.
  intros Hp Hnz HD Hdel HC Hd Hc.
  rewrite (payDebt_run env id req db p D Hp Hnz HD Hdel). cbv zeta.
  rewrite Hd, HC, Hc. reflexivity.
Qed.

Lemma editDebt_accepted env id req db D :
  debtors db !! id = Some D -> isDeleted D = false ->
  debtorSchema (applyPatch req D) = true ->
  Num.isNaN
    (totalDebtLoop
       (openDebts (set_debtors (insert id (applyPatch req D)) db)
          (client (applyPatch req D)))) = false ->
  statusCode (editDebt env id req db).1 = 200%N.
Proof.
  intros HD Hdel Hd Hnan.
  rewrite (editDebt_run env id req db D HD Hdel). cbv zeta.
  rewrite Hd, Hnan. reflexivity.
Qed.

Lemma deleteDebt_accepted env id db D C :
  debtors db !! id = Some D -> isDeleted D = false ->
  clients db !! client D = Some C ->
  clientSchema
    (set_c_debt (Num.sub (orZero (c_debt C)) (orZero (currentDebt D))) C)
    = true ->
  debtorSchema (softDeleted env D) = true ->
  statusCode (deleteDebt env id db).1 = 200%N.
Proof.
  intros HD Hdel HC Hc Hd.
  rewrite (deleteDebt_run env id db D HD Hdel). cbv zeta.
  rewrite HC, Hc, Hd. reflexivity.
Qed.

Lemma findOne_cases (id : N) (db : DB) :
  Store.Debtor_findOne id db = (Done None, db)
  \/ exists D, debtors db !! id = Some D /\ isDeleted D = false.
Proof.
  unfold Store.Debtor_findOne.
  destruct (debtors db !! id) as [D|]; [|left; reflexivity].
  destruct (isDeleted D) eqn:Hdel; [left; reflexivity|].
  right. exists D. split; [reflexivity | exact Hdel].
Qed.

(** A payment that is not a number other than 0 and [NaN] changes
    nothing. *)
Lemma payDebt_cases env id req db :
  payDebt env id req db
  = (mkResponse 400 (BMessage "To'lov miqdori raqam bo'lishi kerak"), db)
  \/ exists p, pr_payment req = VNum p /\ truthy (VNum p) = true.
Proof.
  destruct (pr_payment req) as [| |b|x|s|o] eqn:Hp;
    try (left; apply payDebt_guard; rewrite Hp; simpl;
         rewrite ?andb_false_r; reflexivity).
  destruct (truthy (VNum x)) eqn:Ht.
  - right. exists x. split; [reflexivity | exact Ht].
  - left. apply payDebt_guard. rewrite Hp, Ht. reflexivity.
Qed.

(** ** Claims about the debtor routes *)

(** C1, as amended.  For every debtor [D] with client [C] and every payment
    [p] that [POST /debtors/:id/payment] accepts (answers 200), the stored
    debtor afterwards has [currentDebt = Math.max(0, old currentDebt - p)]
    and [totalPaid = old totalPaid + p], and the client's [debt] is
    [(old debt || 0) - p], unclamped, each computed in double-precision
    arithmetic.  When the old values, [p] and the results are integers of
    magnitude at most [2^53 - 1], these are the exact
    [max(0, currentDebt - p)], [totalPaid + p] and [debt - p], and a [p]
    that exceeds the remaining [currentDebt] makes two balances that agreed
    before differ afterwards. *)
Theorem payment_updates_debtor_and_client
    env id req db r db' (p : num) (D : Debtor) (C : Client) :
  pr_payment req = VNum p ->
  debtors db !! id = Some D ->
  isDeleted D = false ->
  clients db !! client D = Some C ->
  payDebt env id req db = (r, db') ->
  statusCode r = 200%N ->
  exists D' C',
    debtors db' !! id = Some D'
    /\ currentDebt D' = Num.max Num.zero (Num.sub (currentDebt D) p)
    /\ totalPaid D' = Num.add (totalPaid D) p
    /\ clients db' !! client D = Some C'
    /\ c_debt C' = Num.sub (orZero (c_debt C)) p
    /\ (forall d t c n : Z,
          currentDebt D = Num.ofZ d -> totalPaid D = Num.ofZ t ->
          c_debt C = Num.ofZ c -> p = Num.ofZ n ->
          Num.safe d -> Num.safe t -> Num.safe c -> Num.safe n ->
          Num.safe (d - n) -> Num.safe (t + n) -> Num.safe (c - n) ->
          currentDebt D' = Num.ofZ (Z.max 0 (d - n))
          /\ totalPaid D' = Num.ofZ (t + n)
          /\ c_debt C' = Num.ofZ (c - n)
          /\ (d < n -> c = d -> c_debt C' <> currentDebt D')).
Proof.
  intros Hp HD Hdel HC Hrun Hok.
  destruct (truthy (VNum p)) eqn:Hnz.
  2:{ rewrite payDebt_guard in Hrun by (rewrite Hp, Hnz; reflexivity).
      finish_run Hrun Hok. }
  rewrite (payDebt_run env id req db p D Hp Hnz HD Hdel) in Hrun.
  cbv zeta in Hrun. rewrite HC in Hrun.
  destruct (debtorSchema _); [|finish_run Hrun Hok].
  destruct (clientSchema _); finish_run Hrun Hok.
  exists (applyPayment env req D),
    (set_c_debt (Num.sub (orZero (c_debt C)) p) C).
  cbn [debtors clients set_clients]. rewrite afterAppend_debtors.
  cbn [debtors set_debtors].
  rewrite !lookup_insert_eq.
  cbn [currentDebt totalPaid DebtorRoutes.applyPayment c_debt set_c_debt].
  rewrite Hp. cbn [numValue].
  do 5 (split; [reflexivity|]).
  intros d t c n -> -> -> -> Hd Ht Hc Hn Hdn Htn Hcn.
  rewrite (orZero_ofZ c Hc), (sub_ofZ d n Hd Hn Hdn),
    (sub_ofZ c n Hc Hn Hcn), (add_ofZ t n Ht Hn Htn),
    (max_zero_ofZ (d - n) Hdn).
  do 3 (split; [reflexivity|]).
  intros Hlt -> Heq.
  apply ofZ_inj in Heq; [lia | exact Hcn | unfold Num.safe in *; lia].
Qed.

(** C2, as amended.  For every [PATCH /debtors/:id] on an existing
    non-deleted debtor that completes (answers 200), the client the debtor
    then refers to has its [debt] overwritten with the running
    double-precision sum, in query order, of [currentDebt || 0] over all
    non-deleted Debtor records of that client in the resulting state,
    whatever the client's [debt] was before and however many debtors it
    has.  When these debts are whole amounts whose sum is at most
    [2^53 - 1], that is their exact sum. *)
Theorem edit_reconciles_client_debt
    env id req db r db' (D : Debtor) :
  debtors db !! id = Some D ->
  isDeleted D = false ->
  editDebt env id req db = (r, db') ->
  statusCode r = 200%N ->
  exists D',
    debtors db' !! id = Some D'
    /\ clients db' !! client D'
       = set_c_debt (totalDebtLoop (openDebts db' (client D')))
           <$> clients db !! client D'
    /\ forall C', clients db' !! client D' = Some C' ->
         c_debt C' = totalDebtLoop (openDebts db' (client D'))
         /\ (forallb (fun d => isWhole (currentDebt d))
               (openDebts db' (client D')) = true ->
             activeDebtSum db' (client D') <= 2 ^ 53 - 1 ->
             c_debt C' = Num.ofZ (activeDebtSum db' (client D'))).
Proof.
  intros HD Hdel Hrun Hok.
  rewrite (editDebt_run env id req db D HD Hdel) in Hrun. cbv zeta in Hrun.
  destruct (debtorSchema _); [|finish_run Hrun Hok].
  destruct (Num.isNaN _); finish_run Hrun Hok.
  set (D' := applyPatch req D).
  set (db1 := set_debtors (insert id D') db).
  set (total := totalDebtLoop (openDebts db1 (client D'))).
  exists D'.
  rewrite openDebts_clients. fold total.
  assert (Hlook :
    clients (set_clients (alter (set_c_debt total) (client D')) db1)
      !! client D'
    = set_c_debt total <$> clients db !! client D')
    by exact (lookup_alter_eq _ _ _).
  split; [exact (lookup_insert_eq _ _ _)|].
  split; [exact Hlook|].
  intros C' HC'. rewrite Hlook in HC'.
  destruct (clients db !! client D') as [C0|]; [|discriminate].
  injection HC' as <-. split; [reflexivity|].
  intros Hall Hsum. cbn [c_debt set_c_debt].
  change (activeDebtSum
            (set_clients (alter (set_c_debt total) (client D')) db1)
            (client D'))
    with (activeDebtSum db1 (client D')) in *.
  exact (totalDebtLoop_sum db1 (client D') Hall Hsum).
Qed.

(** C3.  For every [DELETE /debtors/:id] on an existing non-deleted debtor
    whose client exists, a completed request (200) leaves the debtor marked
    [isDeleted = true] with [deletedAt] set, and the client's [debt] equal
    to 0; no other debtor record is touched, so the reset happens whatever
    the client's other non-deleted debtors still owe. *)
Theorem delete_resets_client_debt
    env id db r db' (D : Debtor) (C : Client) :
  debtors db !! id = Some D ->
  isDeleted D = false ->
  clients db !! client D = Some C ->
  deleteDebt env id db = (r, db') ->
  statusCode r = 200%N ->
  exists D' C',
    debtors db' !! id = Some D'
    /\ isDeleted D' = true
    /\ deletedAt D' = Some (now env)
    /\ clients db' !! client D = Some C'
    /\ c_debt C' = Num.zero
    /\ (forall j, j <> id -> debtors db' !! j = debtors db !! j)
    /\ activeDebtSum db' (client D)
       = activeDebtSum db (client D) - whole (currentDebt D).
Proof.
  intros HD Hdel HC Hrun Hok.
  rewrite (deleteDebt_run env id db D HD Hdel) in Hrun. cbv zeta in Hrun.
  rewrite HC in Hrun.
  destruct (clientSchema _); [|finish_run Hrun Hok].
  destruct (debtorSchema _); finish_run Hrun Hok.
  exists (softDeleted env D),
    (set_c_debt Num.zero
       (set_c_debt (Num.sub (orZero (c_debt C)) (orZero (currentDebt D)))
          C)).
  cbn [debtors clients set_clients set_debtors].
  rewrite lookup_insert_eq, lookup_alter_eq, lookup_insert_eq.
  repeat split; try reflexivity.
  - intros j Hj. apply lookup_insert_ne. congruence.
  - match goal with
    | |- activeDebtSum ?db2 _ = _ =>
        change db2 with
          (set_debtors (insert id (softDeleted env D))
             (set_clients
                (alter (set_c_debt Num.zero) (client D))
                (set_clients
                   (insert (client D)
                      (set_c_debt
                         (Num.sub (orZero (c_debt C))
                            (orZero (currentDebt D))) C)) db)))
    end.
    rewrite (activeDebtSum_insert _ id (client D) D (softDeleted env D))
      by exact HD.
    rewrite bool_decide_eq_true_2 by (split; [reflexivity | exact Hdel]).
    rewrite bool_decide_eq_false_2 by (intros [_ ?]; discriminate).
    unfold activeDebtSum. cbn [debtors set_clients]. lia.
Qed.

(** What the creation handler builds and computes from a body whose
    [currentDebt] is a JSON number. *)
Lemma newDebtor_number env b (x : num) D :
  cb_currentDebt b = VNum x ->
  newDebtor env b = Some D ->
  client D = cb_client b
  /\ currentDebt D = x
  /\ totalPaid D = Num.zero
  /\ initialDebtDate D = now env
  /\ isDeleted D = false
  /\ (cb_initialDebt b = None -> initialDebt D = x)
  /\ (forall i, cb_initialDebt b = Some (VNum i) -> initialDebt D = i).
Proof.
  unfold DebtorRoutes.newDebtor. intros Hx H. rewrite Hx in H.
  cbn [castNumber] in H.
  destruct (Num.isNaN x) eqn:Hnan; [discriminate|].
  destruct (cb_initialDebt b) as [i|]; cbn [from_option id] in H.
  - destruct (castNumber _ i) as [i'|] eqn:Hi; [|discriminate].
    injection H as <-. repeat split; try reflexivity; try discriminate.
    intros i0 [= ->]. cbn [castNumber] in Hi.
    destruct (Num.isNaN i0); [discriminate|]. injection Hi as <-.
    reflexivity.
  - cbn [castNumber] in H. rewrite Hnan in H. injection H as <-.
    repeat split; try reflexivity. discriminate.
Qed.

Lemma createdDebt_number C b (x : num) :
  cb_currentDebt b = VNum x ->
  Num.isNaN (Num.add (orZero (c_debt C)) (orZero x)) = false ->
  createdDebt C b = Some (Num.add (orZero (c_debt C)) (orZero x)).
Proof.
  intros Hx Hnan. unfold DebtorRoutes.createdDebt.
  rewrite Hx, orZeroValue_number. cbn [plus castNumber].
  rewrite Hnan. reflexivity.
Qed.

(** C4.  In Create Debt and in Pay Debt a failing ledger append, whether
    the Transaction schema rejects the entry or the store refuses the insert,
    is swallowed: the handler still answers with its success status, the
    Debtor write and the Client-debt update are applied, and the transaction
    collection is what it was, so no Ledger Entry records the operation.
    For a [currentDebt] sent as a number the debtor created holds it and the
    client's debt becomes [(debt || 0) + (currentDebt || 0)]. *)
Theorem ledger_failure_is_swallowed :
  (forall env req db C D v,
      cr_errors req = [] ->
      clients db !! cb_client (cr_body req) = Some C ->
      newDebtor env (cr_body req) = Some D ->
      debtorSchema D = true ->
      createdDebt C (cr_body req) = Some v ->
      clientSchema (set_c_debt v C) = true ->
      appendFails env (debtCreatedEntry req (fresh (dom (debtors db))) D)
        = true ->
      exists r db',
        createDebt env req db = (r, db')
        /\ statusCode r = 201%N
        /\ debtors db' = <[fresh (dom (debtors db)) := D]> (debtors db)
        /\ clients db'
           = <[cb_client (cr_body req) := set_c_debt v C]> (clients db)
        /\ transactions db' = transactions db
        /\ (forall x : num,
              cb_currentDebt (cr_body req) = VNum x ->
              currentDebt D = x
              /\ v = Num.add (orZero (c_debt C)) (orZero x)))
  /\ (forall env id req db p D C,
      pr_payment req = VNum p -> truthy (VNum p) = true ->
      debtors db !! id = Some D -> isDeleted D = false ->
      clients db !! client D = Some C ->
      debtorSchema (applyPayment env req D) = true ->
      clientSchema (set_c_debt (Num.sub (orZero (c_debt C)) p) C) = true ->
      appendFails env (debtPaymentEntry req id (applyPayment env req D))
        = true ->
      exists r db',
        payDebt env id req db = (r, db')
        /\ statusCode r = 200%N
        /\ debtors db' = <[id := applyPayment env req D]> (debtors db)
        /\ clients db'
           = <[client D := set_c_debt (Num.sub (orZero (c_debt C)) p) C]>
               (clients db)
        /\ transactions db' = transactions db).
Proof.
  split.
  - intros env req db C D v He HC HD Hd Hv Hc Hfail.
    rewrite (createDebt_run env req db C He HC). cbv zeta.
    rewrite HD, Hd, Hv, Hc, (afterAppend_fails _ _ _ Hfail).
    eexists _, _. split; [reflexivity|].
    do 4 (split; [reflexivity|]).
    intros x Hx. split.
    + exact (proj1 (proj2 (newDebtor_number env _ x D Hx HD))).
    + unfold DebtorRoutes.createdDebt in Hv.
      rewrite Hx, orZeroValue_number in Hv. cbn [plus castNumber] in Hv.
      destruct (Num.isNaN _); [discriminate|]. congruence.
  - intros env id req db p D C Hp Hnz HD Hdel HC Hd Hc Hfail.
    rewrite (payDebt_run env id req db p D Hp Hnz HD Hdel). cbv zeta.
    rewrite HC, Hd, Hc, (afterAppend_fails _ _ _ Hfail).
    eexists _, _. split; [reflexivity|]. repeat split.
Qed.

(** C5, as amended.  For every [POST /debtors] request passing validation:
    if the referenced client does not exist the handler answers 404 and
    changes no state; otherwise, when [currentDebt] is a JSON number that
    is not negative, the store takes the ledger insert and the Debtor and
    Client documents pass their schemas, it answers 201, creates a Debtor
    with [totalPaid = 0] and [initialDebt] defaulting to [currentDebt],
    appends one [debt-created] entry of amount [currentDebt] that refers
    to the new debtor, and sets the client's debt to
    [(debt || 0) + (currentDebt || 0)] in double-precision arithmetic,
    which for integers of magnitude at most [2^53 - 1] with such a sum is
    the exact [debt + currentDebt]. *)
Theorem create_debt_effect env req db :
  cr_errors req = [] ->
  (clients db !! cb_client (cr_body req) = None ->
   createDebt env req db = (mkResponse 404 (BMessage "Mijoz topilmadi"), db))
  /\ (forall C (x : num) D0,
      clients db !! cb_client (cr_body req) = Some C ->
      cb_currentDebt (cr_body req) = VNum x ->
      Num.leb Num.zero x = true ->
      ledgerFault env = false ->
      newDebtor env (cr_body req) = Some D0 ->
      debtorSchema D0 = true ->
      Num.isNaN (Num.add (orZero (c_debt C)) (orZero x)) = false ->
      clientSchema
        (set_c_debt (Num.add (orZero (c_debt C)) (orZero x)) C) = true ->
      exists r db' did D tid t,
        createDebt env req db = (r, db')
        /\ statusCode r = 201%N
        /\ debtors db !! did = None
        /\ debtors db' = <[did := D]> (debtors db)
        /\ client D = cb_client (cr_body req)
        /\ currentDebt D = x
        /\ totalPaid D = Num.zero
        /\ (cb_initialDebt (cr_body req) = None -> initialDebt D = x)
        /\ (forall i, cb_initialDebt (cr_body req) = Some (VNum i) ->
                      initialDebt D = i)
        /\ transactions db !! tid = None
        /\ transactions db' = <[tid := t]> (transactions db)
        /\ t_type t = debt_created
        /\ t_amount t = x
        /\ t_relatedId t = Some did
        /\ clients db'
           = <[cb_client (cr_body req)
               := set_c_debt (Num.add (orZero (c_debt C)) (orZero x)) C]>
               (clients db)
        /\ (forall c n : Z,
              c_debt C = Num.ofZ c -> x = Num.ofZ n ->
              Num.safe c -> Num.safe n -> Num.safe (c + n) ->
              Num.add (orZero (c_debt C)) (orZero x) = Num.ofZ (c + n))).
Proof.
  intros He. split.
  - intros HC. apply createDebt_no_client; assumption.
  - intros C x D0 HC Hx Hpos Hup HD0 Hd Hnan Hc.
    destruct (newDebtor_number env _ x D0 Hx HD0)
      as (Hcl & Hcur & Htp & _ & _ & Hini & Hini').
    rewrite (createDebt_run env req db C He HC). cbv zeta.
    rewrite HD0, Hd, (createdDebt_number C _ x Hx Hnan), Hc.
    unfold afterAppend, transactionSchema, debtCreatedEntry.
    cbn [x_amount x_paymentType x_client x_createdBy x_type
         x_relatedModel x_relatedId castPaymentType castId].
    rewrite Hcur, Hpos. cbn [negb].
    replace (castId (from_option GoodId NoId (cr_user req)))
      with (Some (cr_user req)) by (destruct (cr_user req); reflexivity).
    cbn. rewrite Hup.
    eexists _, _, (fresh (dom (debtors db))), D0,
      (fresh (dom (transactions db))), _.
    split; [reflexivity|].
    split; [reflexivity|].
    split; [apply not_elem_of_dom, is_fresh|].
    split; [reflexivity|].
    do 5 (split; [assumption|]).
    split; [apply not_elem_of_dom, is_fresh|].
    do 5 (split; [reflexivity|]).
    intros c n -> -> Hsc Hsn Hscn.
    rewrite !orZero_ofZ by assumption. apply add_ofZ; assumption.
Qed.

(** Whatever the Debtor and Client schemas accept, a creation request with
    a negative number as [currentDebt] never reaches the ledger: the
    Transaction schema refuses the entry and the handler swallows the
    refusal. *)
Lemma negative_debt_never_recorded env req db (x : num) :
  cb_currentDebt (cr_body req) = VNum x ->
  Num.ltb x Num.zero = true ->
  transactions (createDebt env req db).2 = transactions db.
Proof.
  intros Hx Hneg.
  destruct (decide (cr_errors req = [])) as [He|He];
    [|rewrite createDebt_invalid by exact He; reflexivity].
  destruct (clients db !! cb_client (cr_body req)) as [C|] eqn:HC;
    [|rewrite createDebt_no_client by assumption; reflexivity].
  rewrite (createDebt_run env req db C He HC). cbv zeta.
  destruct (newDebtor env (cr_body req)) as [D|] eqn:HD; [|reflexivity].
  destruct (newDebtor_number env _ x D Hx HD) as (_ & Hcur & _).
  destruct (debtorSchema _); [|reflexivity].
  rewrite afterAppend_fails
    by (unfold appendFails; rewrite negative_amount_rejected;
        [reflexivity | cbn [x_amount debtCreatedEntry]; rewrite Hcur;
                        exact Hneg]).
  destruct (createdDebt C (cr_body req)); [|reflexivity].
  destruct (clientSchema _); reflexivity.
Qed.

(** X28.  A [currentDebt] sent as a non-empty string that casts to a
    number passes into the new debtor as that number, but is not added to
    the client's debt: [(debt || 0) + currentDebt] is then the
    concatenation of the decimal form of the debt and the string, and the
    client's debt becomes the number that text reads as. *)
Theorem string_debt_is_concatenated env req db C D (s : string) :
  cr_errors req = [] ->
  clients db !! cb_client (cr_body req) = Some C ->
  cb_currentDebt (cr_body req) = VStr s ->
  s <> "" ->
  newDebtor env (cr_body req) = Some D ->
  debtorSchema D = true ->
  let v := StringToNumber (NumberToString (orZero (c_debt C)) ++ s) in
  Num.isNaN v = false ->
  clientSchema (set_c_debt v C) = true ->
  exists r db',
    createDebt env req db = (r, db')
    /\ statusCode r = 201%N
    /\ currentDebt D = StringToNumber s
    /\ debtors db' = <[fresh (dom (debtors db)) := D]> (debtors db)
    /\ clients db'
       = <[cb_client (cr_body req) := set_c_debt v C]> (clients db).
Proof.
  intros He HC Hs Hne HD Hd v Hnan Hc.
  assert (Hcur : currentDebt D = StringToNumber s).
  { unfold DebtorRoutes.newDebtor in HD. rewrite Hs in HD.
    cbn [castNumber] in HD.
    destruct (String.eqb_spec s "") as [?|_]; [contradiction|].
    destruct (Num.isNaN (StringToNumber s)); [discriminate|].
    destruct (castNumber _ (default _ _)); [|discriminate].
    injection HD as <-. reflexivity. }
  rewrite (createDebt_run env req db C He HC). cbv zeta.
  rewrite HD, Hd. unfold DebtorRoutes.createdDebt.
  rewrite Hs. unfold orZeroValue. cbn [truthy].
  destruct (String.eqb_spec s "") as [?|_]; [contradiction|].
  cbn [negb plus castNumber].
  destruct (String.eqb_spec (NumberToString (orZero (c_debt C)) ++ s) "")
    as [Hempty|_].
  { destruct (NumberToString (orZero (c_debt C))); [|discriminate Hempty].
    cbn in Hempty. contradiction. }
  fold v. rewrite Hnan, Hc.
  eexists _, _. split; [reflexivity|]. split; [reflexivity|].
  split; [exact Hcur|].
  cbn [debtors clients set_clients].
  rewrite afterAppend_debtors, afterAppend_clients.
  split; reflexivity.
Qed.

(** C6, as amended.  For every stored Debtor record: debt creation and
    delete leave its [totalPaid] as it is; a payment whose amount is not
    negative never decreases it ([Num.valid] says that the amount and the
    stored [totalPaid] are binary64 values, as every number of a request
    body and every result of an operation is); an edit leaves it as it is
    unless the request body itself carries a [totalPaid], in which case an
    accepted edit overwrites the stored value with the one from the body. *)
Theorem totalPaid_kept_or_grown env db (j : N) (D : Debtor) :
  debtors db !! j = Some D ->
  (forall req r db',
      createDebt env req db = (r, db') -> debtors db' !! j = Some D)
  /\ (forall id req r db',
      Num.leb Num.zero (numValue (pr_payment req)) = true ->
      Num.valid (numValue (pr_payment req)) = true ->
      Num.valid (totalPaid D) = true ->
      payDebt env id req db = (r, db') ->
      exists D',
        debtors db' !! j = Some D'
        /\ Num.ltb (totalPaid D') (totalPaid D) = false
        /\ (Num.isNaN (totalPaid D) = false ->
            Num.isNaN (totalPaid D') = false ->
            Num.leb (totalPaid D) (totalPaid D') = true))
  /\ (forall id req r db',
      editDebt env id req db = (r, db') ->
      exists D',
        debtors db' !! j = Some D'
        /\ (j <> id \/ u_totalPaid (pt_updates req) = None ->
            totalPaid D' = totalPaid D)
        /\ (forall v, j = id -> statusCode r = 200%N ->
                      u_totalPaid (pt_updates req) = Some v ->
                      totalPaid D' = v))
  /\ (forall id r db',
      deleteDebt env id db = (r, db') ->
      exists D', debtors db' !! j = Some D' /\ totalPaid D' = totalPaid D).
Proof.
  intros Hj. split; [|split; [|split]].
  - intros req r db' Hrun.
    destruct (decide (cr_errors req = [])) as [He|He].
    2:{ rewrite createDebt_invalid in Hrun by exact He.
        apply pair_equal_spec in Hrun as [_ <-]. exact Hj. }
    destruct (clients db !! cb_client (cr_body req)) as [C|] eqn:HC.
    2:{ rewrite createDebt_no_client in Hrun by assumption.
        apply pair_equal_spec in Hrun as [_ <-]. exact Hj. }
    rewrite (createDebt_run env req db C He HC) in Hrun. cbv zeta in Hrun.
    destruct (newDebtor env (cr_body req)) as [D0|].
    2:{ apply pair_equal_spec in Hrun as [_ <-]. exact Hj. }
    destruct (debtorSchema _).
    2:{ apply pair_equal_spec in Hrun as [_ <-]. exact Hj. }
    assert (Hne : fresh (dom (debtors db)) <> j).
    { intros <-. pose proof (is_fresh (dom (debtors db))) as Hf.
      apply Hf, elem_of_dom. rewrite Hj. eauto. }
    destruct (createdDebt C (cr_body req)); [destruct (clientSchema _)|];
      apply pair_equal_spec in Hrun as [_ <-];
      cbn [debtors set_clients]; rewrite afterAppend_debtors;
      cbn [debtors set_debtors]; rewrite lookup_insert_ne by exact Hne;
      exact Hj.
  - intros id req r db' Hpos Hvp Hvt Hrun.
    assert (Hsame :
      Num.ltb (totalPaid D) (totalPaid D) = false
      /\ (Num.isNaN (totalPaid D) = false ->
          Num.isNaN (totalPaid D) = false ->
          Num.leb (totalPaid D) (totalPaid D) = true)).
    { split; [apply ltb_irrefl|]. intros Hn _.
      apply not_below_at_least; [exact Hn | exact Hn | apply ltb_irrefl]. }
    destruct (payDebt_cases env id req db) as [Hg|(p & Hp & Hnz)].
    { rewrite Hg in Hrun. apply pair_equal_spec in Hrun as [_ <-].
      exists D. split; [exact Hj | exact Hsame]. }
    destruct (findOne_cases id db) as [Hnone|(D0 & HD0 & Hdel)].
    { rewrite (payDebt_missing env id req db p Hp Hnz Hnone) in Hrun.
      apply pair_equal_spec in Hrun as [_ <-].
      exists D. split; [exact Hj | exact Hsame]. }
    rewrite (payDebt_run env id req db p D0 Hp Hnz HD0 Hdel) in Hrun.
    cbv zeta in Hrun. rewrite Hp in Hpos, Hvp. cbn [numValue] in Hpos, Hvp.
    assert (Hafter :
      exists D',
        <[id := applyPayment env req D0]> (debtors db) !! j = Some D'
        /\ Num.ltb (totalPaid D') (totalPaid D) = false
        /\ (Num.isNaN (totalPaid D) = false ->
            Num.isNaN (totalPaid D') = false ->
            Num.leb (totalPaid D) (totalPaid D') = true)).
    { destruct (decide (id = j)) as [->|Hne].
      - exists (applyPayment env req D0).
        rewrite lookup_insert_eq. split; [reflexivity|].
        assert (D0 = D) as -> by congruence.
        cbn [totalPaid DebtorRoutes.applyPayment]. rewrite Hp.
        cbn [numValue].
        pose proof (add_nonneg_not_below (totalPaid D) p Hvt Hvp Hpos)
          as Hnb.
        split; [exact Hnb|]. intros Hn Hn'.
        apply not_below_at_least; assumption.
      - exists D. rewrite lookup_insert_ne by exact Hne.
        split; [exact Hj | exact Hsame]. }
    destruct (debtorSchema _).
    2:{ apply pair_equal_spec in Hrun as [_ <-].
        exists D. split; [exact Hj | exact Hsame]. }
    destruct (clients db !! client D0); [destruct (clientSchema _)|];
      apply pair_equal_spec in Hrun as [_ <-];
      cbn [debtors set_clients]; rewrite afterAppend_debtors;
      exact Hafter.
  - intros id req r db' Hrun.
    destruct (findOne_cases id db) as [Hnone|(D0 & HD0 & Hdel)].
    { rewrite (editDebt_missing env id req db Hnone) in Hrun.
      apply pair_equal_spec in Hrun as [Hr <-].
      exists D. split; [exact Hj|]. split; [reflexivity|].
      intros v _ Hok _. rewrite <- Hr in Hok. discriminate. }
    rewrite (editDebt_run env id req db D0 HD0 Hdel) in Hrun.
    cbv zeta in Hrun.
    destruct (debtorSchema _).
    2:{ apply pair_equal_spec in Hrun as [Hr <-].
        exists D. split; [exact Hj|]. split; [reflexivity|].
        intros v _ Hok _. rewrite <- Hr in Hok. discriminate. }
    assert (Hafter :
      exists D',
        <[id := applyPatch req D0]> (debtors db) !! j = Some D'
        /\ (j <> id \/ u_totalPaid (pt_updates req) = None ->
            totalPaid D' = totalPaid D)
        /\ (forall v, j = id ->
                      u_totalPaid (pt_updates req) = Some v ->
                      totalPaid D' = v)).
    { destruct (decide (id = j)) as [->|Hne].
      + exists (applyPatch req D0). rewrite lookup_insert_eq.
        assert (D0 = D) as -> by congruence.
        split; [reflexivity|].
        unfold applyPatch, assign. cbn [totalPaid].
        split.
        * intros [Hc| ->]; [congruence|].
          destruct (pt_description req), (pt_nextPayment req); reflexivity.
        * intros v _ ->.
          destruct (pt_description req), (pt_nextPayment req); reflexivity.
      + exists D. rewrite lookup_insert_ne by exact Hne.
        split; [exact Hj|]. split; [reflexivity|].
        intros v Heq. congruence. }
    destruct Hafter as (D' & HD' & Hkeep & Hset).
    destruct (Num.isNaN _);
      apply pair_equal_spec in Hrun as [_ <-];
      cbn [debtors set_clients set_debtors];
      (exists D'; split; [exact HD'|]; split; [exact Hkeep|]);
      intros v Hjid _ Hv; exact (Hset v Hjid Hv).
  - intros id r db' Hrun.
    destruct (findOne_cases id db) as [Hnone|(D0 & HD0 & Hdel)].
    { rewrite (deleteDebt_missing env id db Hnone) in Hrun.
      apply pair_equal_spec in Hrun as [_ <-].
      exists D. split; [exact Hj | reflexivity]. }
    rewrite (deleteDebt_run env id db D0 HD0 Hdel) in Hrun.
    cbv zeta in Hrun.
    assert (Hafter :
      exists D',
        <[id := softDeleted env D0]> (debtors db) !! j = Some D'
        /\ totalPaid D' = totalPaid D).
    { destruct (decide (id = j)) as [->|Hne].
      - exists (softDeleted env D0). rewrite lookup_insert_eq.
        assert (D0 = D) as -> by congruence. split; reflexivity.
      - exists D. rewrite lookup_insert_ne by exact Hne.
        split; [exact Hj | reflexivity]. }
    destruct (clients db !! client D0);
      [destruct (clientSchema _)|];
      try destruct (debtorSchema _);
      apply pair_equal_spec in Hrun as [_ <-];
      first [ exact Hafter
            | exists D; split; [exact Hj | reflexivity] ].
Qed.

End DebtorProperties.

(** ** The transaction handlers, step by step *)

Section TransactionProperties.
Import TransactionRoutes.
Variable clientSchema : Client -> bool.
Variable debtorSchema : Debtor -> bool.
Variable StringToNumber : string -> num.
Variable NumberToString : num -> string.
Variable sumAccumulator : list num -> num.

Local Abbreviation cashIn := (cashIn clientSchema StringToNumber).
Local Abbreviation cashOut := (cashOut clientSchema StringToNumber).
Local Abbreviation amountOf :=
  (fun req => numberOrZero StringToNumber (cq_amount req)).
Local Abbreviation aggregate := (aggregate sumAccumulator).
Local Abbreviation monthlyTransactions :=
  (monthlyTransactions sumAccumulator).
Local Abbreviation monthTotal := (monthTotal sumAccumulator).

Lemma cashIn_negative env req db :
  Num.ltb (amountOf req) Num.zero = true ->
  cashIn env req db
  = (mkResponse 400 (BMessage "amount musbat bo'lishi kerak"), db).
Proof.
  intros H. unfold TransactionRoutes.cashIn, handle. cbv zeta.
  rewrite H. reflexivity.
Qed.

Lemma cashOut_negative env req db :
  Num.ltb (amountOf req) Num.zero = true ->
  cashOut env req db
  = (mkResponse 400 (BMessage "amount musbat bo'lishi kerak"), db).
Proof.
  intros H. unfold TransactionRoutes.cashOut, handle. cbv zeta.
  rewrite H. reflexivity.
Qed.

Lemma create_recorded env doc db :
  (let (o, db') :=
     bind (Store.Transaction_create env doc)
       (fun transaction => ret (mkResponse 201 (BTransaction transaction)))
       db in
   match o with
   | Done r => (r, db')
   | Thrown e => (mkResponse 500 (BFailure e), db')
   end) = recorded env doc db.
Proof.
  unfold bind, Store.Transaction_create, recorded, ret.
  destruct (transactionSchema _ _); [|reflexivity].
  destruct (ledgerFault env); reflexivity.
Qed.

Lemma cashIn_run env req db :
  Num.ltb (amountOf req) Num.zero = false ->
  cashIn env req db =
    match cq_client req with
    | BadId => (mkResponse 500 (BFailure CastError), db)
    | NoId => recorded env (cashEntry cash_in req (amountOf req)) db
    | GoodId c =>
        match clients db !! c with
        | Some C =>
            let C' := set_c_debt (Num.sub (c_debt C) (amountOf req)) C in
            if clientSchema C'
            then recorded env (cashEntry cash_in req (amountOf req))
                   (set_clients (insert c C') db)
            else (mkResponse 500 (BFailure ValidationError), db)
        | None => recorded env (cashEntry cash_in req (amountOf req)) db
        end
    end.
Proof.
  intros H. unfold TransactionRoutes.cashIn, handle. cbv zeta.
  rewrite H.
  unfold bind at 1. unfold Store.Client_findByRef.
  destruct (cq_client req) as [| |c].
  - unfold ret at 1. unfold bind at 1. unfold ret at 1.
    apply create_recorded.
  - reflexivity.
  - destruct (clients db !! c) as [C|]; simpl.
    + unfold bind at 1. unfold Store.Client_save.
      destruct (clientSchema _); [|reflexivity].
      apply create_recorded.
    + unfold bind at 1. unfold ret at 1. apply create_recorded.
Qed.

Lemma cashOut_run env req db :
  Num.ltb (amountOf req) Num.zero = false ->
  cashOut env req db =
    match cq_client req with
    | BadId => (mkResponse 500 (BFailure CastError), db)
    | NoId => recorded env (cashEntry cash_out req (amountOf req)) db
    | GoodId c =>
        match clients db !! c with
        | Some C =>
            let C' := set_c_debt (Num.add (c_debt C) (amountOf req)) C in
            if clientSchema C'
            then recorded env (cashEntry cash_out req (amountOf req))
                   (set_clients (insert c C') db)
            else (mkResponse 500 (BFailure ValidationError), db)
        | None => recorded env (cashEntry cash_out req (amountOf req)) db
        end
    end.
Proof.
  intros H. unfold TransactionRoutes.cashOut, handle. cbv zeta.
  rewrite H.
  unfold bind at 1. unfold Store.Client_findByRef.
  destruct (cq_client req) as [| |c].
  - unfold ret at 1. unfold bind at 1. unfold ret at 1.
    apply create_recorded.
  - reflexivity.
  - destruct (clients db !! c) as [C|]; simpl.
    + unfold bind at 1. unfold Store.Client_save.
      destruct (clientSchema _); [|reflexivity].
      apply create_recorded.
    + unfold bind at 1. unfold ret at 1. apply create_recorded.
Qed.

Lemma recorded_clients env doc db :
  clients (recorded env doc db).2 = clients db.
Proof.
  unfold recorded. destruct (transactionSchema _ _); [|reflexivity].
  destruct (ledgerFault env); reflexivity.
Qed.

(** [Number(amount) || 0] of a zero is [0]. *)
Lemma amountOf_zero req (z : num) :
  cq_amount req = VNum z -> Num.isZero z = true ->
  amountOf req = Num.zero.
Proof.
  intros Ha Hz. cbv beta. unfold numberOrZero. rewrite Ha.
  cbn [toNumber]. unfold orZero. rewrite Hz. reflexivity.
Qed.

(** ** Claims about the transaction routes *)

(** C7, as amended.  [POST /transactions/cash-in] answers 400 to a negative
    amount and then changes no state; an amount of 0 passes the check and,
    the rest of the request being well-formed, is recorded as a Ledger
    Entry with [amount = 0]; and when a client is supplied and exists,
    cash-in sets that client's debt to [debt - amount] and cash-out sets it
    to [debt + amount], computed in double-precision arithmetic: for
    integers of magnitude at most [2^53 - 1] with such a result, the debt
    goes down, respectively up, by exactly the amount. *)
Theorem cash_in_amount_rules :
  (forall env req db,
      Num.ltb (amountOf req) Num.zero = true ->
      cashIn env req db
      = (mkResponse 400 (BMessage "amount musbat bo'lishi kerak"), db))
  /\ (forall env req db (z : num) pt cl by_,
      cq_amount req = VNum z -> Num.isZero z = true ->
      castPaymentType (cq_paymentType req) = Some pt ->
      castId (cq_client req) = Some cl ->
      castId (cq_createdBy req) = Some by_ ->
      ledgerFault env = false ->
      (forall c C, cl = Some c -> clients db !! c = Some C ->
                   clientSchema
                     (set_c_debt (Num.sub (c_debt C) Num.zero) C) = true) ->
      exists t tid db',
        cashIn env req db = (mkResponse 201 (BTransaction t), db')
        /\ t_type t = cash_in
        /\ t_amount t = Num.zero
        /\ transactions db !! tid = None
        /\ transactions db' = <[tid := t]> (transactions db))
  /\ (forall env req db c C,
      Num.ltb (amountOf req) Num.zero = false ->
      cq_client req = GoodId c ->
      clients db !! c = Some C ->
      (clientSchema
         (set_c_debt (Num.sub (c_debt C) (amountOf req)) C) = true ->
       exists C',
         clients (cashIn env req db).2 !! c = Some C'
         /\ c_debt C' = Num.sub (c_debt C) (amountOf req)
         /\ (forall d n : Z,
               c_debt C = Num.ofZ d -> amountOf req = Num.ofZ n ->
               Num.safe d -> Num.safe n -> Num.safe (d - n) ->
               c_debt C' = Num.ofZ (d - n)))
      /\ (clientSchema
            (set_c_debt (Num.add (c_debt C) (amountOf req)) C) = true ->
          exists C',
            clients (cashOut env req db).2 !! c = Some C'
            /\ c_debt C' = Num.add (c_debt C) (amountOf req)
            /\ (forall d n : Z,
                  c_debt C = Num.ofZ d -> amountOf req = Num.ofZ n ->
                  Num.safe d -> Num.safe n -> Num.safe (d + n) ->
                  c_debt C' = Num.ofZ (d + n)))).
Proof.
  split; [|split].
  - intros env req db H. apply cashIn_negative. exact H.
  - intros env req db z pt cl by_ Ha Hz Hpt Hcl Hby Hup Hsave.
    pose proof (amountOf_zero req z Ha Hz) as Hzero.
    assert (Hrec : forall db1,
      transactions db1 = transactions db ->
      exists t tid db',
        recorded env (cashEntry cash_in req Num.zero) db1
        = (mkResponse 201 (BTransaction t), db')
        /\ t_type t = cash_in /\ t_amount t = Num.zero
        /\ transactions db !! tid = None
        /\ transactions db' = <[tid := t]> (transactions db)).
    { intros db1 Htx. unfold recorded, transactionSchema, cashEntry.
      cbn [x_amount x_paymentType x_client x_createdBy x_type
           x_relatedModel x_relatedId].
      rewrite Hpt, Hcl, Hby, Hup.
      change (Num.leb Num.zero Num.zero) with true. cbn [negb].
      eexists _, (fresh (dom (transactions db))), _.
      split; [reflexivity|]. split; [reflexivity|]. split; [reflexivity|].
      split; [apply not_elem_of_dom, is_fresh|].
      cbn [transactions set_transactions]. rewrite Htx. reflexivity. }
    rewrite cashIn_run by (rewrite Hzero; reflexivity). rewrite Hzero.
    destruct (cq_client req) as [| |c]; [|discriminate|].
    + apply Hrec. reflexivity.
    + injection Hcl as <-.
      destruct (clients db !! c) as [C|] eqn:HC; [|apply Hrec; reflexivity].
      cbv zeta. rewrite (Hsave c C eq_refl HC).
      apply Hrec. reflexivity.
  - intros env req db c C Hpos Hc HC. split; intros Hs.
    + rewrite cashIn_run by exact Hpos. rewrite Hc, HC. cbv zeta.
      rewrite Hs, recorded_clients. cbn [clients set_clients].
      rewrite lookup_insert_eq. eexists. split; [reflexivity|].
      split; [reflexivity|].
      intros d n -> -> Hd Hn Hdn. cbn [c_debt set_c_debt].
      apply sub_ofZ; assumption.
    + rewrite cashOut_run by exact Hpos. rewrite Hc, HC. cbv zeta.
      rewrite Hs, recorded_clients. cbn [clients set_clients].
      rewrite lookup_insert_eq. eexists. split; [reflexivity|].
      split; [reflexivity|].
      intros d n -> -> Hd Hn Hdn. cbn [c_debt set_c_debt].
      apply add_ofZ; assumption.
Qed.

(** C8.  [DELETE /transactions/:id] removes the Transaction record from the
    collection, physically, and changes no client's [debt] and no debtor:
    the balance effect the transaction had when it was created is not
    reversed. *)
Theorem delete_transaction_is_hard_and_keeps_balances
    (id : N) (db : DB) (t : Transaction) :
  transactions db !! id = Some t ->
  exists db',
    deleteTransaction id db
    = (mkResponse 200 (BMessage "Transaction o`chirildi"), db')
    /\ transactions db' = delete id (transactions db)
    /\ transactions db' !! id = None
    /\ clients db' = clients db
    /\ debtors db' = debtors db.
Proof.
  intros Ht. eexists. split.
  - unfold deleteTransaction, handle, bind,
      Store.Transaction_findByIdAndDelete, ret.
    rewrite Ht. reflexivity.
  - cbn [transactions clients debtors set_transactions].
    repeat split. apply lookup_delete_eq.
Qed.

(** C9.  [POST /debtors/:id/payment] answers 400 to [payment = 0]: the
    value has type number, yet it is falsy and the guard refuses it, so no
    zero payment gets through this endpoint, and in that case the Debtor,
    Client and Transaction collections are untouched; cash-in given
    [amount = 0] does not answer 400. *)
Theorem zero_payment_is_rejected env id np user (db : DB) creq (z : num) :
  Num.isZero z = true ->
  DebtorRoutes.payDebt clientSchema debtorSchema StringToNumber env id
      (DebtorRoutes.mkPayReq (VNum z) np user) db
    = (mkResponse 400 (BMessage "To'lov miqdori raqam bo'lishi kerak"), db)
  /\ isNumber (VNum z) = true
  /\ (cq_amount creq = VNum z ->
      N.eqb (statusCode (cashIn env creq db).1) 400 = false).
Proof.
  intros Hz.
  split.
  { apply payDebt_guard. cbn [DebtorRoutes.pr_payment truthy].
    rewrite Hz. reflexivity. }
  split; [reflexivity|].
  intros Ha.
  pose proof (amountOf_zero creq z Ha Hz) as Hzero.
  rewrite cashIn_run by (rewrite Hzero; reflexivity). unfold recorded.
  destruct (cq_client creq) as [| |c]; [|reflexivity|].
  - destruct (transactionSchema _ _); [|reflexivity].
    destruct (ledgerFault env); reflexivity.
  - destruct (clients db !! c) as [C|]; cbv zeta;
      [destruct (clientSchema _); [|reflexivity]|];
      (destruct (transactionSchema _ _); [|reflexivity]);
      destruct (ledgerFault env); reflexivity.
Qed.

(** *** The monthly statistics *)

Lemma monthNumber_range (m : Month) :
  (1 <= monthNumber m <= 12)%nat.
Proof. destruct m; simpl; lia. Qed.

Lemma monthNumber_inj (m1 m2 : Month) :
  monthNumber m1 = monthNumber m2 -> m1 = m2.
Proof. destruct m1, m2; simpl; intros H; congruence. Qed.

(** The [$match] window [$gte: Jan 1 of year, $lt: Jan 1 of year + 1]
    selects exactly the instants of that year. *)
Lemma in_year_window (year : Z) (d : Date) :
  date_leb (yearStart year) d && date_ltb d (yearStart (year + 1)) = true
  <-> d_year d = year.
Proof.
  unfold date_leb, date_ltb, yearStart. cbn [d_year d_month d_offset].
  pose proof (monthNumber_range (d_month d)) as Hm.
  change (monthNumber Jan) with 1%nat.
  destruct (Z.ltb_spec (d_year d) year), (Z.eqb_spec (d_year d) year),
    (Z.ltb_spec (d_year d) (year + 1)),
    (Z.eqb_spec (d_year d) (year + 1)),
    (Nat.ltb_spec (monthNumber (d_month d)) 1),
    (Nat.eqb_spec (monthNumber (d_month d)) 1),
    (N.ltb_spec (d_offset d) 0);
    cbn; split; intros; try discriminate; try reflexivity; lia.
Qed.

(** The total of a key in the output of a [$group] stage with one group
    for each key of [keys]. *)
Lemma groupTotal_groups (F : nat * TxType -> num) m ty
    (keys : list (nat * TxType)) :
  groupTotal m ty ((fun k => mkGroup k.1 k.2 (F k)) <$> keys)
  = if decide ((m, ty) ∈ keys) then Some (F (m, ty)) else None.
Proof.
  induction keys as [|[km kt] keys IH]; cbn [fmap list_fmap groupTotal].
  - rewrite decide_False by apply not_elem_of_nil. reflexivity.
  - cbn [g_month g_type g_total fst snd].
    case_bool_decide as Hk.
    + destruct Hk as [-> ->].
      rewrite decide_True by apply list_elem_of_here. reflexivity.
    + change (list_fmap _ _ ?f keys) with (f <$> keys). rewrite IH.
      destruct (decide ((m, ty) ∈ keys)) as [Hin|Hin].
      * rewrite decide_True by (apply list_elem_of_further; exact Hin).
        reflexivity.
      * rewrite decide_False; [reflexivity|].
        intros Hc. apply elem_of_cons in Hc as [Heq|Hc]; [|contradiction].
        apply Hk. injection Heq as -> ->. split; reflexivity.
Qed.

Lemma groupTotal_None m ty groups :
  (m, ty) ∉ groupKeys groups -> groupTotal m ty groups = None.
Proof.
  induction groups as [|g rest IH]; intros Hnot; cbn [groupTotal].
  - reflexivity.
  - cbn [groupKeys List.map] in Hnot.
    apply not_elem_of_cons in Hnot as [Hne Hrest].
    rewrite bool_decide_eq_false_2 by (intros [<- <-]; congruence).
    apply IH. exact Hrest.
Qed.

Lemma groupKeys_groups (F : nat * TxType -> num)
    (keys : list (nat * TxType)) :
  groupKeys ((fun k => mkGroup k.1 k.2 (F k)) <$> keys) = keys.
Proof.
  induction keys as [|[km kt] keys IH]; [reflexivity|].
  cbn [fmap list_fmap groupKeys List.map g_month g_type fst snd].
  f_equal. exact IH.
Qed.

(** A key occurs among the projected documents exactly when some amount is
    keyed by it. *)
Lemma keyed_nil m ty (docs : list (nat * TxType * num)) :
  (m, ty) ∈ fst <$> docs <-> keyed m ty docs <> [].
Proof.
  clear clientSchema debtorSchema StringToNumber NumberToString
    sumAccumulator.
  unfold keyed. induction docs as [|[[dm dt] a] docs IH].
  - cbn. split; [intros H; inversion H | congruence].
  - cbn [fmap list_fmap List.filter fst snd].
    case_bool_decide as Hk.
    + destruct Hk as [-> ->]. split; [discriminate|].
      intros _. apply list_elem_of_here.
    + rewrite elem_of_cons.
      change (list_fmap _ _ fst docs) with (fst <$> docs).
      rewrite IH. split; [|tauto].
      intros [Heq|H]; [|exact H]. exfalso. apply Hk.
      injection Heq as -> ->. split; reflexivity.
Qed.

(** The output of the pipeline has one group per key, keyed by months
    counted from 1. *)
Lemma aggregate_keys from to db :
  NoDup (groupKeys (aggregate from to db))
  /\ Forall (fun k => (1 <= k.1)%nat) (groupKeys (aggregate from to db)).
Proof.
  unfold TransactionRoutes.aggregate. cbv zeta.
  rewrite groupKeys_groups. split; [apply NoDup_remove_dups|].
  apply Forall_forall. intros k Hk. rewrite elem_of_remove_dups in Hk.
  apply list_elem_of_fmap in Hk as ([[dm dt] a] & -> & Hin).
  apply list_elem_of_In, in_map_iff in Hin as (t & [= <- _ _] & _).
  apply monthNumber_range.
Qed.

Lemma place_fold groups :
  NoDup (groupKeys groups) ->
  Forall (fun k => (1 <= k.1)%nat) (groupKeys groups) ->
  forall (cashIn cashOut : list num) (i : nat),
    (i < length cashIn)%nat -> (i < length cashOut)%nat ->
    (fold_left place groups (cashIn, cashOut)).1 !! i
      = match groupTotal (S i) cash_in groups with
        | Some total => Some total
        | None => cashIn !! i
        end
    /\ (fold_left place groups (cashIn, cashOut)).2 !! i
       = match groupTotal (S i) cash_out groups with
         | Some total => Some total
         | None => cashOut !! i
         end
    /\ length (fold_left place groups (cashIn, cashOut)).1 = length cashIn
    /\ length (fold_left place groups (cashIn, cashOut)).2 = length cashOut.
Proof.
  induction groups as [|g rest IH]; intros Hnd Hall cashIn cashOut i Hi Ho.
  - cbn. repeat split.
  - cbn [groupKeys List.map] in Hnd, Hall. fold (groupKeys rest) in Hnd, Hall.
    apply NoDup_cons in Hnd as [Hfresh Hnd].
    apply Forall_cons in Hall as [Hm Hall]. cbn [fst] in Hm.
    cbn [fold_left groupTotal].
    destruct g as [gm gt total]. cbn [g_month g_type g_total] in *.
    unfold place at 2 4 6 8. cbn [g_month g_type g_total].
    destruct gt.
    + (* a cash-in group *)
      destruct (IH Hnd Hall (<[(gm - 1)%nat := total]> cashIn) cashOut i)
        as (H1 & H2 & H3 & H4);
        [rewrite length_insert; exact Hi | exact Ho |].
      rewrite H1, H2, H3, H4, length_insert.
      rewrite (bool_decide_eq_false_2 (gm = S i /\ cash_in = cash_out))
        by (intros [_ ?]; discriminate).
      repeat split.
      case_bool_decide as Hk.
      * destruct Hk as [-> _].
        rewrite groupTotal_None by exact Hfresh.
        replace (S i - 1)%nat with i by lia.
        apply list_lookup_insert_eq. exact Hi.
      * destruct (groupTotal (S i) cash_in rest); [reflexivity|].
        apply list_lookup_insert_ne. intros Heq. apply Hk.
        split; [lia | reflexivity].
    + (* a cash-out group *)
      destruct (IH Hnd Hall cashIn (<[(gm - 1)%nat := total]> cashOut) i)
        as (H1 & H2 & H3 & H4);
        [exact Hi | rewrite length_insert; exact Ho |].
      rewrite H1, H2, H3, H4, length_insert.
      rewrite (bool_decide_eq_false_2 (gm = S i /\ cash_out = cash_in))
        by (intros [_ ?]; discriminate).
      repeat split.
      case_bool_decide as Hk.
      * destruct Hk as [-> _].
        rewrite groupTotal_None by exact Hfresh.
        replace (S i - 1)%nat with i by lia.
        apply list_lookup_insert_eq. exact Ho.
      * destruct (groupTotal (S i) cash_out rest); [reflexivity|].
        apply list_lookup_insert_ne. intros Heq. apply Hk.
        split; [lia | reflexivity].
    + destruct (IH Hnd Hall cashIn cashOut i Hi Ho) as (H1 & H2 & H3 & H4).
      rewrite H1, H2, H3, H4.
      rewrite !bool_decide_eq_false_2 by (intros [_ ?]; discriminate).
      repeat split.
    + destruct (IH Hnd Hall cashIn cashOut i Hi Ho) as (H1 & H2 & H3 & H4).
      rewrite H1, H2, H3, H4.
      rewrite !bool_decide_eq_false_2 by (intros [_ ?]; discriminate).
      repeat split.
    + destruct (IH Hnd Hall cashIn cashOut i Hi Ho) as (H1 & H2 & H3 & H4).
      rewrite H1, H2, H3, H4.
      rewrite !bool_decide_eq_false_2 by (intros [_ ?]; discriminate).
      repeat split.
Qed.

(** The amounts the pipeline keys by month [m] and type [type] are those of
    the transactions of that month and type in the whole collection. *)
Lemma keyed_monthAmounts (year : Z) (type : TxType) (m : Month) (db : DB) :
  keyed (monthNumber m) type
    (List.map
       (fun t => (monthNumber (d_month (t_createdAt t)), t_type t,
                  t_amount t))
       (List.filter
          (fun t => date_leb (yearStart year) (t_createdAt t)
                    && date_ltb (t_createdAt t) (yearStart (year + 1)))
          (scan (transactions db)).*2))
  = monthAmounts db year type m.
Proof.
  unfold monthAmounts, keyed.
  induction (scan (transactions db)) as [|[k t] l IH]; [reflexivity|].
  cbn [fmap list_fmap snd List.filter].
  change (list_fmap _ _ snd l) with (l.*2).
  destruct (date_leb _ _ && date_ltb _ _) eqn:Hw.
  - apply in_year_window in Hw.
    cbn [List.map List.filter fst snd].
    repeat case_bool_decide.
    + cbn [fmap list_fmap snd]. f_equal. exact IH.
    + exfalso. match goal with H : ~ _ |- _ => apply H end.
      destruct H as [Hm Ht]. apply monthNumber_inj in Hm. tauto.
    + exfalso.
      match goal with H : ~ (monthNumber _ = _ /\ _) |- _ => apply H end.
      destruct H0 as (_ & -> & Ht). tauto.
    + exact IH.
  - rewrite bool_decide_eq_false_2; [exact IH|].
    intros (Hy & _). apply in_year_window in Hy. congruence.
Qed.

(** The total the pipeline reports for a month and type, 0 when it reports
    none, is the specification's. *)
Lemma aggregate_monthTotal (year : Z) (type : TxType) (m : Month) (db : DB) :
  default Num.zero
    (groupTotal (monthNumber m) type
       (aggregate (yearStart year) (yearStart (year + 1)) db))
  = monthTotal db year type m.
Proof.
  clear clientSchema debtorSchema StringToNumber NumberToString.
  unfold TransactionRoutes.aggregate. cbv zeta.
  set (projected := List.map _ _).
  rewrite (groupTotal_groups
             (fun k => sumAccumulator (keyed k.1 k.2 projected))).
  unfold monthTotal.
  pose proof (keyed_nil (monthNumber m) type projected) as Hnil.
  cbn [fst snd]. subst projected.
  rewrite keyed_monthAmounts in Hnil.
  destruct (decide _) as [Hin|Hin].
  - rewrite elem_of_remove_dups in Hin. apply Hnil in Hin.
    cbn [from_option id]. rewrite keyed_monthAmounts.
    destruct (monthAmounts db year type m); [congruence | reflexivity].
  - rewrite elem_of_remove_dups in Hin.
    destruct (monthAmounts db year type m) as [|a l]; [reflexivity|].
    exfalso. apply Hin, Hnil. discriminate.
Qed.

Lemma listed_transactions (db : DB) (t : Transaction) :
  t ∈ List.filter (fun t => negb (t_isDeleted t))
        (scan (transactions db)).*2
  <-> (exists id, transactions db !! id = Some t) /\ t_isDeleted t = false.
Proof.
  rewrite elem_of_List_filter, list_elem_of_fmap, negb_true_iff.
  split.
  - intros [Hflag ([id t'] & -> & Hin)].
    apply scan_lookup in Hin. split; [exists id; exact Hin | exact Hflag].
  - intros [[id Hid] Hflag]. split; [exact Hflag|].
    exists (id, t). split; [reflexivity|].
    apply scan_lookup. exact Hid.
Qed.

(** The answer of the statistics route, slot by slot. *)
Lemma monthly_slots env query (db : DB) :
  exists cashIn_ cashOut_,
    monthlyTransactions env query db
    = (mkResponse 200 (BMonthly cashIn_ cashOut_), db)
    /\ length cashIn_ = 12%nat
    /\ length cashOut_ = 12%nat
    /\ (forall m : Month,
         cashIn_ !! (monthNumber m - 1)%nat
         = Some (monthTotal db (requestedYear env query) cash_in m))
    /\ (forall m : Month,
         cashOut_ !! (monthNumber m - 1)%nat
         = Some (monthTotal db (requestedYear env query) cash_out m)).
Proof.
  clear clientSchema debtorSchema StringToNumber NumberToString.
  set (year := requestedYear env query).
  unfold TransactionRoutes.monthlyTransactions, handle. cbv zeta. fold year.
  pose proof (aggregate_monthTotal year) as Htotal.
  set (groups := aggregate (yearStart year) (yearStart (year + 1)) db)
    in *.
  destruct (aggregate_keys (yearStart year) (yearStart (year + 1)) db)
    as [Hnd Hall]. fold groups in Hnd, Hall.
  pose proof (place_fold groups Hnd Hall
                (replicate 12 Num.zero) (replicate 12 Num.zero))
    as Hplace.
  destruct (fold_left place groups
              (replicate 12 Num.zero, replicate 12 Num.zero))
    as [ci co] eqn:Hfold.
  cbn [fst snd] in Hplace.
  exists ci, co.
  split; [reflexivity|].
  destruct (Hplace 0%nat) as (_ & _ & Hlen1 & Hlen2);
    [rewrite length_replicate; lia..|].
  rewrite length_replicate in Hlen1, Hlen2.
  split; [exact Hlen1|]. split; [exact Hlen2|].
  split; intros m; pose proof (monthNumber_range m) as Hm.
  - destruct (Hplace (monthNumber m - 1)%nat) as (H1 & _);
      [rewrite length_replicate; lia..|].
    rewrite H1. replace (S (monthNumber m - 1)) with (monthNumber m) by lia.
    rewrite <- (Htotal cash_in m db). fold groups.
    destruct (groupTotal (monthNumber m) cash_in groups); [reflexivity|].
    apply lookup_replicate_2. lia.
  - destruct (Hplace (monthNumber m - 1)%nat) as (_ & H2 & _);
      [rewrite length_replicate; lia..|].
    rewrite H2. replace (S (monthNumber m - 1)) with (monthNumber m) by lia.
    rewrite <- (Htotal cash_out m db). fold groups.
    destruct (groupTotal (monthNumber m) cash_out groups); [reflexivity|].
    apply lookup_replicate_2. lia.
Qed.

(** C10.  [GET /transactions/statistics/monthly-transactions] reports, for
    each month of the requested (four-digit) year, the [$sum] of the
    amounts of all stored transactions of type cash-in, respectively
    cash-out, created in that month: the sums range over the whole
    collection with no test of [isDeleted], so flagged transactions are
    counted.  [GET /transactions] on the same state lists exactly the
    stored transactions whose [isDeleted] is false. *)
Theorem monthly_statistics_count_flagged env query (db : DB) :
  1000 <= requestedYear env query <= 9999 ->
  exists cashIn cashOut listed,
    monthlyTransactions env query db
    = (mkResponse 200 (BMonthly cashIn cashOut), db)
    /\ length cashIn = 12%nat
    /\ length cashOut = 12%nat
    /\ (forall m : Month,
         cashIn !! (monthNumber m - 1)%nat
         = Some (monthTotal db (requestedYear env query) cash_in m))
    /\ (forall m : Month,
         cashOut !! (monthNumber m - 1)%nat
         = Some (monthTotal db (requestedYear env query) cash_out m))
    /\ listTransactions db = (mkResponse 200 (BTransactions listed), db)
    /\ (forall t, t ∈ listed.*1
                  <-> (exists id, transactions db !! id = Some t)
                      /\ t_isDeleted t = false).
Proof.
  clear clientSchema debtorSchema StringToNumber NumberToString.
  intros _.
  destruct (monthly_slots env query db)
    as (ci & co & Hrun & Hl1 & Hl2 & H1 & H2).
  eexists ci, co, _.
  split; [exact Hrun|]. split; [exact Hl1|]. split; [exact Hl2|].
  split; [exact H1|]. split; [exact H2|].
  split; [reflexivity|].
  intros t. rewrite <- listed_transactions, <- list_fmap_compose.
  rewrite (list_fmap_ext _ id) by reflexivity.
  rewrite list_fmap_id. reflexivity.
Qed.

End TransactionProperties.

(** ** Concrete runs *)

Section Runs.
Import DebtorRoutes TransactionRoutes.

(** C1 fails where the subtraction rounds: a payment of 1 for a client
    whose debt is [-2^53] is accepted and leaves that debt as it was. *)
Lemma payment_lost_in_rounding :
  let out := payDebt acceptAll nonNegativeDebtor notANumber Sample.env 10
               (Sample.pay 1) Sample.deep_credit in
  statusCode out.1 = 200%N
  /\ (c_debt <$> clients Sample.deep_credit !! 1%N)
     = Some (Num.ofZ (-9007199254740992))
  /\ (c_debt <$> clients out.2 !! 1%N)
     = Some (Num.ofZ (-9007199254740992))
  /\ (Num.toZ <$> (c_debt <$> clients out.2 !! 1%N))
     <> Some (Some (-9007199254740992 - 1)).
Proof.
  intros out. vm_compute.
  split; [reflexivity|]. split; [reflexivity|]. split; [reflexivity|].
  discriminate.
Qed.

(** C1, as amended, at an overpayment: 10000 paid against a remaining debt
    of 600. *)
Lemma overpayment_run :
  let out := payDebt acceptAll nonNegativeDebtor notANumber Sample.env 10
               (Sample.pay 10000) Sample.one_debt in
  exists D' C',
    debtors out.2 !! 10%N = Some D'
    /\ currentDebt D' = Num.ofZ 0
    /\ totalPaid D' = Num.ofZ 10400
    /\ clients out.2 !! 1%N = Some C'
    /\ c_debt C' = Num.ofZ (-9400)
    /\ c_debt C' <> currentDebt D'.
Proof.
  intros out.
  destruct (payment_updates_debtor_and_client acceptAll nonNegativeDebtor
              notANumber Sample.env 10 (Sample.pay 10000) Sample.one_debt
              out.1 out.2 (Num.ofZ 10000) Sample.D1 (mkClient "C" 600))
    as (D' & C' & HD' & _ & _ & HC' & _ & Hexact).
  - reflexivity.
  - reflexivity.
  - reflexivity.
  - reflexivity.
  - apply surjective_pairing.
  - vm_compute. reflexivity.
  - destruct (Hexact 600 400 600 10000) as (H1 & H2 & H3 & H4);
      try reflexivity; try (unfold Num.safe; lia).
    exists D', C'.
    split; [exact HD'|]. split; [exact H1|]. split; [exact H2|].
    split; [exact HC'|]. split; [exact H3|].
    apply H4; [lia | reflexivity].
Defined.

(** C2 fails where the running sum rounds: of the two open debts [2^53]
    and 1, whose sum is [2^53 + 1], the stored client debt is [2^53]. *)
Lemma reconciled_debt_is_not_the_sum :
  let out := editDebt nonNegativeDebtor Sample.env 11 emptyPatch
               Sample.large_debts in
  statusCode out.1 = 200%N
  /\ (Num.toZ <$> (currentDebt <$> debtors out.2 !! 10%N))
     = Some (Some 9007199254740992)
  /\ (Num.toZ <$> (currentDebt <$> debtors out.2 !! 11%N))
     = Some (Some 1)
  /\ size (debtors out.2) = 2%nat
  /\ activeDebtSum out.2 1 = 9007199254740992 + 1
  /\ (Num.toZ <$> (c_debt <$> clients out.2 !! 1%N))
     = Some (Some 9007199254740992)
  /\ (Num.toZ <$> (c_debt <$> clients out.2 !! 1%N))
     <> Some (Some (activeDebtSum out.2 1)).
Proof.
  intros out. vm_compute.
  split; [reflexivity|]. split; [reflexivity|]. split; [reflexivity|].
  split; [reflexivity|]. split; [reflexivity|]. split; [reflexivity|].
  discriminate.
Qed.

(** With a third debt of 1 the sum [2^53 + 2] is a number again, and still
    the running sum, which meets the debt of [2^53] first, stops at
    [2^53]. *)
Example running_sum_misses_a_representable_sum :
  let out := editDebt nonNegativeDebtor Sample.env 11 emptyPatch
               Sample.three_large_debts in
  statusCode out.1 = 200%N
  /\ activeDebtSum out.2 1 = 9007199254740992 + 1 + 1
  /\ (c_debt <$> clients out.2 !! 1%N) = Some (Num.ofZ 9007199254740992)
  /\ Num.toZ (Num.ofZ (9007199254740992 + 1 + 1))
     = Some (9007199254740992 + 1 + 1)
  /\ (c_debt <$> clients out.2 !! 1%N)
     <> Some (Num.ofZ (9007199254740992 + 1 + 1)).
Proof.
  intros out. vm_compute.
  split; [reflexivity|]. split; [reflexivity|]. split; [reflexivity|].
  split; [reflexivity|]. discriminate.
Qed.

(** C2, as amended, with two open debts: the edited one now owes 100, the
    other 250. *)
Lemma edit_of_one_of_two_debts :
  let out := editDebt nonNegativeDebtor Sample.env 10
               (Sample.patch_currentDebt 100) Sample.two_debts in
  exists D' C',
    debtors out.2 !! 10%N = Some D'
    /\ clients out.2 !! client D'
       = set_c_debt (totalDebtLoop (openDebts out.2 (client D')))
           <$> clients Sample.two_debts !! client D'
    /\ clients out.2 !! client D' = Some C'
    /\ c_debt C' = totalDebtLoop (openDebts out.2 (client D'))
    /\ c_debt C' = Num.ofZ 350.
Proof.
  intros out.
  destruct (edit_reconciles_client_debt nonNegativeDebtor Sample.env 10
              (Sample.patch_currentDebt 100) Sample.two_debts
              out.1 out.2 Sample.D1)
    as (D' & HD' & Hset & Hsum).
  - reflexivity.
  - reflexivity.
  - apply surjective_pairing.
  - vm_compute. reflexivity.
  - assert (D' = applyPatch (Sample.patch_currentDebt 100) Sample.D1)
      as -> by (vm_compute in HD'; injection HD' as <-; reflexivity).
    exists (applyPatch (Sample.patch_currentDebt 100) Sample.D1),
      (mkClient "C" 350).
    split; [exact HD'|]. split; [exact Hset|].
    assert (Hlook :
      clients out.2
        !! client (applyPatch (Sample.patch_currentDebt 100) Sample.D1)
      = Some (mkClient "C" 350)) by (vm_compute; reflexivity).
    split; [exact Hlook|].
    destruct (Hsum _ Hlook) as [Hloop Hwhole].
    split; [exact Hloop|].
    rewrite Hwhole; [vm_compute; reflexivity | vm_compute; reflexivity |].
    vm_compute. discriminate.
Defined.

(** C3 with two open debts: deleting the first zeroes the client's debt
    although the second still owes 250. *)
Lemma delete_of_one_of_two_debts :
  let out := deleteDebt acceptAll nonNegativeDebtor Sample.env 10
               Sample.two_debts in
  exists D' C',
    debtors out.2 !! 10%N = Some D'
    /\ isDeleted D' = true
    /\ deletedAt D' = Some Sample.march
    /\ clients out.2 !! 1%N = Some C'
    /\ c_debt C' = Num.zero
    /\ (forall j, j <> 10%N ->
                  debtors out.2 !! j = debtors Sample.two_debts !! j)
    /\ activeDebtSum out.2 1
       = activeDebtSum Sample.two_debts 1 - whole (Num.ofZ 600).
Proof.
  intros out.
  apply (delete_resets_client_debt acceptAll nonNegativeDebtor Sample.env 10
           Sample.two_debts out.1 out.2 Sample.D1 (mkClient "C" 850)).
  - reflexivity.
  - reflexivity.
  - reflexivity.
  - apply surjective_pairing.
  - vm_compute. reflexivity.
Defined.

(** C4 with the ledger store down: a debt of 1000 is created and a payment
    of 400 is taken, both answered with success, neither recorded. *)
Lemma unrecorded_operations :
  (exists r db',
      createDebt acceptAll nonNegativeDebtor notANumber wholeToString
        Sample.envDown (Sample.create 1000) Sample.fresh_client = (r, db')
      /\ statusCode r = 201%N
      /\ debtors db'
         = <[fresh (dom (debtors Sample.fresh_client))
             := Sample.owed Sample.envDown 1000]>
             (debtors Sample.fresh_client)
      /\ clients db'
         = <[1%N := set_c_debt (Num.ofZ 1000) (mkClient "C" 0)]>
             (clients Sample.fresh_client)
      /\ transactions db' = transactions Sample.fresh_client
      /\ Num.ofZ 1000 = Num.add (orZero (Num.ofZ 0)) (orZero (Num.ofZ 1000)))
  /\ (exists r db',
      payDebt acceptAll nonNegativeDebtor notANumber Sample.envDown 10
        (Sample.pay 400) Sample.one_debt = (r, db')
      /\ statusCode r = 200%N
      /\ debtors db'
         = <[10%N := applyPayment notANumber Sample.envDown
                       (Sample.pay 400) Sample.D1]>
             (debtors Sample.one_debt)
      /\ clients db'
         = <[1%N := set_c_debt
                      (Num.sub (orZero (Num.ofZ 600)) (Num.ofZ 400))
                      (mkClient "C" 600)]>
             (clients Sample.one_debt)
      /\ transactions db' = transactions Sample.one_debt).
Proof.
  split.
  - destruct (proj1 (ledger_failure_is_swallowed acceptAll nonNegativeDebtor
                       notANumber wholeToString)
                Sample.envDown (Sample.create 1000) Sample.fresh_client
                (mkClient "C" 0) (Sample.owed Sample.envDown 1000)
                (Num.ofZ 1000) eq_refl eq_refl eq_refl eq_refl eq_refl
                eq_refl eq_refl)
      as (r & db' & Hrun & Hst & Hd & Hc & Ht & Hv).
    exists r, db'.
    exact (conj Hrun (conj Hst (conj Hd (conj Hc (conj Ht
             (proj2 (Hv (Num.ofZ 1000) eq_refl))))))).
  - apply (proj2 (ledger_failure_is_swallowed acceptAll nonNegativeDebtor
                    notANumber wholeToString)
             Sample.envDown 10%N (Sample.pay 400) Sample.one_debt
             (Num.ofZ 400) Sample.D1 (mkClient "C" 600));
      reflexivity.
Defined.

(** C5 fails for a negative [currentDebt]: the request passes validation and
    the client exists, the handler answers 201, creates the Debtor and moves
    the client's debt by -5, and the ledger stays empty. *)
Lemma negative_debt_leaves_no_entry :
  let out := createDebt acceptAll acceptAll notANumber wholeToString
               Sample.env (Sample.create (-5)) Sample.fresh_client in
  cr_errors (Sample.create (-5)) = []
  /\ clients Sample.fresh_client !! 1%N = Some (mkClient "C" 0)
  /\ statusCode out.1 = 201%N
  /\ (exists did D,
        debtors out.2 !! did = Some D /\ currentDebt D = Num.ofZ (-5))
  /\ clients out.2 !! 1%N = Some (mkClient "C" (-5))
  /\ transactions out.2 = ∅
  /\ ~ (exists tid t, transactions out.2 !! tid = Some t
                      /\ t_type t = debt_created
                      /\ t_amount t = Num.ofZ (-5)).
Proof.
  intros out.
  split; [reflexivity|]. split; [reflexivity|].
  split; [vm_compute; reflexivity|].
  split; [exists 0%N; eexists; split; vm_compute; reflexivity|].
  split; [vm_compute; reflexivity|].
  assert (Hempty : transactions out.2 = ∅) by (vm_compute; reflexivity).
  split; [exact Hempty|].
  intros (tid & t & Ht & _). rewrite Hempty, lookup_empty in Ht.
  discriminate.
Qed.

(** C5, as amended, at an unknown client and at a debt of 1000. *)
Lemma create_debt_runs :
  createDebt acceptAll nonNegativeDebtor notANumber wholeToString
    Sample.env (Sample.create 1000) (mkDB ∅ ∅ ∅)
  = (mkResponse 404 (BMessage "Mijoz topilmadi"), mkDB ∅ ∅ ∅)
  /\ exists r db' did D tid t,
       createDebt acceptAll nonNegativeDebtor notANumber wholeToString
         Sample.env (Sample.create 1000) Sample.flagged_ledger = (r, db')
       /\ statusCode r = 201%N
       /\ debtors Sample.flagged_ledger !! did = None
       /\ debtors db' = <[did := D]> (debtors Sample.flagged_ledger)
       /\ client D = 1%N
       /\ currentDebt D = Num.ofZ 1000
       /\ totalPaid D = Num.zero
       /\ initialDebt D = Num.ofZ 1000
       /\ transactions Sample.flagged_ledger !! tid = None
       /\ transactions db' = <[tid := t]> (transactions Sample.flagged_ledger)
       /\ t_type t = debt_created
       /\ t_amount t = Num.ofZ 1000
       /\ t_relatedId t = Some did
       /\ clients db'
          = <[1%N := set_c_debt (Num.ofZ (-50 + 1000)) (mkClient "C" (-50))]>
              (clients Sample.flagged_ledger).
Proof.
  split.
  - apply (proj1 (create_debt_effect acceptAll nonNegativeDebtor notANumber
                    wholeToString Sample.env
                    (Sample.create 1000) (mkDB ∅ ∅ ∅) eq_refl)).
    reflexivity.
  - destruct (proj2 (create_debt_effect acceptAll nonNegativeDebtor
                       notANumber wholeToString Sample.env
                       (Sample.create 1000) Sample.flagged_ledger eq_refl)
                (mkClient "C" (-50)) (Num.ofZ 1000)
                (Sample.owed Sample.env 1000))
      as (r & db' & did & D & tid & t & H);
      try reflexivity.
    destruct H as (H1 & H2 & H3 & H4 & H5 & H6 & H7 & H8 & _ & H9 & H10
                   & H11 & H12 & H13 & H14 & Hexact).
    exists r, db', did, D, tid, t.
    rewrite <- (Hexact (-50) 1000) by
      (try reflexivity; unfold Num.safe; lia).
    repeat (split; [assumption|]).
    split; [apply H8; reflexivity|].
    repeat (split; [assumption|]). assumption.
Defined.

(** C6 fails at an edit: a [PATCH] body [{ totalPaid: 100 }] on a debtor
    that has paid 400 is accepted, even by a schema with [min: 0] on every
    amount, and lowers the stored [totalPaid] to 100. *)
Lemma edit_lowers_totalPaid :
  let out := editDebt nonNegativeDebtor Sample.env 10
               (Sample.patch_totalPaid 100) Sample.one_debt in
  statusCode out.1 = 200%N
  /\ exists D D',
       debtors Sample.one_debt !! 10%N = Some D
       /\ debtors out.2 !! 10%N = Some D'
       /\ totalPaid D = Num.ofZ 400
       /\ totalPaid D' = Num.ofZ 100
       /\ Num.ltb (totalPaid D') (totalPaid D) = true
       /\ Num.leb (totalPaid D) (totalPaid D') = false.
Proof.
  intros out. split; [vm_compute; reflexivity|].
  exists Sample.D1. eexists.
  split; [reflexivity|]. split; [vm_compute; reflexivity|].
  split; [reflexivity|]. split; [reflexivity|].
  split; vm_compute; reflexivity.
Qed.

(** C6, as amended, on the debtor that has paid 400: a creation, a payment
    of 400, an edit of [currentDebt] and a delete. *)
Lemma totalPaid_runs :
  debtors
    (createDebt acceptAll nonNegativeDebtor notANumber wholeToString
       Sample.env (Sample.create 50) Sample.one_debt).2 !! 10%N
  = Some Sample.D1
  /\ (exists D',
        debtors
          (payDebt acceptAll nonNegativeDebtor notANumber Sample.env 10
             (Sample.pay 400) Sample.one_debt).2 !! 10%N = Some D'
        /\ Num.ltb (totalPaid D') (Num.ofZ 400) = false
        /\ Num.leb (Num.ofZ 400) (totalPaid D') = true)
  /\ (exists D',
        debtors
          (editDebt nonNegativeDebtor Sample.env 10
             (Sample.patch_currentDebt 100) Sample.one_debt).2 !! 10%N
        = Some D'
        /\ totalPaid D' = Num.ofZ 400)
  /\ (exists D',
        debtors
          (deleteDebt acceptAll nonNegativeDebtor Sample.env 10
             Sample.one_debt).2 !! 10%N = Some D'
        /\ totalPaid D' = Num.ofZ 400).
Proof.
  destruct (totalPaid_kept_or_grown acceptAll nonNegativeDebtor notANumber
              wholeToString Sample.env Sample.one_debt 10 Sample.D1 eq_refl)
    as (Hcreate & Hpay & Hedit & Hdelete).
  split; [|split; [|split]].
  - eapply (Hcreate (Sample.create 50)). apply surjective_pairing.
  - edestruct (Hpay 10%N (Sample.pay 400)) as (D' & Hlook & Hlt & Hle);
      [vm_compute; reflexivity .. | apply surjective_pairing |].
    exists D'. split; [exact Hlook|]. split; [exact Hlt|].
    apply Hle; [reflexivity|].
    vm_compute in Hlook. injection Hlook as <-. reflexivity.
  - edestruct (Hedit 10%N (Sample.patch_currentDebt 100))
      as (D' & Hlook & Hkeep & _); [apply surjective_pairing|].
    exists D'. split; [exact Hlook|]. apply Hkeep. right. reflexivity.
  - eapply (Hdelete 10%N). apply surjective_pairing.
Defined.

(** C7 fails where the addition rounds: a cash-out of 1 for a client whose
    debt is [2^53] is recorded and leaves that debt as it was. *)
Lemma cash_out_lost_in_rounding :
  let out := cashOut acceptAll notANumber Sample.env (Sample.move 1)
               Sample.large_balance in
  statusCode out.1 = 201%N
  /\ numberOrZero notANumber (cq_amount (Sample.move 1)) = Num.ofZ 1
  /\ (c_debt <$> clients Sample.large_balance !! 1%N)
     = Some (Num.ofZ 9007199254740992)
  /\ (c_debt <$> clients out.2 !! 1%N)
     = Some (Num.ofZ 9007199254740992)
  /\ (Num.toZ <$> (c_debt <$> clients out.2 !! 1%N))
     <> Some (Some (9007199254740992 + 1)).
Proof.
  intros out. vm_compute.
  split; [reflexivity|]. split; [reflexivity|]. split; [reflexivity|].
  split; [reflexivity|]. discriminate.
Qed.

(** C7, as amended, at the amounts -5, 0 and 50. *)
Lemma cash_runs :
  cashIn acceptAll notANumber Sample.env (Sample.move (-5))
    Sample.fresh_client
  = (mkResponse 400 (BMessage "amount musbat bo'lishi kerak"),
     Sample.fresh_client)
  /\ (exists t tid db',
        cashIn acceptAll notANumber Sample.env (Sample.move 0)
          Sample.fresh_client
        = (mkResponse 201 (BTransaction t), db')
        /\ t_type t = cash_in
        /\ t_amount t = Num.zero
        /\ transactions Sample.fresh_client !! tid = None
        /\ transactions db'
           = <[tid := t]> (transactions Sample.fresh_client))
  /\ (exists C',
        clients (cashIn acceptAll notANumber Sample.env (Sample.move 50)
                   Sample.fresh_client).2 !! 1%N = Some C'
        /\ c_debt C' = Num.ofZ (0 - 50))
  /\ (exists C',
        clients (cashOut acceptAll notANumber Sample.env (Sample.move 50)
                   Sample.fresh_client).2 !! 1%N = Some C'
        /\ c_debt C' = Num.ofZ (0 + 50)).
Proof.
  destruct (cash_in_amount_rules acceptAll notANumber)
    as (Hneg & Hzero & Hmove).
  split; [|split; [|split]].
  - apply Hneg. vm_compute. reflexivity.
  - apply (Hzero Sample.env (Sample.move 0) Sample.fresh_client Num.zero
             cash (Some 1%N) None); try reflexivity.
  - destruct (proj1 (Hmove Sample.env (Sample.move 50) Sample.fresh_client
                       1%N (mkClient "C" 0)
                       ltac:(vm_compute; reflexivity) eq_refl eq_refl))
      as (C' & Hlook & _ & Hexact); [reflexivity|].
    exists C'. split; [exact Hlook|].
    apply Hexact; try reflexivity; unfold Num.safe; lia.
  - destruct (proj2 (Hmove Sample.env (Sample.move 50) Sample.fresh_client
                       1%N (mkClient "C" 0)
                       ltac:(vm_compute; reflexivity) eq_refl eq_refl))
      as (C' & Hlook & _ & Hexact); [reflexivity|].
    exists C'. split; [exact Hlook|].
    apply Hexact; try reflexivity; unfold Num.safe; lia.
Defined.

(** C8 on a ledger with one entry: the entry is gone, the client keeps the
    debt of -50 the cash-in gave it. *)
Lemma delete_transaction_run :
  exists db',
    deleteTransaction 7 Sample.flagged_ledger
    = (mkResponse 200 (BMessage "Transaction o`chirildi"), db')
    /\ transactions db' = delete 7%N (transactions Sample.flagged_ledger)
    /\ transactions db' !! 7%N = None
    /\ clients db' = clients Sample.flagged_ledger
    /\ debtors db' = debtors Sample.flagged_ledger.
Proof.
  apply (delete_transaction_is_hard_and_keeps_balances 7
           Sample.flagged_ledger Sample.flagged_entry).
  reflexivity.
Defined.

(** C9 against the open debt of 600, next to a cash-in of 0. *)
Lemma zero_payment_run :
  payDebt acceptAll nonNegativeDebtor notANumber Sample.env 10
    (mkPayReq (VNum Num.zero) None None) Sample.one_debt
  = (mkResponse 400 (BMessage "To'lov miqdori raqam bo'lishi kerak"),
     Sample.one_debt)
  /\ isNumber (VNum Num.zero) = true
  /\ N.eqb (statusCode (cashIn acceptAll notANumber Sample.env
                          (Sample.move 0) Sample.one_debt).1) 400 = false.
Proof.
  destruct (zero_payment_is_rejected acceptAll nonNegativeDebtor notANumber
              Sample.env 10 None None Sample.one_debt (Sample.move 0)
              Num.zero eq_refl)
    as (Hpay & Hnum & Hcash).
  split; [exact Hpay|]. split; [exact Hnum|].
  apply Hcash. reflexivity.
Defined.

(** C10 on a ledger whose only entry is flagged [isDeleted]. *)
Lemma flagged_ledger_statistics :
  exists cashIn cashOut listed,
    monthlyTransactions runningSum Sample.env None Sample.flagged_ledger
    = (mkResponse 200 (BMonthly cashIn cashOut), Sample.flagged_ledger)
    /\ length cashIn = 12%nat
    /\ length cashOut = 12%nat
    /\ (forall m : Month,
         cashIn !! (monthNumber m - 1)%nat
         = Some (monthTotal runningSum Sample.flagged_ledger 2024
                   cash_in m))
    /\ (forall m : Month,
         cashOut !! (monthNumber m - 1)%nat
         = Some (monthTotal runningSum Sample.flagged_ledger 2024
                   cash_out m))
    /\ listTransactions Sample.flagged_ledger
       = (mkResponse 200 (BTransactions listed), Sample.flagged_ledger)
    /\ (forall t, t ∈ listed.*1
                  <-> (exists id,
                         transactions Sample.flagged_ledger !! id = Some t)
                      /\ t_isDeleted t = false).
Proof.
  apply (monthly_statistics_count_flagged runningSum Sample.env None
           Sample.flagged_ledger).
  vm_compute. split; discriminate.
Defined.

(** The flagged cash-in of 50 shows in the March slot of the statistics and
    is absent from the list. *)
Example flagged_entry_counted_not_listed :
  monthlyTransactions runningSum Sample.env None Sample.flagged_ledger
  = (mkResponse 200
       (BMonthly
          [Num.zero; Num.zero; Num.ofZ 50; Num.zero; Num.zero; Num.zero;
           Num.zero; Num.zero; Num.zero; Num.zero; Num.zero; Num.zero]
          (replicate 12 Num.zero)),
     Sample.flagged_ledger)
  /\ listTransactions Sample.flagged_ledger
     = (mkResponse 200 (BTransactions []), Sample.flagged_ledger).
Proof. split; vm_compute; reflexivity. Qed.

(** The payment guard lets a negative amount through: the debtor's
    [totalPaid] goes from 400 to 395 and nothing is recorded. *)
Example negative_payment_is_accepted :
  let out := payDebt acceptAll acceptAll notANumber Sample.env 10
               (Sample.pay (-5)) Sample.one_debt in
  statusCode out.1 = 200%N
  /\ (totalPaid <$> debtors out.2 !! 10%N) = Some (Num.ofZ 395)
  /\ (currentDebt <$> debtors out.2 !! 10%N) = Some (Num.ofZ 605)
  /\ (c_debt <$> clients out.2 !! 1%N) = Some (Num.ofZ 605)
  /\ transactions out.2 = ∅.
Proof. vm_compute. repeat split. Qed.

(** The two scenarios of the specification, run one after the other:
    a debt of 1000, a payment of 400, then a payment of 10000. *)
Example specification_scenario :
  let s1 := (createDebt acceptAll nonNegativeDebtor notANumber
               wholeToString Sample.env
               (Sample.create 1000) Sample.fresh_client).2 in
  let s2 := (payDebt acceptAll nonNegativeDebtor notANumber Sample.env 0
               (Sample.pay 400) s1).2 in
  let s3 := (payDebt acceptAll nonNegativeDebtor notANumber Sample.env 0
               (Sample.pay 10000) s2).2 in
  (c_debt <$> clients s1 !! 1%N) = Some (Num.ofZ 1000)
  /\ (t_amount <$> transactions s1 !! 0%N) = Some (Num.ofZ 1000)
  /\ (currentDebt <$> debtors s2 !! 0%N) = Some (Num.ofZ 600)
  /\ (totalPaid <$> debtors s2 !! 0%N) = Some (Num.ofZ 400)
  /\ (c_debt <$> clients s2 !! 1%N) = Some (Num.ofZ 600)
  /\ (t_amount <$> transactions s2 !! 1%N) = Some (Num.ofZ 400)
  /\ (currentDebt <$> debtors s3 !! 0%N) = Some (Num.ofZ 0)
  /\ (c_debt <$> clients s3 !! 1%N) = Some (Num.ofZ (-9400)).
Proof. vm_compute. repeat split. Qed.

(** X28 on the sample debt: the amount sent as the string ["100"] is
    appended to the decimal form of the client's debt of 600, which becomes
    600100; the debtor and the ledger entry hold 100. *)
Lemma string_debt_run :
  exists r db',
    createDebt acceptAll nonNegativeDebtor wholeOfString wholeToString
      Sample.env (Sample.createWith "100") Sample.one_debt = (r, db')
    /\ statusCode r = 201%N
    /\ currentDebt (Sample.owed Sample.env 100) = wholeOfString "100"
    /\ debtors db'
       = <[fresh (dom (debtors Sample.one_debt))
           := Sample.owed Sample.env 100]> (debtors Sample.one_debt)
    /\ clients db'
       = <[1%N := set_c_debt
                    (wholeOfString (wholeToString (Num.ofZ 600) ++ "100"))
                    (mkClient "C" 600)]> (clients Sample.one_debt).
Proof.
  apply (string_debt_is_concatenated acceptAll nonNegativeDebtor
           wholeOfString wholeToString Sample.env (Sample.createWith "100")
           Sample.one_debt (mkClient "C" 600) (Sample.owed Sample.env 100)
           "100");
    first [reflexivity | discriminate | vm_compute; reflexivity].
Defined.

(** The numbers of that run. *)
Example string_debt_numbers :
  let out := createDebt acceptAll nonNegativeDebtor wholeOfString
               wholeToString Sample.env (Sample.createWith "100")
               Sample.one_debt in
  (c_debt <$> clients Sample.one_debt !! 1%N) = Some (Num.ofZ 600)
  /\ (c_debt <$> clients out.2 !! 1%N) = Some (Num.ofZ 600100)
  /\ (currentDebt
        <$> debtors out.2 !! fresh (dom (debtors Sample.one_debt)))
     = Some (Num.ofZ 100)
  /\ (t_amount <$> transactions out.2 !! 0%N) = Some (Num.ofZ 100).
Proof. vm_compute. repeat split. Qed.

End Runs.

(** ** [PUT /transactions/:id], step by step *)

Section EditProperties.
Import TransactionRoutes TransactionEdit.
Variable clientSchema : Client -> bool.
Variable StringToNumber : string -> num.
Variable NumberToString : num -> string.

Local Abbreviation editTransaction :=
  (editTransaction clientSchema StringToNumber).
Local Abbreviation cashIn := (cashIn clientSchema StringToNumber).
Local Abbreviation cashOut := (cashOut clientSchema StringToNumber).
Local Abbreviation amountOf :=
  (fun req => numberOrZero StringToNumber (cq_amount req)).
Local Abbreviation onClient := (withClient clientSchema).

(** An amount that passes the guard [amount < 0] meets [min: 0]. *)
Lemma amount_accepted req :
  Num.ltb (amountOf req) Num.zero = false ->
  Num.leb Num.zero (amountOf req) = true.
Proof.
  intros H. apply not_below_at_least;
    [apply orZero_not_nan | reflexivity | exact H].
Qed.

Lemma editTransaction_negative id req db :
  Num.ltb (amountOf req) Num.zero = true ->
  editTransaction id req db
  = (mkResponse 400 (BMessage "amount musbat bo'lishi kerak"), db).
Proof.
  intros H. unfold TransactionEdit.editTransaction, handle. cbv zeta.
  rewrite H. reflexivity.
Qed.

Lemma editTransaction_missing id req db :
  Num.ltb (amountOf req) Num.zero = false ->
  transactions db !! id = None
  \/ (exists t, transactions db !! id = Some t /\ t_isDeleted t = true) ->
  editTransaction id req db
  = (mkResponse 404 (BMessage "Transaction topilmadi"), db).
Proof.
  intros Hpos Hmiss. unfold TransactionEdit.editTransaction, handle.
  cbv zeta.
  rewrite Hpos.
  unfold bind at 1. unfold Transaction_findById.
  destruct Hmiss as [->|(t & -> & Hdel)]; [reflexivity|].
  rewrite Hdel. reflexivity.
Qed.

Lemma editTransaction_run id req db t :
  transactions db !! id = Some t -> t_isDeleted t = false ->
  Num.ltb (amountOf req) Num.zero = false ->
  editTransaction id req db =
    let amount := amountOf req in
    let save := editSaved id t (editedEntry t req amount) in
    if namesOtherClient (cq_client req) (t_client t)
    then onClient (storedRef (t_client t)) (reverted t)
           (onClient (cq_client req) (applied t amount) save) db
    else onClient (cq_client req) (adjusted t amount) save db.
Proof.
  intros Ht Hdel Hpos. unfold TransactionEdit.editTransaction, handle.
  cbv zeta.
  rewrite Hpos.
  unfold bind at 1. unfold Transaction_findById. rewrite Ht, Hdel.
  unfold withClient, editSaved, storedRef, bind,
    Client_findStored, Store.Client_findByRef, Store.Client_save,
    Transaction_save, ret, throw.
  destruct (namesOtherClient (cq_client req) (t_client t)).
  - destruct (t_client t) as [oc|]; cbn [from_option];
      [destruct (clients db !! oc) as [C|];
       cbn [fmap option_fmap option_map];
       [destruct (clientSchema _); [|reflexivity]|]|];
      (destruct (cq_client req) as [| |nc]; [| reflexivity |]);
      try (destruct (transactionSchema _ _); reflexivity);
      (match goal with
       | |- context [clients ?d !! nc] =>
           destruct (clients d !! nc) as [C2|]
       end;
       cbn [fmap option_fmap option_map];
       [destruct (clientSchema _); [|reflexivity]|]);
      destruct (transactionSchema _ _); reflexivity.
  - destruct (cq_client req) as [| |c]; [| reflexivity |].
    + destruct (transactionSchema _ _); reflexivity.
    + destruct (clients db !! c) as [C|];
        cbn [fmap option_fmap option_map];
        [destruct (clientSchema _); [|reflexivity]|];
        destruct (transactionSchema _ _); reflexivity.
Qed.

Lemma editSaved_ok id t doc db t' :
  transactionSchema (t_createdAt t) doc = Some t' ->
  editSaved id t doc db
  = (mkResponse 200 (BTransaction t'), set_transactions (insert id t') db).
Proof. intros H. unfold editSaved. rewrite H. reflexivity. Qed.

(** The schema's view of an edited entry whose body passes it. *)
Lemma editedEntry_schema t req amount pt cl by_ :
  Num.leb Num.zero amount = true ->
  castPaymentType (cq_paymentType req) = Some pt ->
  castId (if namesOtherClient (cq_client req) (t_client t)
          then cq_client req else storedRef (t_client t)) = Some cl ->
  castId (cq_createdBy req) = Some by_ ->
  transactionSchema (t_createdAt t) (editedEntry t req amount)
  = Some (mkTransaction (t_type t) amount pt (t_relatedModel t)
            (t_relatedId t) cl by_ false (t_createdAt t)).
Proof.
  intros Hpos Hpt Hcl Hby. unfold transactionSchema, editedEntry.
  cbn [x_amount x_paymentType x_client x_createdBy x_type x_relatedModel
       x_relatedId].
  rewrite Hpos, Hpt, Hcl, Hby. reflexivity.
Qed.

(** X1.  [PUT /transactions/:id] answers 400 to a negative amount, and 404
    when no entry is stored under the id or the stored entry is flagged
    [isDeleted]; in both cases nothing is written. *)
Theorem edit_refuses_negative_missing_and_flagged id req db :
  (Num.ltb (amountOf req) Num.zero = true ->
   editTransaction id req db
   = (mkResponse 400 (BMessage "amount musbat bo'lishi kerak"), db))
  /\ (Num.ltb (amountOf req) Num.zero = false ->
      transactions db !! id = None
      \/ (exists t, transactions db !! id = Some t /\ t_isDeleted t = true) ->
      editTransaction id req db
      = (mkResponse 404 (BMessage "Transaction topilmadi"), db)).
Proof.
  split.
  - apply editTransaction_negative.
  - apply editTransaction_missing.
Qed.

(** X2.  An accepted edit that names the entry's own client stores the new
    amount, payment type and author on the entry, keeps its type, relation,
    client and creation time, and sets the client's debt, in
    double-precision arithmetic, to [debt + (old - new)] for a cash-in and
    to [debt - (old - new)] for a cash-out, leaving it alone for the other
    types; for integers of magnitude at most [2^53 - 1] with such results
    these are the exact values. *)
Theorem edit_adjusts_same_client id req db t c C pt by_ :
  transactions db !! id = Some t ->
  t_isDeleted t = false ->
  Num.ltb (amountOf req) Num.zero = false ->
  cq_client req = GoodId c ->
  t_client t = Some c ->
  clients db !! c = Some C ->
  clientSchema (set_c_debt (adjusted t (amountOf req) (c_debt C)) C) = true ->
  castPaymentType (cq_paymentType req) = Some pt ->
  castId (cq_createdBy req) = Some by_ ->
  let t' := mkTransaction (t_type t) (amountOf req) pt (t_relatedModel t)
              (t_relatedId t) (Some c) by_ false (t_createdAt t) in
  let C' := set_c_debt (adjusted t (amountOf req) (c_debt C)) C in
  editTransaction id req db
  = (mkResponse 200 (BTransaction t'),
     mkDB (<[c := C']> (clients db)) (debtors db)
          (<[id := t']> (transactions db)))
  /\ (t_type t = cash_in ->
      c_debt C' = Num.add (c_debt C) (Num.sub (t_amount t) (amountOf req)))
  /\ (t_type t = cash_out ->
      c_debt C' = Num.sub (c_debt C) (Num.sub (t_amount t) (amountOf req)))
  /\ (t_type t <> cash_in -> t_type t <> cash_out -> c_debt C' = c_debt C)
  /\ (forall d a b : Z,
        c_debt C = Num.ofZ d -> t_amount t = Num.ofZ a ->
        amountOf req = Num.ofZ b ->
        Num.safe d -> Num.safe a -> Num.safe b -> Num.safe (a - b) ->
        (t_type t = cash_in -> Num.safe (d + (a - b)) ->
         c_debt C' = Num.ofZ (d + (a - b)))
        /\ (t_type t = cash_out -> Num.safe (d - (a - b)) ->
            c_debt C' = Num.ofZ (d - (a - b)))).
Proof.
  intros Ht Hdel Hpos Hc Hsame HC Hs Hpt Hby t' C'.
  split.
  - rewrite (editTransaction_run id req db t Ht Hdel Hpos). cbv zeta.
    assert (Hother : namesOtherClient (cq_client req) (t_client t) = false).
    { rewrite Hc, Hsame. cbn. rewrite N.eqb_refl. reflexivity. }
    rewrite Hother. unfold withClient. rewrite Hc, HC, Hs.
    rewrite (editSaved_ok id t _ _ t'); [reflexivity|].
    apply editedEntry_schema; try assumption;
      [apply amount_accepted; assumption|].
    rewrite Hother, Hsame. reflexivity.
  - unfold C', adjusted. cbn [c_debt set_c_debt].
    split; [intros ->; reflexivity|].
    split; [intros ->; reflexivity|].
    split; [intros; destruct (t_type t); congruence|].
    intros d a b Hd Ha Hb Hsd Hsa Hsb Hsab. cbv beta in Hb.
    rewrite Hd, Ha, Hb, (sub_ofZ a b Hsa Hsb Hsab).
    split; intros -> Hres; [apply add_ofZ | apply sub_ofZ]; assumption.
Qed.

(** X5.  An edit whose body names no client never changes a client's debt
    or a debtor, whatever it answers; when it is accepted the entry carries
    the new amount and its old client, so the ledger and the balance it was
    booked on move apart by the change of amount. *)
Theorem edit_without_client_keeps_balances id req db :
  cq_client req = NoId ->
  clients (editTransaction id req db).2 = clients db
  /\ debtors (editTransaction id req db).2 = debtors db
  /\ forall t pt by_,
       transactions db !! id = Some t ->
       t_isDeleted t = false ->
       Num.ltb (amountOf req) Num.zero = false ->
       castPaymentType (cq_paymentType req) = Some pt ->
       castId (cq_createdBy req) = Some by_ ->
       exists t',
         transactions (editTransaction id req db).2 !! id = Some t'
         /\ t_amount t' = amountOf req
         /\ t_client t' = t_client t.
Proof.
  intros Hc.
  assert (Hrun : forall t,
    transactions db !! id = Some t -> t_isDeleted t = false ->
    Num.ltb (amountOf req) Num.zero = false ->
    editTransaction id req db
    = editSaved id t (editedEntry t req (amountOf req)) db).
  { intros t Ht Hdel Hpos.
    rewrite (editTransaction_run id req db t Ht Hdel Hpos). cbv zeta.
    rewrite Hc. reflexivity. }
  assert (Hframe :
    clients (editTransaction id req db).2 = clients db
    /\ debtors (editTransaction id req db).2 = debtors db).
  { destruct (orb_prop _ _ (orb_negb_r (Num.ltb (amountOf req) Num.zero)))
    as [Hneg|Hpos%negb_true_iff].
    { rewrite editTransaction_negative by exact Hneg. split; reflexivity. }
    destruct (transactions db !! id) as [t|] eqn:Ht.
    2:{ rewrite editTransaction_missing by (auto). split; reflexivity. }
    destruct (t_isDeleted t) eqn:Hdel.
    { rewrite editTransaction_missing by (eauto). split; reflexivity. }
    rewrite (Hrun t eq_refl Hdel Hpos). unfold editSaved.
    destruct (transactionSchema _ _); split; reflexivity. }
  destruct Hframe as [Hcl Hdb]. split; [exact Hcl|]. split; [exact Hdb|].
  intros t pt by_ Ht Hdel Hpos Hpt Hby.
  rewrite (Hrun t Ht Hdel Hpos).
  rewrite (editSaved_ok id t _ _
             (mkTransaction (t_type t) (amountOf req) pt (t_relatedModel t)
                (t_relatedId t) (t_client t) by_ false (t_createdAt t))).
  2:{ apply editedEntry_schema; try assumption;
      [apply amount_accepted; assumption|].
      rewrite Hc. cbn. destruct (t_client t); reflexivity. }
  eexists. cbn [snd transactions set_transactions].
  rewrite lookup_insert_eq. split; [reflexivity|]. split; reflexivity.
Qed.

(** X6.  The edit is not atomic: when the body names the entry's own
    client but carries no valid payment type, the client's debt is adjusted
    and saved first, then the entry fails its schema, and the handler
    answers 500 with the adjusted debt in place and the entry as it was. *)
Theorem edit_failed_save_keeps_balance_change id req db t c C :
  transactions db !! id = Some t ->
  t_isDeleted t = false ->
  Num.ltb (amountOf req) Num.zero = false ->
  cq_client req = GoodId c ->
  t_client t = Some c ->
  clients db !! c = Some C ->
  clientSchema (set_c_debt (adjusted t (amountOf req) (c_debt C)) C) = true ->
  castPaymentType (cq_paymentType req) = None ->
  editTransaction id req db
  = (mkResponse 500 (BFailure ValidationError),
     mkDB (<[c := set_c_debt (adjusted t (amountOf req) (c_debt C)) C]>
             (clients db))
          (debtors db) (transactions db)).
Proof.
  intros Ht Hdel Hpos Hc Hsame HC Hs Hpt.
  rewrite (editTransaction_run id req db t Ht Hdel Hpos). cbv zeta.
  assert (Hother : namesOtherClient (cq_client req) (t_client t) = false).
  { rewrite Hc, Hsame. cbn. rewrite N.eqb_refl. reflexivity. }
  rewrite Hother. unfold withClient. rewrite Hc, HC, Hs.
  unfold editSaved, transactionSchema, editedEntry.
  cbn [x_amount x_paymentType].
  rewrite (amount_accepted req Hpos). cbn [negb].
  rewrite Hpt. reflexivity.
Qed.

Lemma set_c_debt_twice v w C : set_c_debt v (set_c_debt w C) = set_c_debt v C.
Proof. reflexivity. Qed.

Lemma set_c_debt_same C : set_c_debt (c_debt C) C = C.
Proof. destruct C. reflexivity. Qed.

Lemma recorded_ok env type req amount db pt cl by_ :
  Num.leb Num.zero amount = true ->
  castPaymentType (cq_paymentType req) = Some pt ->
  castId (cq_client req) = Some cl ->
  castId (cq_createdBy req) = Some by_ ->
  ledgerFault env = false ->
  recorded env (cashEntry type req amount) db
  = (mkResponse 201
       (BTransaction
          (mkTransaction type amount pt None None cl by_ false (now env))),
     set_transactions
       (insert (fresh (dom (transactions db)))
          (mkTransaction type amount pt None None cl by_ false (now env)))
       db).
Proof.
  intros Hpos Hpt Hcl Hby Hup. unfold recorded, transactionSchema, cashEntry.
  cbn [x_amount x_paymentType x_client x_createdBy x_type x_relatedModel
       x_relatedId].
  rewrite Hpos, Hpt, Hcl, Hby, Hup. reflexivity.
Qed.

Lemma cashIn_accepted env req db c C pt by_ :
  cq_client req = GoodId c ->
  clients db !! c = Some C ->
  Num.ltb (amountOf req) Num.zero = false ->
  clientSchema (set_c_debt (Num.sub (c_debt C) (amountOf req)) C) = true ->
  castPaymentType (cq_paymentType req) = Some pt ->
  castId (cq_createdBy req) = Some by_ ->
  ledgerFault env = false ->
  cashIn env req db
  = (mkResponse 201
       (BTransaction
          (mkTransaction cash_in (amountOf req) pt None None (Some c) by_
             false (now env))),
     mkDB (<[c := set_c_debt (Num.sub (c_debt C) (amountOf req)) C]> (clients db))
          (debtors db)
          (<[fresh (dom (transactions db))
             := mkTransaction cash_in (amountOf req) pt None None (Some c)
                  by_ false (now env)]> (transactions db))).
Proof.
  intros Hc HC Hpos Hs Hpt Hby Hup.
  rewrite cashIn_run by exact Hpos. rewrite Hc, HC. cbv zeta. rewrite Hs.
  rewrite (recorded_ok env cash_in req _ _ pt (Some c) by_); try assumption;
    try (apply amount_accepted; assumption).
  - reflexivity.
  - rewrite Hc. reflexivity.
Qed.

Lemma cashOut_accepted env req db c C pt by_ :
  cq_client req = GoodId c ->
  clients db !! c = Some C ->
  Num.ltb (amountOf req) Num.zero = false ->
  clientSchema (set_c_debt (Num.add (c_debt C) (amountOf req)) C) = true ->
  castPaymentType (cq_paymentType req) = Some pt ->
  castId (cq_createdBy req) = Some by_ ->
  ledgerFault env = false ->
  cashOut env req db
  = (mkResponse 201
       (BTransaction
          (mkTransaction cash_out (amountOf req) pt None None (Some c) by_
             false (now env))),
     mkDB (<[c := set_c_debt (Num.add (c_debt C) (amountOf req)) C]> (clients db))
          (debtors db)
          (<[fresh (dom (transactions db))
             := mkTransaction cash_out (amountOf req) pt None None (Some c)
                  by_ false (now env)]> (transactions db))).
Proof.
  intros Hc HC Hpos Hs Hpt Hby Hup.
  rewrite cashOut_run by exact Hpos. rewrite Hc, HC. cbv zeta. rewrite Hs.
  rewrite (recorded_ok env cash_out req _ _ pt (Some c) by_); try assumption;
    try (apply amount_accepted; assumption).
  - reflexivity.
  - rewrite Hc. reflexivity.
Qed.

(** The edit of an entry on its own, existing client, as an equation. *)
Lemma editTransaction_same_client id req db t c C pt by_ :
  transactions db !! id = Some t ->
  t_isDeleted t = false ->
  Num.ltb (amountOf req) Num.zero = false ->
  cq_client req = GoodId c ->
  t_client t = Some c ->
  clients db !! c = Some C ->
  clientSchema (set_c_debt (adjusted t (amountOf req) (c_debt C)) C) = true ->
  castPaymentType (cq_paymentType req) = Some pt ->
  castId (cq_createdBy req) = Some by_ ->
  editTransaction id req db
  = (mkResponse 200
       (BTransaction
          (mkTransaction (t_type t) (amountOf req) pt (t_relatedModel t)
             (t_relatedId t) (Some c) by_ false (t_createdAt t))),
     mkDB (<[c := set_c_debt (adjusted t (amountOf req) (c_debt C)) C]>
             (clients db))
          (debtors db)
          (<[id := mkTransaction (t_type t) (amountOf req) pt
                     (t_relatedModel t) (t_relatedId t) (Some c) by_ false
                     (t_createdAt t)]> (transactions db))).
Proof.
  intros Ht Hdel Hpos Hc Hsame HC Hs Hpt Hby.
  rewrite (editTransaction_run id req db t Ht Hdel Hpos). cbv zeta.
  assert (Hother : namesOtherClient (cq_client req) (t_client t) = false).
  { rewrite Hc, Hsame. cbn. rewrite N.eqb_refl. reflexivity. }
  rewrite Hother. unfold withClient. rewrite Hc, HC, Hs.
  erewrite editSaved_ok; [reflexivity|].
  apply editedEntry_schema; try assumption;
      [apply amount_accepted; assumption|].
  rewrite Hother, Hsame. reflexivity.
Qed.

(** The two ways to a corrected amount agree on integers. *)
Lemma corrected_cash_in (d a b : Z) :
  Num.safe d -> Num.safe a -> Num.safe b ->
  Num.safe (d - a) -> Num.safe (a - b) -> Num.safe (d - b) ->
  Num.add (Num.sub (Num.ofZ d) (Num.ofZ a)) (Num.sub (Num.ofZ a) (Num.ofZ b))
  = Num.sub (Num.ofZ d) (Num.ofZ b).
Proof.
  intros Hd Ha Hb Hda Hab Hdb.
  rewrite (sub_ofZ d a), (sub_ofZ a b), (sub_ofZ d b) by assumption.
  rewrite add_ofZ; try assumption.
  - f_equal. lia.
  - replace (d - a + (a - b)) with (d - b) by lia. exact Hdb.
Qed.

Lemma corrected_cash_out (d a b : Z) :
  Num.safe d -> Num.safe a -> Num.safe b ->
  Num.safe (d + a) -> Num.safe (a - b) -> Num.safe (d + b) ->
  Num.sub (Num.add (Num.ofZ d) (Num.ofZ a)) (Num.sub (Num.ofZ a) (Num.ofZ b))
  = Num.add (Num.ofZ d) (Num.ofZ b).
Proof.
  intros Hd Ha Hb Hda Hab Hdb.
  rewrite (add_ofZ d a), (sub_ofZ a b), (add_ofZ d b) by assumption.
  rewrite sub_ofZ; try assumption.
  - f_equal. lia.
  - replace (d + a - (a - b)) with (d + b) by lia. exact Hdb.
Qed.

(** X3.  On integer amounts of magnitude at most [2^53 - 1], with the
    debts that arise of that kind too, correcting the amount of a fresh
    cash-in or cash-out through [PUT /transactions/:id] ends in the very
    state the corrected request would have produced in the first place:
    same client debt, same ledger entry. *)
Theorem edit_after_cash_move_equals_direct env reqA reqB db c C
    ptA byA ptB byB (d a b : Z) :
  cq_client reqA = GoodId c ->
  cq_client reqB = GoodId c ->
  clients db !! c = Some C ->
  Num.ltb (amountOf reqA) Num.zero = false ->
  Num.ltb (amountOf reqB) Num.zero = false ->
  c_debt C = Num.ofZ d ->
  amountOf reqA = Num.ofZ a ->
  amountOf reqB = Num.ofZ b ->
  Num.safe d -> Num.safe a -> Num.safe b -> Num.safe (a - b) ->
  castPaymentType (cq_paymentType reqA) = Some ptA ->
  castId (cq_createdBy reqA) = Some byA ->
  castPaymentType (cq_paymentType reqB) = Some ptB ->
  castId (cq_createdBy reqB) = Some byB ->
  ledgerFault env = false ->
  (Num.safe (d - a) -> Num.safe (d - b) ->
   clientSchema (set_c_debt (Num.sub (c_debt C) (amountOf reqA)) C) = true ->
   clientSchema (set_c_debt (Num.sub (c_debt C) (amountOf reqB)) C) = true ->
   (editTransaction (fresh (dom (transactions db))) reqB
      (cashIn env reqA db).2).2
   = (cashIn env reqB db).2)
  /\ (Num.safe (d + a) -> Num.safe (d + b) ->
      clientSchema (set_c_debt (Num.add (c_debt C) (amountOf reqA)) C)
        = true ->
      clientSchema (set_c_debt (Num.add (c_debt C) (amountOf reqB)) C)
        = true ->
      (editTransaction (fresh (dom (transactions db))) reqB
         (cashOut env reqA db).2).2
      = (cashOut env reqB db).2).
Proof.
  intros HcA HcB HC HposA HposB Hd Ha Hb Hsd Hsa Hsb Hsab
    HptA HbyA HptB HbyB Hup.
  cbv beta in Ha, Hb.
  split; intros Hs1 Hs2 HsA HsB.
  - assert (Hsame :
      Num.add (Num.sub (c_debt C) (amountOf reqA))
        (Num.sub (amountOf reqA) (amountOf reqB))
      = Num.sub (c_debt C) (amountOf reqB)).
    { cbv beta. rewrite Hd, Ha, Hb. apply corrected_cash_in; assumption. }
    rewrite (cashIn_accepted env reqA db c C ptA byA) by assumption.
    rewrite (cashIn_accepted env reqB db c C ptB byB) by assumption.
    cbn [snd].
    erewrite editTransaction_same_client;
      [| apply lookup_insert_eq | reflexivity | exact HposB | exact HcB
       | reflexivity | apply lookup_insert_eq | | exact HptB | exact HbyB].
    + cbn [snd clients debtors transactions adjusted t_type t_amount
           t_relatedModel t_relatedId t_createdAt c_debt set_c_debt].
      rewrite !insert_insert_eq, set_c_debt_twice.
      cbv beta in Hsame. rewrite Hsame. reflexivity.
    + cbn [adjusted t_type t_amount c_debt set_c_debt].
      rewrite <- HsB. f_equal. unfold set_c_debt. cbn [c_fullName].
      f_equal. exact Hsame.
  - assert (Hsame :
      Num.sub (Num.add (c_debt C) (amountOf reqA))
        (Num.sub (amountOf reqA) (amountOf reqB))
      = Num.add (c_debt C) (amountOf reqB)).
    { cbv beta. rewrite Hd, Ha, Hb. apply corrected_cash_out; assumption. }
    rewrite (cashOut_accepted env reqA db c C ptA byA) by assumption.
    rewrite (cashOut_accepted env reqB db c C ptB byB) by assumption.
    cbn [snd].
    erewrite editTransaction_same_client;
      [| apply lookup_insert_eq | reflexivity | exact HposB | exact HcB
       | reflexivity | apply lookup_insert_eq | | exact HptB | exact HbyB].
    + cbn [snd clients debtors transactions adjusted t_type t_amount
           t_relatedModel t_relatedId t_createdAt c_debt set_c_debt].
      rewrite !insert_insert_eq, set_c_debt_twice.
      cbv beta in Hsame. rewrite Hsame. reflexivity.
    + cbn [adjusted t_type t_amount c_debt set_c_debt].
      rewrite <- HsB. f_equal. unfold set_c_debt. cbn [c_fullName].
      f_equal. exact Hsame.
Qed.

(** X4.  An accepted edit that moves an entry from its stored client to
    another existing client undoes the entry on the old client with the old
    amount, books it on the new client with the new amount, and stores the
    new client on the entry: for a cash-in the old client's debt becomes
    [debt + old] and the new client's [debt - new], for a cash-out
    [debt - old] and [debt + new], each computed in double-precision
    arithmetic. *)
Theorem edit_moves_entry_between_clients id req db t oc nc Co Cn pt by_ :
  transactions db !! id = Some t ->
  t_isDeleted t = false ->
  Num.ltb (amountOf req) Num.zero = false ->
  t_client t = Some oc ->
  cq_client req = GoodId nc ->
  oc <> nc ->
  clients db !! oc = Some Co ->
  clients db !! nc = Some Cn ->
  clientSchema (set_c_debt (reverted t (c_debt Co)) Co) = true ->
  clientSchema (set_c_debt (applied t (amountOf req) (c_debt Cn)) Cn)
    = true ->
  castPaymentType (cq_paymentType req) = Some pt ->
  castId (cq_createdBy req) = Some by_ ->
  let t' := mkTransaction (t_type t) (amountOf req) pt (t_relatedModel t)
              (t_relatedId t) (Some nc) by_ false (t_createdAt t) in
  let Co' := set_c_debt (reverted t (c_debt Co)) Co in
  let Cn' := set_c_debt (applied t (amountOf req) (c_debt Cn)) Cn in
  editTransaction id req db
  = (mkResponse 200 (BTransaction t'),
     mkDB (<[nc := Cn']> (<[oc := Co']> (clients db))) (debtors db)
          (<[id := t']> (transactions db)))
  /\ (t_type t = cash_in ->
      c_debt Co' = Num.add (c_debt Co) (t_amount t)
      /\ c_debt Cn' = Num.sub (c_debt Cn) (amountOf req))
  /\ (t_type t = cash_out ->
      c_debt Co' = Num.sub (c_debt Co) (t_amount t)
      /\ c_debt Cn' = Num.add (c_debt Cn) (amountOf req)).
Proof.
  intros Ht Hdel Hpos Hold Hc Hne HCo HCn Hso Hsn Hpt Hby t' Co' Cn'.
  split.
  - rewrite (editTransaction_run id req db t Ht Hdel Hpos). cbv zeta.
    assert (Hother : namesOtherClient (cq_client req) (t_client t) = true).
    { rewrite Hc, Hold. cbn. apply negb_true_iff, N.eqb_neq. congruence. }
    rewrite Hother. unfold withClient at 1. rewrite Hold.
    cbn [storedRef from_option]. rewrite HCo, Hso.
    unfold withClient. rewrite Hc. cbn [clients set_clients].
    rewrite lookup_insert_ne by exact Hne. rewrite HCn, Hsn.
    rewrite (editSaved_ok id t _ _ t'); [reflexivity|].
    apply editedEntry_schema; try assumption;
      [apply amount_accepted; assumption|].
    rewrite Hother, Hc. reflexivity.
  - unfold Co', Cn', reverted, applied. cbn [c_debt set_c_debt].
    split; intros ->; split; reflexivity.
Qed.

(** A client adjustment in front of [next] leaves alone whatever [next]
    leaves alone in the debtor and transaction collections. *)
Lemma withClient_frame (R : Response * DB -> Prop) r f next db :
  (forall db1,
      debtors db1 = debtors db -> transactions db1 = transactions db ->
      R (next db1)) ->
  (forall e, R (mkResponse 500 (BFailure e), db)) ->
  R (withClient clientSchema r f next db).
Proof.
  intros Hnext Hfail. unfold withClient.
  destruct r as [| |c]; [apply Hnext; reflexivity | apply Hfail |].
  destruct (clients db !! c) as [C|]; [|apply Hnext; reflexivity].
  destruct (clientSchema _); [apply Hnext; reflexivity | apply Hfail].
Qed.

(** X7.  Whatever [PUT /transactions/:id] is sent and whatever it answers,
    it touches no debtor, adds and removes no ledger entry, leaves every
    other entry as it is, and keeps the type, relation, creation time and
    flag of the entry it edits. *)
Theorem edit_keeps_ledger_shape id req db :
  let db' := (editTransaction id req db).2 in
  debtors db' = debtors db
  /\ dom (transactions db') = dom (transactions db)
  /\ forall j t,
       transactions db !! j = Some t ->
       exists t',
         transactions db' !! j = Some t'
         /\ t_type t' = t_type t
         /\ t_relatedModel t' = t_relatedModel t
         /\ t_relatedId t' = t_relatedId t
         /\ t_createdAt t' = t_createdAt t
         /\ t_isDeleted t' = t_isDeleted t
         /\ (j <> id -> t' = t).
Proof.
  set (R := fun out : Response * DB =>
    debtors out.2 = debtors db
    /\ dom (transactions out.2) = dom (transactions db)
    /\ forall j t,
         transactions db !! j = Some t ->
         exists t',
           transactions out.2 !! j = Some t'
           /\ t_type t' = t_type t
           /\ t_relatedModel t' = t_relatedModel t
           /\ t_relatedId t' = t_relatedId t
           /\ t_createdAt t' = t_createdAt t
           /\ t_isDeleted t' = t_isDeleted t
           /\ (j <> id -> t' = t)).
  change (R (editTransaction id req db)).
  assert (Hsame : forall resp db1,
    debtors db1 = debtors db -> transactions db1 = transactions db ->
    R (resp, db1)).
  { intros resp db1 Hd Htx. unfold R. cbn [snd]. rewrite Hd, Htx.
    split; [reflexivity|]. split; [reflexivity|].
    intros j t Hj. exists t. rewrite Hj. repeat split. }
  destruct (orb_prop _ _ (orb_negb_r (Num.ltb (amountOf req) Num.zero)))
    as [Hneg|Hpos%negb_true_iff].
  { rewrite editTransaction_negative by exact Hneg.
    apply Hsame; reflexivity. }
  destruct (transactions db !! id) as [t|] eqn:Ht.
  2:{ rewrite editTransaction_missing by auto. apply Hsame; reflexivity. }
  destruct (t_isDeleted t) eqn:Hdel.
  { rewrite editTransaction_missing by eauto. apply Hsame; reflexivity. }
  rewrite (editTransaction_run id req db t Ht Hdel Hpos). cbv zeta.
  assert (Hsave : forall db1,
    debtors db1 = debtors db -> transactions db1 = transactions db ->
    R (editSaved id t (editedEntry t req (amountOf req)) db1)).
  { intros db1 Hd Htx. unfold editSaved.
    destruct (transactionSchema _ _) as [t'|] eqn:Hschema;
      [|apply Hsame; assumption].
    unfold R. cbn [snd debtors transactions set_transactions].
    rewrite Hd, Htx. split; [reflexivity|]. split.
    { apply dom_insert_lookup_L. rewrite Ht. eauto. }
    intros j u Hj. destruct (decide (j = id)) as [->|Hne].
    - exists t'. rewrite lookup_insert_eq.
      assert (u = t) as -> by congruence.
      unfold transactionSchema, editedEntry in Hschema.
      cbn [x_amount x_paymentType x_client x_createdBy x_type
           x_relatedModel x_relatedId] in Hschema.
      destruct (negb _); [discriminate|].
      destruct (castPaymentType _); [|discriminate].
      destruct (castId _); [|discriminate].
      destruct (castId _); [|discriminate].
      injection Hschema as <-. cbn. rewrite Hdel.
      repeat split. intros Hc. contradiction.
    - exists u. rewrite lookup_insert_ne by congruence.
      rewrite Hj. repeat split. }
  destruct (namesOtherClient _ _).
  - apply withClient_frame; [|intros e; apply Hsame; reflexivity].
    intros db1 Hd1 Htx1.
    apply withClient_frame; [|intros e; apply Hsame; assumption].
    intros db2 Hd2 Htx2. apply Hsave; congruence.
  - apply withClient_frame; [|intros e; apply Hsame; reflexivity].
    intros db1 Hd1 Htx1. apply Hsave; assumption.
Qed.

(** X8.  Deleting the entry of a cash-in or cash-out puts the ledger back
    to what it was before the movement, while the client keeps the debt
    the movement gave it. *)
Theorem delete_after_cash_move_keeps_debt env req db c C pt by_ :
  cq_client req = GoodId c ->
  clients db !! c = Some C ->
  Num.ltb (amountOf req) Num.zero = false ->
  castPaymentType (cq_paymentType req) = Some pt ->
  castId (cq_createdBy req) = Some by_ ->
  ledgerFault env = false ->
  (clientSchema (set_c_debt (Num.sub (c_debt C) (amountOf req)) C) = true ->
   let db2 := (deleteTransaction (fresh (dom (transactions db)))
                 (cashIn env req db).2).2 in
   transactions db2 = transactions db
   /\ clients db2
      = <[c := set_c_debt (Num.sub (c_debt C) (amountOf req)) C]> (clients db))
  /\ (clientSchema (set_c_debt (Num.add (c_debt C) (amountOf req)) C) = true ->
      let db2 := (deleteTransaction (fresh (dom (transactions db)))
                    (cashOut env req db).2).2 in
      transactions db2 = transactions db
      /\ clients db2
         = <[c := set_c_debt (Num.add (c_debt C) (amountOf req)) C]> (clients db)).
Proof.
  intros Hc HC Hpos Hpt Hby Hup.
  assert (Hfresh : transactions db !! fresh (dom (transactions db)) = None)
    by apply not_elem_of_dom, is_fresh.
  split; intros Hs db2; unfold db2.
  - rewrite (cashIn_accepted env req db c C pt by_) by assumption.
    unfold deleteTransaction, handle, bind,
      Store.Transaction_findByIdAndDelete, ret.
    cbn [snd transactions clients set_transactions].
    rewrite lookup_insert_eq. cbn [snd transactions clients].
    split; [apply delete_insert_id; exact Hfresh | reflexivity].
  - rewrite (cashOut_accepted env req db c C pt by_) by assumption.
    unfold deleteTransaction, handle, bind,
      Store.Transaction_findByIdAndDelete, ret.
    cbn [snd transactions clients set_transactions].
    rewrite lookup_insert_eq. cbn [snd transactions clients].
    split; [apply delete_insert_id; exact Hfresh | reflexivity].
Qed.

(** X9.  On integer amounts of magnitude at most [2^53 - 1], a cash-in
    followed by a cash-out of the same amount for the same client leaves
    the client collection exactly as it was, and the ledger two entries
    longer. *)
Theorem cash_in_then_cash_out_restores_debt env reqIn reqOut db c C
    ptIn byIn ptOut byOut (d a : Z) :
  cq_client reqIn = GoodId c ->
  cq_client reqOut = GoodId c ->
  clients db !! c = Some C ->
  Num.ltb (amountOf reqIn) Num.zero = false ->
  amountOf reqOut = amountOf reqIn ->
  c_debt C = Num.ofZ d ->
  amountOf reqIn = Num.ofZ a ->
  Num.safe d -> Num.safe a -> Num.safe (d - a) ->
  clientSchema (set_c_debt (Num.sub (c_debt C) (amountOf reqIn)) C) = true ->
  clientSchema C = true ->
  castPaymentType (cq_paymentType reqIn) = Some ptIn ->
  castId (cq_createdBy reqIn) = Some byIn ->
  castPaymentType (cq_paymentType reqOut) = Some ptOut ->
  castId (cq_createdBy reqOut) = Some byOut ->
  ledgerFault env = false ->
  let db2 := (cashOut env reqOut (cashIn env reqIn db).2).2 in
  clients db2 = clients db
  /\ debtors db2 = debtors db
  /\ size (transactions db2) = S (S (size (transactions db))).
Proof.
  intros HcI HcO HC Hpos Heq Hd Ha Hsd Hsa Hsda HsI HsC HptI HbyI HptO HbyO
    Hup db2.
  unfold db2.
  rewrite (cashIn_accepted env reqIn db c C ptIn byIn) by assumption.
  cbn [snd].
  assert (Hback :
    set_c_debt
      (Num.add (c_debt (set_c_debt (Num.sub (c_debt C) (amountOf reqIn)) C))
         (amountOf reqOut))
      (set_c_debt (Num.sub (c_debt C) (amountOf reqIn)) C) = C).
  { rewrite set_c_debt_twice. cbn [c_debt set_c_debt].
    rewrite Heq. cbv beta in Ha |- *. rewrite Ha, Hd.
    rewrite (sub_ofZ d a Hsd Hsa Hsda).
    rewrite add_ofZ;
      [| assumption | assumption
       | replace (d - a + a) with d by lia; exact Hsd].
    replace (d - a + a) with d by lia. rewrite <- Hd.
    apply (set_c_debt_same C). }
  erewrite (cashOut_accepted env reqOut _ c _ ptOut byOut);
    [| exact HcO | apply lookup_insert_eq
     | cbv beta in *; rewrite Heq; exact Hpos |
     | exact HptO | exact HbyO | exact Hup].
  - cbn [snd clients debtors transactions]. rewrite Hback.
    split; [|split; [reflexivity|]].
    + rewrite insert_insert_eq. apply insert_id. exact HC.
    + rewrite !map_size_insert_None; [reflexivity | ..].
      * apply not_elem_of_dom, is_fresh.
      * apply not_elem_of_dom, is_fresh.
  - rewrite Hback. exact HsC.
Qed.

(** X10.  A cash movement whose [client] is a well-formed id of no stored
    client is recorded all the same, on that id, and changes no client; a
    [client] that does not cast to an id makes the handler answer 500
    before anything is written. *)
Theorem cash_in_with_unknown_or_malformed_client env req db :
  Num.ltb (amountOf req) Num.zero = false ->
  (forall c pt by_,
      cq_client req = GoodId c ->
      clients db !! c = None ->
      castPaymentType (cq_paymentType req) = Some pt ->
      castId (cq_createdBy req) = Some by_ ->
      ledgerFault env = false ->
      cashIn env req db
      = (mkResponse 201
           (BTransaction
              (mkTransaction cash_in (amountOf req) pt None None (Some c)
                 by_ false (now env))),
         mkDB (clients db) (debtors db)
              (<[fresh (dom (transactions db))
                 := mkTransaction cash_in (amountOf req) pt None None
                      (Some c) by_ false (now env)]> (transactions db))))
  /\ (cq_client req = BadId ->
      cashIn env req db = (mkResponse 500 (BFailure CastError), db)).
Proof.
  intros Hpos. split.
  - intros c pt by_ Hc HC Hpt Hby Hup.
    rewrite cashIn_run by exact Hpos. rewrite Hc, HC.
    rewrite (recorded_ok env cash_in req _ _ pt (Some c) by_);
      try assumption; try (apply amount_accepted; assumption);
      [reflexivity|].
    rewrite Hc. reflexivity.
  - intros Hc. rewrite cashIn_run by exact Hpos. rewrite Hc. reflexivity.
Qed.

(** X11.  Cash-in is not atomic: with an existing client and a body whose
    payment type the Transaction schema rejects, the client's debt is
    lowered and saved, the entry is refused, and the handler answers 500
    with the lowered debt in place and no entry recorded. *)
Theorem cash_in_failed_record_keeps_debt_change env req db c C :
  cq_client req = GoodId c ->
  clients db !! c = Some C ->
  Num.ltb (amountOf req) Num.zero = false ->
  clientSchema (set_c_debt (Num.sub (c_debt C) (amountOf req)) C) = true ->
  castPaymentType (cq_paymentType req) = None ->
  cashIn env req db
  = (mkResponse 500 (BFailure ValidationError),
     mkDB (<[c := set_c_debt (Num.sub (c_debt C) (amountOf req)) C]> (clients db))
          (debtors db) (transactions db)).
Proof.
  intros Hc HC Hpos Hs Hpt.
  rewrite cashIn_run by exact Hpos. rewrite Hc, HC. cbv zeta. rewrite Hs.
  unfold recorded, transactionSchema, cashEntry.
  cbn [x_amount x_paymentType].
  rewrite (amount_accepted req Hpos). cbn [negb].
  rewrite Hpt. reflexivity.
Qed.

End EditProperties.

(** ** More on the debtor routes *)

Section DebtorCompositions.
Import DebtorRoutes DebtorQueries.
Variable clientSchema : Client -> bool.
Variable debtorSchema : Debtor -> bool.
Variable StringToNumber : string -> num.
Variable NumberToString : num -> string.

Local Abbreviation createDebt :=
  (createDebt clientSchema debtorSchema StringToNumber NumberToString).
Local Abbreviation newDebtor := (newDebtor StringToNumber).
Local Abbreviation createdDebt :=
  (createdDebt StringToNumber NumberToString).
Local Abbreviation payDebt :=
  (payDebt clientSchema debtorSchema StringToNumber).
Local Abbreviation applyPayment := (applyPayment StringToNumber).
Local Abbreviation editDebt := (editDebt debtorSchema).
Local Abbreviation deleteDebt := (deleteDebt clientSchema debtorSchema).

Lemma findOne_flagged id db D :
  debtors db !! id = Some D -> isDeleted D = true ->
  Store.Debtor_findOne id db = (Done None, db).
Proof.
  intros HD Hdel. unfold Store.Debtor_findOne. rewrite HD, Hdel.
  reflexivity.
Qed.

Lemma getDebtor_missing id db :
  Store.Debtor_findOne id db = (Done None, db) ->
  getDebtor id db = (mkResponse 404 (BMessage "Qarzdor topilmadi"), db).
Proof.
  intros Hf. unfold getDebtor, handle. unfold bind at 1. rewrite Hf.
  reflexivity.
Qed.

Lemma getDebtor_found id db D :
  debtors db !! id = Some D -> isDeleted D = false ->
  getDebtor id db
  = (mkResponse 200 (BDebtor (Some (D, clients db !! client D))), db).
Proof.
  intros HD Hdel. unfold getDebtor, handle, bind, Store.Debtor_findOne, ret.
  rewrite HD, Hdel. reflexivity.
Qed.

(** X12.  Once [DELETE /debtors/:id] has answered 200, the debtor is out
    of reach of every debtor route: reading, editing and deleting it
    answer 404, paying it answers 404 (or 400 for a bad payment), and none
    of them writes anything; in particular a repeated delete does not
    touch the client's debt again. *)
Theorem deleted_debtor_is_out_of_reach env id db r db1 D :
  debtors db !! id = Some D ->
  isDeleted D = false ->
  deleteDebt env id db = (r, db1) ->
  statusCode r = 200%N ->
  getDebtor id db1
    = (mkResponse 404 (BMessage "Qarzdor topilmadi"), db1)
  /\ (forall env' req,
        editDebt env' id req db1
        = (mkResponse 404 (BMessage "Qarzdor topilmadi"), db1))
  /\ (forall env',
        deleteDebt env' id db1
        = (mkResponse 404 (BMessage "Qarzdor topilmadi"), db1))
  /\ (forall env' req,
        (payDebt env' id req db1).2 = db1
        /\ (statusCode (payDebt env' id req db1).1 = 404%N
            \/ statusCode (payDebt env' id req db1).1 = 400%N)).
Proof.
  intros HD Hdel Hrun Hok.
  assert (Hgone : Store.Debtor_findOne id db1 = (Done None, db1)).
  { rewrite (deleteDebt_run clientSchema debtorSchema env id db D HD Hdel)
      in Hrun.
    cbv zeta in Hrun.
    apply (findOne_flagged id db1 (softDeleted env D)); [|reflexivity].
    destruct (clients db !! client D);
      [destruct (clientSchema _); [|finish_run Hrun Hok]|];
      destruct (debtorSchema _); finish_run Hrun Hok;
      apply lookup_insert_eq. }
  split; [apply getDebtor_missing; exact Hgone|].
  split; [intros; apply editDebt_missing; exact Hgone|].
  split; [intros; apply deleteDebt_missing; exact Hgone|].
  intros env' req.
  destruct (payDebt_cases clientSchema debtorSchema StringToNumber
              env' id req db1) as [Hg|(p & Hp & Hnz)].
  - rewrite Hg. split; [reflexivity | right; reflexivity].
  - rewrite (payDebt_missing clientSchema debtorSchema StringToNumber
               env' id req db1 p Hp Hnz Hgone).
    split; [reflexivity | left; reflexivity].
Qed.

(** X13.  What a write answers is what a read then finds: the body of an
    accepted [POST /debtors] or [POST /debtors/:id/payment] is the body
    [GET /debtors/:id] returns on the resulting state, and the same holds
    for an accepted [PATCH] unless the patch itself flagged the debtor. *)
Theorem write_answers_match_a_later_read env id db :
  (forall req r db1,
      createDebt env req db = (r, db1) ->
      statusCode r = 201%N ->
      getDebtor (fresh (dom (debtors db))) db1
      = (mkResponse 200 (body r), db1))
  /\ (forall req r db1,
      payDebt env id req db = (r, db1) ->
      statusCode r = 200%N ->
      getDebtor id db1 = (mkResponse 200 (body r), db1))
  /\ (forall req r db1 D,
      debtors db !! id = Some D ->
      isDeleted (applyPatch req D) = false ->
      editDebt env id req db = (r, db1) ->
      statusCode r = 200%N ->
      getDebtor id db1 = (mkResponse 200 (body r), db1)).
Proof.
  split; [|split].
  - intros req r db1 Hrun Hok.
    destruct (decide (cr_errors req = [])) as [He|He].
    2:{ rewrite createDebt_invalid in Hrun by exact He.
        finish_run Hrun Hok. }
    destruct (clients db !! cb_client (cr_body req)) as [C|] eqn:HC.
    2:{ rewrite createDebt_no_client in Hrun by assumption.
        finish_run Hrun Hok. }
    rewrite (createDebt_run clientSchema debtorSchema StringToNumber NumberToString
               env req db C He HC)
      in Hrun.
    cbv zeta in Hrun.
    destruct (newDebtor env (cr_body req)) as [D0|] eqn:HD0;
      [|finish_run Hrun Hok].
    destruct (debtorSchema _); [|finish_run Hrun Hok].
    destruct (createdDebt C (cr_body req)); [|finish_run Hrun Hok].
    destruct (clientSchema _); finish_run Hrun Hok.
    pose proof (newDebtor_client StringToNumber env _ D0 HD0) as Hcl.
    assert (Hlive : isDeleted D0 = false).
    { unfold DebtorRoutes.newDebtor in HD0.
      destruct (castNumber _ (cb_currentDebt _)); [|discriminate].
      destruct (castNumber _ (default _ _)); [|discriminate].
      injection HD0 as <-. reflexivity. }
    erewrite getDebtor_found;
      [| cbn [debtors set_clients]; rewrite afterAppend_debtors;
         apply lookup_insert_eq
       | exact Hlive].
    cbn [body clients set_clients]. rewrite Hcl.
    rewrite lookup_insert_eq. reflexivity.
  - intros req r db1 Hrun Hok.
    destruct (payDebt_cases clientSchema debtorSchema StringToNumber
                env id req db) as [Hg|(p & Hp & Hnz)].
    { rewrite Hg in Hrun. finish_run Hrun Hok. }
    destruct (findOne_cases id db) as [Hnone|(D & HD & Hdel)].
    { rewrite (payDebt_missing clientSchema debtorSchema StringToNumber
                 env id req db p Hp Hnz Hnone) in Hrun.
      finish_run Hrun Hok. }
    rewrite (payDebt_run clientSchema debtorSchema StringToNumber
               env id req db p D Hp Hnz HD Hdel) in Hrun.
    cbv zeta in Hrun.
    destruct (debtorSchema _); [|finish_run Hrun Hok].
    destruct (clients db !! client D) as [C|] eqn:HC;
      [destruct (clientSchema _); [|finish_run Hrun Hok]|];
      finish_run Hrun Hok;
      (erewrite getDebtor_found;
       [| cbn [debtors set_clients]; rewrite afterAppend_debtors;
          apply lookup_insert_eq
        | exact Hdel]);
      cbn [body clients set_clients client DebtorRoutes.applyPayment].
    + rewrite lookup_insert_eq. reflexivity.
    + rewrite afterAppend_clients. cbn [clients set_debtors].
      rewrite HC. reflexivity.
  - intros req r db1 D HD Hkeep Hrun Hok.
    destruct (findOne_cases id db) as [Hnone|(D0 & HD0 & Hdel)].
    { rewrite (editDebt_missing debtorSchema env id req db Hnone) in Hrun.
      finish_run Hrun Hok. }
    assert (D0 = D) as -> by congruence.
    rewrite (editDebt_run debtorSchema env id req db D HD Hdel) in Hrun.
    cbv zeta in Hrun.
    destruct (debtorSchema _); [|finish_run Hrun Hok].
    destruct (Num.isNaN _); finish_run Hrun Hok.
    erewrite getDebtor_found;
      [reflexivity | apply lookup_insert_eq | exact Hkeep].
Qed.

(** X14.  An accepted payment rewrites [currentDebt], [totalPaid] and
    [lastPayment], and [nextPayment] when the body carries one, which then
    becomes [{ amount: Number(amount) || 0, dueDate }]; nothing else about
    the debtor changes: client, initial debt and date, description, flag,
    deletion date and status stay, so the status is not recomputed whatever
    the payment brings [currentDebt] to; no other debtor is touched. *)
Theorem payment_keeps_the_other_fields env id req db r db1 p D :
  pr_payment req = VNum p ->
  debtors db !! id = Some D ->
  isDeleted D = false ->
  payDebt env id req db = (r, db1) ->
  statusCode r = 200%N ->
  exists D',
    debtors db1 !! id = Some D'
    /\ currentDebt D' = Num.max Num.zero (Num.sub (currentDebt D) p)
    /\ totalPaid D' = Num.add (totalPaid D) p
    /\ lastPayment D' = Some (mkPayment p (now env))
    /\ nextPayment D'
       = match pr_nextPayment req with
         | Some np =>
             mkNextPayment
               (Some (numberOrZero StringToNumber (na_amount np)))
               (na_dueDate np)
         | None => nextPayment D
         end
    /\ client D' = client D
    /\ initialDebt D' = initialDebt D
    /\ initialDebtDate D' = initialDebtDate D
    /\ description D' = description D
    /\ isDeleted D' = false
    /\ deletedAt D' = deletedAt D
    /\ status D' = status D
    /\ forall j, j <> id -> debtors db1 !! j = debtors db !! j.
Proof.
  intros Hp HD Hdel Hrun Hok.
  destruct (truthy (VNum p)) eqn:Hnz.
  2:{ rewrite payDebt_guard in Hrun by (rewrite Hp, Hnz; reflexivity).
      finish_run Hrun Hok. }
  rewrite (payDebt_run clientSchema debtorSchema StringToNumber
             env id req db p D Hp Hnz HD Hdel) in Hrun.
  cbv zeta in Hrun.
  assert (Hfields :
    exists D',
      <[id := applyPayment env req D]> (debtors db) !! id = Some D'
      /\ currentDebt D' = Num.max Num.zero (Num.sub (currentDebt D) p)
      /\ totalPaid D' = Num.add (totalPaid D) p
      /\ lastPayment D' = Some (mkPayment p (now env))
      /\ nextPayment D'
         = match pr_nextPayment req with
           | Some np =>
               mkNextPayment
                 (Some (numberOrZero StringToNumber (na_amount np)))
                 (na_dueDate np)
           | None => nextPayment D
           end
      /\ client D' = client D
      /\ initialDebt D' = initialDebt D
      /\ initialDebtDate D' = initialDebtDate D
      /\ description D' = description D
      /\ isDeleted D' = false
      /\ deletedAt D' = deletedAt D
      /\ status D' = status D
      /\ forall j, j <> id ->
           <[id := applyPayment env req D]> (debtors db) !! j
           = debtors db !! j).
  { exists (applyPayment env req D). rewrite lookup_insert_eq.
    unfold DebtorRoutes.applyPayment. rewrite Hp.
    cbn [lastPayment nextPayment client initialDebt initialDebtDate
         description isDeleted deletedAt status currentDebt totalPaid
         numValue].
    repeat split; try assumption.
    intros j Hj. apply lookup_insert_ne. congruence. }
  destruct (debtorSchema _); [|finish_run Hrun Hok].
  destruct (clients db !! client D);
    [destruct (clientSchema _); [|finish_run Hrun Hok]|];
    finish_run Hrun Hok;
    cbn [debtors set_clients]; rewrite afterAppend_debtors;
    exact Hfields.
Qed.

Lemma activeDebtSum_insert_new (db : DB) (id cid : N) (D : Debtor) :
  debtors db !! id = None ->
  activeDebtSum (set_debtors (insert id D) db) cid
  = activeDebtSum db cid
    + (if bool_decide (client D = cid /\ isDeleted D = false)
       then whole (currentDebt D) else 0).
Proof.
  intros Hnew. unfold activeDebtSum. cbn [debtors set_debtors].
  rewrite map_fold_insert_L; [|intros; repeat case_bool_decide; lia|exact Hnew].
  case_bool_decide; lia.
Qed.

Lemma activeDebtSum_frame (db db' : DB) (cid : N) :
  debtors db' = debtors db -> activeDebtSum db' cid = activeDebtSum db cid.
Proof. intros H. unfold activeDebtSum. rewrite H. reflexivity. Qed.

(** The whole amount of the number of a safe integer. *)
Lemma whole_ofZ (z : Z) : Num.safe z -> whole (Num.ofZ z) = z.
Proof. intros Hz. unfold whole. rewrite toZ_ofZ by exact Hz. reflexivity. Qed.

(** X15.  On integer amounts of magnitude at most [2^53 - 1], a client
    whose [debt] equals the sum of its open debts stays so through an
    accepted debt creation, and through an accepted payment exactly when
    the payment does not exceed the debtor's remaining debt; an overpayment
    leaves the client's debt below the sum by the overpaid amount. *)
Theorem balanced_client_stays_balanced env db c C :
  clients db !! c = Some C ->
  Num.safe (activeDebtSum db c) ->
  c_debt C = Num.ofZ (activeDebtSum db c) ->
  (forall req r db1 (n : Z),
      cb_client (cr_body req) = c ->
      cb_currentDebt (cr_body req) = VNum (Num.ofZ n) ->
      Num.safe n -> Num.safe (activeDebtSum db c + n) ->
      createDebt env req db = (r, db1) ->
      statusCode r = 201%N ->
      exists C1, clients db1 !! c = Some C1
                 /\ c_debt C1 = Num.ofZ (activeDebtSum db1 c))
  /\ (forall id req r db1 D (n d : Z),
      pr_payment req = VNum (Num.ofZ n) ->
      debtors db !! id = Some D ->
      isDeleted D = false ->
      client D = c ->
      currentDebt D = Num.ofZ d ->
      Num.safe n -> Num.safe d -> Num.safe (d - n) ->
      Num.safe (activeDebtSum db c - n) ->
      payDebt env id req db = (r, db1) ->
      statusCode r = 200%N ->
      exists C1,
        clients db1 !! c = Some C1
        /\ (n <= d -> c_debt C1 = Num.ofZ (activeDebtSum db1 c))
        /\ (d < n ->
            c_debt C1 = Num.ofZ (activeDebtSum db1 c - (n - d)))).
Proof.
  intros HC Hsafe Hbal. split.
  - intros req r db1 n Hc Hx Hn Hsum Hrun Hok.
    destruct (decide (cr_errors req = [])) as [He|He].
    2:{ rewrite createDebt_invalid in Hrun by exact He.
        finish_run Hrun Hok. }
    rewrite <- Hc in HC.
    rewrite (createDebt_run clientSchema debtorSchema StringToNumber
               NumberToString env req db C He HC)
      in Hrun.
    cbv zeta in Hrun.
    destruct (newDebtor env (cr_body req)) as [D0|] eqn:HD0;
      [|finish_run Hrun Hok].
    destruct (newDebtor_number StringToNumber env _ _ D0 Hx HD0)
      as (Hcl & Hcur & _ & _ & Hlive & _).
    assert (Hv : createdDebt C (cr_body req)
                 = Some (Num.ofZ (activeDebtSum db c + n))).
    { unfold DebtorRoutes.createdDebt.
      rewrite Hx, orZeroValue_number. cbn [plus castNumber].
      rewrite Hbal, !orZero_ofZ, add_ofZ by assumption.
      rewrite ofZ_not_nan by exact Hsum. reflexivity. }
    rewrite Hv in Hrun.
    destruct (debtorSchema _); [|finish_run Hrun Hok].
    destruct (clientSchema _); finish_run Hrun Hok.
    eexists. cbn [clients set_clients]. rewrite Hc, lookup_insert_eq.
    split; [reflexivity|].
    cbn [c_debt set_c_debt].
    match goal with
    | |- _ = Num.ofZ (activeDebtSum ?s _) =>
        rewrite (activeDebtSum_frame
                   (set_debtors (insert (fresh (dom (debtors db))) D0) db)
                   s)
          by (cbn [debtors set_clients]; apply afterAppend_debtors)
    end.
    rewrite activeDebtSum_insert_new by apply not_elem_of_dom, is_fresh.
    rewrite bool_decide_eq_true_2
      by (split; [congruence | exact Hlive]).
    rewrite Hcur, whole_ofZ by exact Hn. reflexivity.
  - intros id req r db1 D n d Hp HD Hdel Hcl Hcur Hn Hd Hdn Hsum Hrun Hok.
    destruct (truthy (VNum (Num.ofZ n))) eqn:Hnz.
    2:{ rewrite payDebt_guard in Hrun by (rewrite Hp, Hnz; reflexivity).
        finish_run Hrun Hok. }
    rewrite (payDebt_run clientSchema debtorSchema StringToNumber
               env id req db _ D Hp Hnz HD Hdel) in Hrun.
    cbv zeta in Hrun. rewrite Hcl, HC in Hrun.
    destruct (debtorSchema _); [|finish_run Hrun Hok].
    destruct (clientSchema _); finish_run Hrun Hok.
    eexists. cbn [clients set_clients]. rewrite lookup_insert_eq.
    split; [reflexivity|].
    cbn [c_debt set_c_debt].
    assert (Hframe : forall s,
      debtors s = debtors
                    (set_debtors (insert id (applyPayment env req D)) db) ->
      activeDebtSum s c
      = activeDebtSum
          (set_debtors (insert id (applyPayment env req D)) db) c)
      by (intros s Hs; apply activeDebtSum_frame; exact Hs).
    rewrite Hframe
      by (cbn [debtors set_clients]; apply afterAppend_debtors).
    clear Hframe.
    rewrite (activeDebtSum_insert db id c D) by exact HD.
    rewrite !bool_decide_eq_true_2
      by (split; [exact Hcl | assumption || reflexivity]).
    unfold DebtorRoutes.applyPayment. rewrite Hp.
    cbn [currentDebt numValue]. rewrite Hbal, Hcur.
    rewrite (orZero_ofZ _ Hsafe), (sub_ofZ _ n Hsafe Hn Hsum),
      (sub_ofZ d n Hd Hn Hdn), (max_zero_ofZ _ Hdn).
    rewrite (whole_ofZ d Hd), whole_ofZ by (unfold Num.safe in *; lia).
    split; intros; f_equal; lia.
Qed.

Lemma applyPatch_empty D : applyPatch emptyPatch D = D.
Proof. destruct D. reflexivity. Qed.

(** X16.  A [PATCH] with an empty body is a pure reconciliation: every
    debtor stays as it is and the debt of the debtor's client, if the
    client exists, is overwritten with the running double-precision sum of
    that client's open debts, which for whole amounts that add up to at
    most [2^53 - 1] is their exact sum. *)
Theorem empty_patch_only_reconciles env id db D :
  debtors db !! id = Some D ->
  isDeleted D = false ->
  debtorSchema D = true ->
  let total := totalDebtLoop (openDebts db (client D)) in
  Num.isNaN total = false ->
  editDebt env id emptyPatch db
  = (mkResponse 200
       (BDebtor (Some (D, set_c_debt total <$> clients db !! client D))),
     mkDB (alter (set_c_debt total) (client D) (clients db))
          (debtors db) (transactions db))
  /\ (forallb (fun d => isWhole (currentDebt d)) (openDebts db (client D))
      = true ->
      activeDebtSum db (client D) <= 2 ^ 53 - 1 ->
      total = Num.ofZ (activeDebtSum db (client D))).
Proof.
  intros HD Hdel Hs total Hnan. split.
  - rewrite (editDebt_run debtorSchema env id emptyPatch db D HD Hdel).
    cbv zeta. rewrite applyPatch_empty, Hs.
    assert (Hdb : set_debtors (insert id D) db = db).
    { destruct db as [cl de tx]. unfold set_debtors. cbn in *.
      rewrite insert_id by exact HD. reflexivity. }
    rewrite Hdb. fold total. rewrite Hnan.
    unfold set_clients. cbn [clients debtors transactions].
    rewrite lookup_alter_eq. reflexivity.
  - intros Hall Hsum. apply totalDebtLoop_sum; assumption.
Qed.

(** X17.  When the client a debtor refers to is not stored, the payment
    and the delete still go through and simply skip the balance: both
    answer 200, the debtor is updated, respectively flagged, and the client
    collection is left as it was. *)
Theorem missing_client_is_skipped env id db D :
  debtors db !! id = Some D ->
  isDeleted D = false ->
  clients db !! client D = None ->
  (forall req p,
      pr_payment req = VNum p -> truthy (VNum p) = true ->
      debtorSchema (applyPayment env req D) = true ->
      exists r db1,
        payDebt env id req db = (r, db1)
        /\ statusCode r = 200%N
        /\ clients db1 = clients db
        /\ debtors db1 = <[id := applyPayment env req D]> (debtors db))
  /\ (debtorSchema (softDeleted env D) = true ->
      deleteDebt env id db
      = (mkResponse 200 (BMessage "Qarzdor o'chirildi"),
         set_debtors (insert id (softDeleted env D)) db)).
Proof.
  intros HD Hdel HC. split.
  - intros req p Hp Hnz Hs.
    rewrite (payDebt_run clientSchema debtorSchema StringToNumber
               env id req db p D Hp Hnz HD Hdel).
    cbv zeta. rewrite Hs, HC. eexists _, _.
    split; [reflexivity|]. split; [reflexivity|].
    rewrite afterAppend_clients, afterAppend_debtors. split; reflexivity.
  - intros Hs.
    rewrite (deleteDebt_run clientSchema debtorSchema env id db D HD Hdel).
    cbv zeta. rewrite HC, Hs. reflexivity.
Qed.

(** X18.  On integer amounts of magnitude at most [2^53 - 1], splitting
    a payment does not matter for the balances: two accepted payments of
    [p] and [q], both positive, leave the debtor with the [currentDebt] and
    [totalPaid], and the client with the [debt], that one accepted payment
    of [p + q] leaves. *)
Theorem two_payments_equal_one env1 env2 env id req1 req2 req db D C
    (p q d t c : Z) :
  0 < p -> 0 < q ->
  pr_payment req1 = VNum (Num.ofZ p) ->
  pr_payment req2 = VNum (Num.ofZ q) ->
  pr_payment req = VNum (Num.ofZ (p + q)) ->
  debtors db !! id = Some D ->
  isDeleted D = false ->
  clients db !! client D = Some C ->
  currentDebt D = Num.ofZ d -> totalPaid D = Num.ofZ t ->
  c_debt C = Num.ofZ c ->
  Num.safe d -> Num.safe t -> Num.safe c -> Num.safe (p + q) ->
  Num.safe (d - (p + q)) -> Num.safe (t + (p + q)) ->
  Num.safe (c - (p + q)) ->
  statusCode (payDebt env1 id req1 db).1 = 200%N ->
  statusCode (payDebt env2 id req2 (payDebt env1 id req1 db).2).1 = 200%N ->
  statusCode (payDebt env id req db).1 = 200%N ->
  let split_ := (payDebt env2 id req2 (payDebt env1 id req1 db).2).2 in
  let whole_ := (payDebt env id req db).2 in
  exists D2 D',
    debtors split_ !! id = Some D2
    /\ debtors whole_ !! id = Some D'
    /\ currentDebt D2 = currentDebt D'
    /\ totalPaid D2 = totalPaid D'
    /\ clients split_ = clients whole_.
Proof.
  intros Hp Hq H1 H2 H12 HD Hdel HC Hd Ht Hc Hsd Hst Hsc Hspq Hsdpq Hstpq
    Hscpq Hok1 Hok2 Hok split_ whole_.
  unfold split_, whole_. clear split_ whole_.
  assert (Hsp : Num.safe p) by (unfold Num.safe in *; lia).
  assert (Hsq : Num.safe q) by (unfold Num.safe in *; lia).
  assert (Hnz : forall n, 0 < n -> Num.safe n ->
                          truthy (VNum (Num.ofZ n)) = true).
  { intros n Hn Hsn. cbn [truthy].
    rewrite ofZ_nonzero, ofZ_not_nan by (assumption || lia). reflexivity. }
  revert Hok1 Hok2 Hok.
  rewrite (payDebt_run clientSchema debtorSchema StringToNumber
             env1 id req1 db _ D H1 (Hnz p Hp Hsp) HD Hdel).
  rewrite (payDebt_run clientSchema debtorSchema StringToNumber
             env id req db _ D H12 (Hnz (p + q) ltac:(lia) Hspq) HD Hdel).
  cbv zeta. rewrite HC.
  destruct (debtorSchema (applyPayment env1 req1 D)); [|discriminate].
  destruct (clientSchema (set_c_debt (Num.sub (orZero (c_debt C)) _) C));
    [|discriminate].
  destruct (debtorSchema (applyPayment env req D)); [|discriminate].
  destruct (clientSchema
              (set_c_debt (Num.sub (orZero (c_debt C)) (Num.ofZ (p + q)))
                 C));
    [|discriminate].
  intros _.
  set (db1 := set_clients _ (afterAppend env1 _ _)).
  assert (HD1 : debtors db1 !! id = Some (applyPayment env1 req1 D)).
  { unfold db1. cbn [debtors set_clients]. rewrite afterAppend_debtors.
    apply lookup_insert_eq. }
  assert (HC1 : clients db1 !! client (applyPayment env1 req1 D)
                = Some (set_c_debt (Num.sub (orZero (c_debt C)) (Num.ofZ p))
                          C)).
  { unfold db1. cbn [clients set_clients client DebtorRoutes.applyPayment].
    apply lookup_insert_eq. }
  cbn [snd].
  rewrite (payDebt_run clientSchema debtorSchema StringToNumber
             env2 id req2 db1 _ (applyPayment env1 req1 D) H2
             (Hnz q Hq Hsq) HD1 Hdel).
  cbv zeta. rewrite HC1.
  destruct (debtorSchema _); [|discriminate].
  destruct (clientSchema _); [|discriminate].
  intros _ _. cbn [snd].
  eexists _, _.
  split; [cbn [debtors set_clients]; rewrite afterAppend_debtors;
          apply lookup_insert_eq|].
  split; [cbn [debtors set_clients]; rewrite afterAppend_debtors;
          apply lookup_insert_eq|].
  unfold DebtorRoutes.applyPayment. rewrite H1, H2, H12.
  cbn [currentDebt totalPaid numValue client c_debt set_c_debt].
  rewrite Hd, Ht, Hc.
  assert (Hs1 : Num.safe (d - p)) by (unfold Num.safe in *; lia).
  assert (Hs2 : Num.safe (Z.max 0 (d - p) - q))
    by (unfold Num.safe in *; lia).
  assert (Hs3 : Num.safe (Z.max 0 (d - p))) by (unfold Num.safe in *; lia).
  assert (Hs4 : Num.safe (t + p)) by (unfold Num.safe in *; lia).
  assert (Hs5 : Num.safe (t + p + q)) by (unfold Num.safe in *; lia).
  assert (Hs6 : Num.safe (c - p)) by (unfold Num.safe in *; lia).
  assert (Hs7 : Num.safe (c - p - q)) by (unfold Num.safe in *; lia).
  rewrite (sub_ofZ d p), (max_zero_ofZ (d - p)),
    (sub_ofZ (Z.max 0 (d - p)) q), (max_zero_ofZ (Z.max 0 (d - p) - q)),
    (sub_ofZ d (p + q)), (max_zero_ofZ (d - (p + q))),
    (add_ofZ t p), (add_ofZ (t + p) q), (add_ofZ t (p + q)),
    (orZero_ofZ c), (sub_ofZ c p), (orZero_ofZ (c - p)),
    (sub_ofZ (c - p) q), (sub_ofZ c (p + q))
    by assumption.
  split; [f_equal; lia|]. split; [f_equal; lia|].
  cbn [clients set_clients]. rewrite !afterAppend_clients.
  unfold db1. cbn [clients set_clients set_debtors].
  rewrite afterAppend_clients. cbn [clients set_debtors].
  rewrite insert_insert_eq.
  f_equal. unfold set_c_debt. cbn [c_fullName]. f_equal. f_equal. lia.
Qed.

End DebtorCompositions.

(** ** The list and summary routes *)

Section ReadProperties.
Import DebtorRoutes DebtorQueries.
Variable clientSchema : Client -> bool.
Variable debtorSchema : Debtor -> bool.
Variable StringToNumber : string -> num.
Variable NumberToString : num -> string.
Variable createdAt : N -> Date.

Local Abbreviation statsSummary := (statsSummary createdAt).
Local Abbreviation listDebtors := (listDebtors createdAt).
Local Abbreviation payDebt :=
  (payDebt clientSchema debtorSchema StringToNumber).
Local Abbreviation deleteDebt := (deleteDebt clientSchema debtorSchema).

Lemma date_ltb_spec (a b : Date) :
  date_ltb a b = true
  <-> d_year a < d_year b
      \/ (d_year a = d_year b
          /\ ((monthNumber (d_month a) < monthNumber (d_month b))%nat
              \/ (monthNumber (d_month a) = monthNumber (d_month b)
                  /\ (d_offset a < d_offset b)%N))).
Proof.
  unfold date_ltb.
  rewrite orb_true_iff, andb_true_iff, orb_true_iff, andb_true_iff.
  rewrite Z.ltb_lt, Z.eqb_eq, Nat.ltb_lt, Nat.eqb_eq, N.ltb_lt.
  reflexivity.
Qed.

Lemma date_leb_spec (a b : Date) :
  date_leb a b = true <-> ~ (date_ltb b a = true).
Proof.
  unfold date_leb. destruct (date_ltb b a); cbn; split; intros H;
    try discriminate; try reflexivity; try (intros ?; discriminate).
  exfalso. apply H. reflexivity.
Qed.

#[local] Instance newerFirst_total : Total (newerFirst createdAt).
Proof.
  intros a b. unfold newerFirst. rewrite !date_leb_spec, !date_ltb_spec.
  lia.
Qed.

#[local] Instance newerFirst_trans : Transitive (newerFirst createdAt).
Proof.
  intros a b c. unfold newerFirst.
  rewrite !date_leb_spec, !date_ltb_spec. lia.
Qed.

(** The summary loop, from any start of its accumulators. *)
Lemma summaryLoop_from (found : list Debtor) (a b : num) (c : StatusCounts) :
  let out :=
    fold_left
      (fun '(totalCurrentDebt, totalPaid_, statusCounts) debtor =>
         (Num.add totalCurrentDebt (orZero (currentDebt debtor)),
          Num.add totalPaid_ (orZero (totalPaid debtor)),
          countStatus (status debtor) statusCounts))
      found (a, b, c) in
  out.1.1
  = fold_left (fun x d => Num.add x (orZero (currentDebt d))) found a
  /\ out.1.2
     = fold_left (fun x d => Num.add x (orZero (totalPaid d))) found b
  /\ countedDebtors out.2 = (countedDebtors c + length found)%nat.
Proof.
  revert a b c. induction found as [|d l IH]; intros a b c; cbn [fold_left].
  - cbn. repeat split; lia.
  - destruct (IH (Num.add a (orZero (currentDebt d)))
                (Num.add b (orZero (totalPaid d)))
                (countStatus (status d) c)) as (H1 & H2 & H3).
    cbv zeta. rewrite H1, H2, H3. cbn [length].
    repeat split.
    unfold countedDebtors, countStatus. destruct (status d); cbn; lia.
Qed.

(** X19.  [GET /debtors/stats/summary] always answers 200, for any date
    window, and changes no state; the four status counts it reports add up
    to [totalDebtors]. *)
Theorem summary_counts_add_up startDate endDate (db : DB) :
  exists stats,
    statsSummary startDate endDate db
    = (mkReadResponse 200 (RSummary stats), db)
    /\ countedDebtors (s_statusCounts stats) = s_totalDebtors stats.
Proof.
  unfold DebtorQueries.statsSummary, handleRead, bind, Debtor_findActive,
    ret.
  set (found := (List.filter _ _).*2).
  pose proof (summaryLoop_from found Num.zero Num.zero
                (mkStatusCounts 0 0 0 0))
    as (_ & _ & H3).
  unfold summaryLoop.
  destruct (fold_left _ found _) as [[a b] c].
  eexists. split; [reflexivity|]. exact H3.
Qed.

Lemma activeSum_insert (g : Debtor -> num) (db : DB) (id : N)
    (D D2 : Debtor) :
  debtors db !! id = Some D ->
  activeSum g (set_debtors (insert id D2) db)
  = activeSum g db
    - (if isDeleted D then 0 else whole (g D))
    + (if isDeleted D2 then 0 else whole (g D2)).
Proof.
  intros HD. unfold activeSum. cbn [debtors set_debtors].
  set (f := fun (_ : N) (d : Debtor) (acc : Z) =>
              if isDeleted d then acc else whole (g d) + acc).
  assert (Hcomm : forall (j1 j2 : N) (z1 z2 : Debtor) (y : Z),
             f j1 z1 (f j2 z2 y) = f j2 z2 (f j1 z1 y)).
  { intros. unfold f. destruct (isDeleted z1), (isDeleted z2); lia. }
  rewrite (map_fold_delete_L f 0 id D (debtors db));
    [|intros; apply Hcomm|exact HD].
  rewrite <- (insert_delete_eq (debtors db) id D2).
  rewrite (map_fold_insert_L f 0 id D2 (delete id (debtors db)));
    [|intros; apply Hcomm|apply lookup_delete_eq].
  unfold f. destruct (isDeleted D), (isDeleted D2); lia.
Qed.

Lemma activeSum_frame (g : Debtor -> num) (db db' : DB) :
  debtors db' = debtors db -> activeSum g db' = activeSum g db.
Proof. intros H. unfold activeSum. rewrite H. reflexivity. Qed.

(** The whole amounts of the open debtors add up to the specification's
    sum over the collection. *)
Lemma openDebtors_sum (g : Debtor -> num) (db : DB) :
  foldr (fun d a => whole (g d) + a) 0 (openDebtors db) = activeSum g db.
Proof.
  unfold openDebtors, activeSum. rewrite map_fold_foldr.
  transitivity
    (foldr (fun kd a => if isDeleted kd.2 then a else whole (g kd.2) + a)
       0 (scan (debtors db))).
  - induction (scan (debtors db)) as [|[k d] l IH]; [reflexivity|].
    cbn [List.filter foldr snd].
    destruct (isDeleted d); cbn [negb]; [exact IH|].
    cbn [fmap list_fmap foldr snd]. rewrite <- IH. reflexivity.
  - assert (Hfold : forall l : list (N * Debtor),
      foldr (fun kd a => if isDeleted kd.2 then a else whole (g kd.2) + a)
        0 l
      = foldr (fun '(_, d) acc =>
                 if isDeleted d then acc else whole (g d) + acc) 0 l).
    { intros l. induction l as [|[k d] l IH]; [reflexivity|].
      cbn. rewrite IH. reflexivity. }
    rewrite Hfold.
    apply (foldr_permutation (=) _ 0); [|apply scan_perm].
    intros j1 [k1 d1] j2 [k2 d2] a _ _ _. cbn.
    destruct (isDeleted d1), (isDeleted d2); lia.
Qed.

(** The running total of whole amounts is their sum, as long as that is a
    safe integer. *)
Lemma runningTotal_whole (g : Debtor -> num) (l : list Debtor) :
  forallb (fun d => isWhole (g d)) l = true ->
  foldr (fun d a => whole (g d) + a) 0 l <= 2 ^ 53 - 1 ->
  runningTotal g l = Num.ofZ (foldr (fun d a => whole (g d) + a) 0 l).
Proof.
  intros Hall Hsum. unfold runningTotal.
  assert (Hmap : forall (l : list Debtor) acc,
    fold_left (fun a d => Num.add a (orZero (g d))) l acc
    = fold_left (fun a x => Num.add a (orZero x)) (g <$> l) acc).
  { intros l0. induction l0 as [|d l0 IH]; intros acc; [reflexivity|].
    cbn. apply IH. }
  assert (Hsame : forall l : list Debtor,
    foldr (fun d a => whole (g d) + a) 0 l
    = foldr (fun x a => whole x + a) 0 (g <$> l)).
  { intros l0. induction l0 as [|d l0 IH]; [reflexivity|].
    cbn. rewrite IH. reflexivity. }
  rewrite Hmap, Hsame in *. change Num.zero with (Num.ofZ 0).
  rewrite running_sum_whole; [reflexivity| |lia|lia].
  rewrite forallb_forall in Hall. apply forallb_forall.
  intros x Hx. apply in_map_iff in Hx as (d & <- & Hd).
  apply Hall. exact Hd.
Qed.

Lemma openDebtors_length (db : DB) :
  length (openDebtors db)
  = size (filter (fun kd : N * Debtor => isDeleted kd.2 = false)
            (debtors db)).
Proof.
  unfold openDebtors. rewrite length_fmap.
  transitivity
    (length (List.filter (fun kd : N * Debtor => negb (isDeleted kd.2))
               (map_to_list (debtors db)))).
  { assert (Hperm : forall l1 l2 : list (N * Debtor),
      l1 ≡ₚ l2 ->
      length (List.filter (fun kd => negb (isDeleted kd.2)) l1)
      = length (List.filter (fun kd => negb (isDeleted kd.2)) l2)).
    { induction 1 as [|x l1 l2 _ IH|x y l|l1 l2 l3 _ IH1 _ IH2]; cbn.
      - reflexivity.
      - destruct (negb _); cbn; congruence.
      - destruct (negb (isDeleted x.2)), (negb (isDeleted y.2));
          reflexivity.
      - congruence. }
    apply Hperm, scan_perm. }
  apply (map_fold_weak_ind
           (fun (_ : unit) m =>
              length (List.filter
                        (fun kd : N * Debtor => negb (isDeleted kd.2))
                        (map_to_list m))
              = size (filter (fun kd : N * Debtor => isDeleted kd.2 = false)
                        m)) (fun _ _ _ => tt) tt).
  - rewrite map_to_list_empty, map_filter_empty, map_size_empty.
    reflexivity.
  - intros k d m r Hk IH.
    assert (Hperm : forall l1 l2 : list (N * Debtor),
      l1 ≡ₚ l2 ->
      length (List.filter (fun kd => negb (isDeleted kd.2)) l1)
      = length (List.filter (fun kd => negb (isDeleted kd.2)) l2)).
    { induction 1 as [|x l1 l2 _ IH'|x y l|l1 l2 l3 _ IH1 _ IH2]; cbn.
      - reflexivity.
      - destruct (negb _); cbn; congruence.
      - destruct (negb (isDeleted x.2)), (negb (isDeleted y.2));
          reflexivity.
      - congruence. }
    rewrite (Hperm _ _ (map_to_list_insert m k d Hk)).
    cbn [List.filter snd]. destruct (isDeleted d) eqn:Hd; cbn [negb].
    + rewrite map_filter_insert_False by (cbn; congruence).
      rewrite delete_id by exact Hk. exact IH.
    + rewrite map_filter_insert_True by (cbn; exact Hd).
      rewrite map_size_insert_None;
        [|apply map_lookup_filter_None; left; exact Hk].
      cbn [length]. rewrite IH. reflexivity.
Qed.

(** The summary without a date window, as an equation. *)
Lemma summary_unfiltered (db : DB) :
  statsSummary None None db
  = (mkReadResponse 200
       (RSummary
          (mkSummary (runningTotal currentDebt (openDebtors db))
             (runningTotal totalPaid (openDebtors db))
             (summaryLoop (openDebtors db)).2
             (length (openDebtors db)))), db).
Proof.
  unfold DebtorQueries.statsSummary, handleRead, bind, Debtor_findActive,
    ret.
  assert (Hfound :
    (List.filter
       (fun kd : N * Debtor =>
          negb (isDeleted kd.2) && inWindow None None (createdAt kd.1))
       (scan (debtors db))).*2 = openDebtors db).
  { unfold openDebtors. f_equal. apply filter_ext. intros kd.
    apply andb_true_r. }
  rewrite Hfound.
  pose proof (summaryLoop_from (openDebtors db) Num.zero Num.zero
                (mkStatusCounts 0 0 0 0)) as (H1 & H2 & _).
  fold (summaryLoop (openDebtors db)) in H1, H2.
  unfold runningTotal. rewrite <- H1, <- H2.
  destruct (summaryLoop (openDebtors db)) as [[a b] c]. reflexivity.
Qed.

(** The totals of a summary over whole amounts. *)
Lemma summary_whole (db : DB) :
  wholeBooks db = true ->
  activeSum currentDebt db <= 2 ^ 53 - 1 ->
  activeSum totalPaid db <= 2 ^ 53 - 1 ->
  runningTotal currentDebt (openDebtors db)
  = Num.ofZ (activeSum currentDebt db)
  /\ runningTotal totalPaid (openDebtors db)
     = Num.ofZ (activeSum totalPaid db).
Proof.
  clear clientSchema debtorSchema StringToNumber NumberToString createdAt.
  unfold wholeBooks. intros Hall H1 H2.
  rewrite <- (openDebtors_sum currentDebt) in *.
  rewrite <- (openDebtors_sum totalPaid) in *.
  rewrite forallb_forall in Hall.
  split; apply runningTotal_whole; try assumption;
    apply forallb_forall; intros d Hd; apply Hall in Hd;
    apply andb_true_iff in Hd; tauto.
Qed.

(** X20.  Without a date window the summary reports the running
    double-precision sums, in query order, of [currentDebt || 0] and of
    [totalPaid || 0] over the stored debtors that are not flagged
    [isDeleted], and their number; flagged debtors count for nothing.  Over
    whole amounts that add up to at most [2^53 - 1] the sums are exact. *)
Theorem summary_totals_range_over_open_debtors (db : DB) :
  exists stats,
    statsSummary None None db = (mkReadResponse 200 (RSummary stats), db)
    /\ s_totalCurrentDebt stats = runningTotal currentDebt (openDebtors db)
    /\ s_totalPaid stats = runningTotal totalPaid (openDebtors db)
    /\ s_totalDebtors stats
       = size (filter (fun kd => isDeleted kd.2 = false) (debtors db))
    /\ (wholeBooks db = true ->
        activeSum currentDebt db <= 2 ^ 53 - 1 ->
        activeSum totalPaid db <= 2 ^ 53 - 1 ->
        s_totalCurrentDebt stats = Num.ofZ (activeSum currentDebt db)
        /\ s_totalPaid stats = Num.ofZ (activeSum totalPaid db)).
Proof.
  clear clientSchema debtorSchema StringToNumber NumberToString.
  eexists. split; [apply summary_unfiltered|].
  cbn [s_totalCurrentDebt s_totalPaid s_totalDebtors].
  split; [reflexivity|]. split; [reflexivity|].
  split; [apply openDebtors_length|].
  apply summary_whole.
Qed.

(** The open debtors after one stored debtor is replaced. *)
Lemma openDebtors_insert (db : DB) (id : N) (D2 : Debtor) (d : Debtor) :
  d ∈ openDebtors (set_debtors (insert id D2) db) ->
  d = D2 \/ d ∈ openDebtors db.
Proof.
  unfold openDebtors. rewrite !list_elem_of_fmap.
  intros ([k y] & -> & Hin). apply elem_of_List_filter in Hin as [Hlive Hin].
  apply scan_lookup in Hin. cbn [debtors set_debtors] in Hin.
  destruct (decide (k = id)) as [->|Hne].
  - rewrite lookup_insert_eq in Hin. left. cbn [snd]. congruence.
  - rewrite lookup_insert_ne in Hin by congruence. right.
    exists (k, y). split; [reflexivity|].
    apply elem_of_List_filter. split; [exact Hlive|].
    apply scan_lookup. exact Hin.
Qed.

Lemma wholeBooks_insert (db : DB) (id : N) (D2 : Debtor) :
  wholeBooks db = true ->
  isWhole (currentDebt D2) && isWhole (totalPaid D2) = true ->
  wholeBooks (set_debtors (insert id D2) db) = true.
Proof.
  unfold wholeBooks. rewrite !forallb_forall. intros Hall H2 d Hd.
  apply list_elem_of_In, openDebtors_insert in Hd as [->|Hd];
    [exact H2|].
  apply Hall, list_elem_of_In. exact Hd.
Qed.

Lemma wholeBooks_frame (db db' : DB) :
  debtors db' = debtors db -> wholeBooks db' = wholeBooks db.
Proof. intros H. unfold wholeBooks, openDebtors. rewrite H. reflexivity. Qed.

Lemma openDebtors_frame (db db' : DB) :
  debtors db' = debtors db -> openDebtors db' = openDebtors db.
Proof. intros H. unfold openDebtors. rewrite H. reflexivity. Qed.

(** An open debtor of whole books is whole. *)
Lemma wholeBooks_lookup (db : DB) (id : N) (D : Debtor) :
  wholeBooks db = true ->
  debtors db !! id = Some D -> isDeleted D = false ->
  isWhole (currentDebt D) = true /\ isWhole (totalPaid D) = true.
Proof.
  unfold wholeBooks. rewrite forallb_forall. intros Hall HD Hdel.
  apply andb_true_iff, Hall, list_elem_of_In.
  unfold openDebtors. apply list_elem_of_fmap. exists (id, D).
  split; [reflexivity|]. apply elem_of_List_filter.
  split; [cbn; rewrite Hdel; reflexivity | apply scan_lookup; exact HD].
Qed.

(** An element of a list of non-negative numbers is at most their sum. *)
Lemma sum_bounds (f : Debtor -> Z) (l : list Debtor) (x : Debtor) :
  (forall y, y ∈ l -> 0 <= f y) -> x ∈ l ->
  0 <= f x <= foldr (fun d a => f d + a) 0 l.
Proof.
  intros Hpos Hx.
  assert (Hsum : forall l', (forall y, y ∈ l' -> 0 <= f y) ->
                            0 <= foldr (fun d a => f d + a) 0 l').
  { induction l' as [|y l' IH]; intros Hl; cbn; [lia|].
    pose proof (Hl y ltac:(left)).
    pose proof (IH (fun z Hz => Hl z ltac:(right; exact Hz))). lia. }
  induction l as [|y l IH]; [inversion Hx|].
  cbn [foldr]. pose proof (Hpos y ltac:(left)) as Hy.
  pose proof (Hsum l (fun z Hz => Hpos z ltac:(right; exact Hz))) as Hl.
  apply elem_of_cons in Hx as [->|Hx]; [lia|].
  pose proof (IH (fun z Hz => Hpos z ltac:(right; exact Hz)) Hx). lia.
Qed.

(** Over whole books an open debtor's amount is at most the sum. *)
Lemma activeSum_bounds (g : Debtor -> num) (db : DB) (id : N) (D : Debtor) :
  forallb (fun d => isWhole (g d)) (openDebtors db) = true ->
  debtors db !! id = Some D -> isDeleted D = false ->
  0 <= whole (g D) <= activeSum g db.
Proof.
  intros Hall HD Hdel. rewrite <- openDebtors_sum.
  rewrite forallb_forall in Hall.
  apply (sum_bounds (fun d => whole (g d))).
  - intros y Hy. apply list_elem_of_In, Hall, isWhole_spec in Hy. lia.
  - unfold openDebtors. apply list_elem_of_fmap. exists (id, D).
    split; [reflexivity|]. apply elem_of_List_filter.
    split; [cbn; rewrite Hdel; reflexivity | apply scan_lookup; exact HD].
Qed.

Lemma wholeBooks_fields (db : DB) :
  wholeBooks db = true ->
  forallb (fun d => isWhole (currentDebt d)) (openDebtors db) = true
  /\ forallb (fun d => isWhole (totalPaid d)) (openDebtors db) = true.
Proof.
  unfold wholeBooks. rewrite !forallb_forall. intros Hall.
  split; intros d Hd; apply Hall, andb_true_iff in Hd; tauto.
Qed.

(** The number of open debtors, as a sum. *)
Lemma openDebtors_count (db : DB) :
  Z.of_nat (length (openDebtors db)) = activeSum (fun _ => Num.ofZ 1) db.
Proof.
  rewrite <- openDebtors_sum.
  induction (openDebtors db) as [|d l IH]; [reflexivity|].
  cbn [length foldr]. rewrite <- IH.
  change (whole (Num.ofZ 1)) with 1. lia.
Qed.

(** X21.  Over whole amounts that add up to at most [2^53 - 1], an
    accepted payment of a positive whole amount [p] shows in the next
    unwindowed summary: [totalPaid] is up by [p], [totalCurrentDebt] is
    down by what the debtor's [currentDebt] lost (at most its remaining
    debt), and [totalDebtors] is the same. *)
Theorem summary_follows_a_payment env id req db r db1 D (p : Z) :
  pr_payment req = VNum (Num.ofZ p) ->
  0 < p ->
  debtors db !! id = Some D ->
  isDeleted D = false ->
  wholeBooks db = true ->
  activeSum currentDebt db <= 2 ^ 53 - 1 ->
  activeSum totalPaid db + p <= 2 ^ 53 - 1 ->
  payDebt env id req db = (r, db1) ->
  statusCode r = 200%N ->
  exists before after,
    statsSummary None None db
    = (mkReadResponse 200 (RSummary before), db)
    /\ statsSummary None None db1
       = (mkReadResponse 200 (RSummary after), db1)
    /\ s_totalPaid before = Num.ofZ (activeSum totalPaid db)
    /\ s_totalPaid after = Num.ofZ (activeSum totalPaid db + p)
    /\ s_totalCurrentDebt before = Num.ofZ (activeSum currentDebt db)
    /\ s_totalCurrentDebt after
       = Num.ofZ (activeSum currentDebt db
                  - (whole (currentDebt D)
                     - Z.max 0 (whole (currentDebt D) - p)))
    /\ s_totalDebtors after = s_totalDebtors before.
Proof.
  intros Hp Hpos HD Hdel Hwhole Hsum1 Hsum2 Hrun Hok.
  destruct (wholeBooks_fields db Hwhole) as [Hall1 Hall2].
  pose proof (activeSum_bounds currentDebt db id D Hall1 HD Hdel) as Hbd.
  pose proof (activeSum_bounds totalPaid db id D Hall2 HD Hdel) as Hbt.
  destruct (wholeBooks_lookup db id D Hwhole HD Hdel) as [Hwd Hwt].
  apply isWhole_spec in Hwd as [_ Hcur], Hwt as [_ Hpaid].
  set (d := whole (currentDebt D)) in *.
  set (t := whole (totalPaid D)) in *.
  assert (Hsp : Num.safe p) by (unfold Num.safe; lia).
  assert (Hnz : truthy (VNum (Num.ofZ p)) = true).
  { cbn [truthy]. rewrite ofZ_nonzero, ofZ_not_nan by (assumption || lia).
    reflexivity. }
  rewrite (payDebt_run clientSchema debtorSchema StringToNumber
             env id req db _ D Hp Hnz HD Hdel) in Hrun.
  cbv zeta in Hrun.
  set (D' := applyPayment StringToNumber env req D) in *.
  assert (Hdebtors : debtors db1 = debtors (set_debtors (insert id D') db)).
  { destruct (debtorSchema _); [|finish_run Hrun Hok].
    destruct (clients db !! client D);
      [destruct (clientSchema _); [|finish_run Hrun Hok]|];
      finish_run Hrun Hok;
      cbn [debtors set_clients]; apply afterAppend_debtors. }
  assert (Hcur' : currentDebt D' = Num.ofZ (Z.max 0 (d - p))).
  { unfold D', applyPayment. rewrite Hp. cbn [currentDebt numValue].
    rewrite Hcur, sub_ofZ, max_zero_ofZ by (unfold Num.safe; lia).
    reflexivity. }
  assert (Hpaid' : totalPaid D' = Num.ofZ (t + p)).
  { unfold D', applyPayment. rewrite Hp. cbn [totalPaid numValue].
    rewrite Hpaid, add_ofZ by (unfold Num.safe; lia). reflexivity. }
  assert (Hlive' : isDeleted D' = false) by exact Hdel.
  assert (Hwhole1 : wholeBooks db1 = true).
  { rewrite (wholeBooks_frame _ _ Hdebtors).
    apply wholeBooks_insert; [exact Hwhole|].
    rewrite Hcur', Hpaid', !isWhole_ofZ by lia. reflexivity. }
  pose proof (activeSum_frame currentDebt _ _ Hdebtors) as F1.
  pose proof (activeSum_frame totalPaid _ _ Hdebtors) as F2.
  pose proof (activeSum_frame (fun _ => Num.ofZ 1) _ _ Hdebtors) as F3.
  rewrite (activeSum_insert _ db id D) in F1 by exact HD.
  rewrite (activeSum_insert _ db id D) in F2 by exact HD.
  rewrite (activeSum_insert _ db id D) in F3 by exact HD.
  rewrite Hdel, Hlive' in F1, F2, F3.
  rewrite Hcur', whole_ofZ in F1 by (unfold Num.safe; lia).
  rewrite Hpaid', whole_ofZ in F2 by (unfold Num.safe; lia).
  fold d in F1. fold t in F2.
  destruct (summary_whole db Hwhole) as [B1 B2]; [lia..|].
  destruct (summary_whole db1 Hwhole1) as [A1 A2]; [lia..|].
  eexists _, _.
  split; [apply summary_unfiltered|]. split; [apply summary_unfiltered|].
  cbn [s_totalCurrentDebt s_totalPaid s_totalDebtors].
  split; [exact B2|]. split; [rewrite A2; f_equal; lia|].
  split; [exact B1|]. split; [rewrite A1; f_equal; lia|].
  apply Nat2Z.inj. rewrite !openDebtors_count. lia.
Qed.

(** X22.  Over whole amounts that add up to at most [2^53 - 1], an
    accepted delete shows in the next unwindowed summary as one debtor
    less, with its [currentDebt] and [totalPaid] gone from the totals. *)
Theorem summary_follows_a_delete env id db r db1 D :
  debtors db !! id = Some D ->
  isDeleted D = false ->
  wholeBooks db = true ->
  activeSum currentDebt db <= 2 ^ 53 - 1 ->
  activeSum totalPaid db <= 2 ^ 53 - 1 ->
  deleteDebt env id db = (r, db1) ->
  statusCode r = 200%N ->
  exists before after,
    statsSummary None None db
    = (mkReadResponse 200 (RSummary before), db)
    /\ statsSummary None None db1
       = (mkReadResponse 200 (RSummary after), db1)
    /\ s_totalPaid before = Num.ofZ (activeSum totalPaid db)
    /\ s_totalPaid after
       = Num.ofZ (activeSum totalPaid db - whole (totalPaid D))
    /\ s_totalCurrentDebt before = Num.ofZ (activeSum currentDebt db)
    /\ s_totalCurrentDebt after
       = Num.ofZ (activeSum currentDebt db - whole (currentDebt D))
    /\ S (s_totalDebtors after) = s_totalDebtors before.
Proof.
  intros HD Hdel Hwhole Hsum1 Hsum2 Hrun Hok.
  destruct (wholeBooks_fields db Hwhole) as [Hall1 Hall2].
  pose proof (activeSum_bounds currentDebt db id D Hall1 HD Hdel) as Hbd.
  pose proof (activeSum_bounds totalPaid db id D Hall2 HD Hdel) as Hbt.
  destruct (wholeBooks_lookup db id D Hwhole HD Hdel) as [Hwd Hwt].
  rewrite (deleteDebt_run clientSchema debtorSchema env id db D HD Hdel)
    in Hrun.
  cbv zeta in Hrun.
  assert (Hdebtors :
    debtors db1 = debtors (set_debtors (insert id (softDeleted env D)) db)).
  { destruct (clients db !! client D);
      [destruct (clientSchema _); [|finish_run Hrun Hok]|];
      destruct (debtorSchema _); finish_run Hrun Hok; reflexivity. }
  assert (Hwhole1 : wholeBooks db1 = true).
  { rewrite (wholeBooks_frame _ _ Hdebtors).
    apply wholeBooks_insert; [exact Hwhole|].
    cbn [softDeleted currentDebt totalPaid]. rewrite Hwd, Hwt.
    reflexivity. }
  pose proof (activeSum_frame currentDebt _ _ Hdebtors) as F1.
  pose proof (activeSum_frame totalPaid _ _ Hdebtors) as F2.
  pose proof (activeSum_frame (fun _ => Num.ofZ 1) _ _ Hdebtors) as F3.
  rewrite (activeSum_insert _ db id D) in F1 by exact HD.
  rewrite (activeSum_insert _ db id D) in F2 by exact HD.
  rewrite (activeSum_insert _ db id D) in F3 by exact HD.
  cbn [isDeleted softDeleted] in F1, F2, F3.
  rewrite Hdel in F1, F2, F3.
  change (whole (Num.ofZ 1)) with 1 in F3.
  destruct (summary_whole db Hwhole) as [B1 B2]; [lia..|].
  destruct (summary_whole db1 Hwhole1) as [A1 A2]; [lia..|].
  eexists _, _.
  split; [apply summary_unfiltered|]. split; [apply summary_unfiltered|].
  cbn [s_totalCurrentDebt s_totalPaid s_totalDebtors].
  split; [exact B2|]. split; [rewrite A2; f_equal; lia|].
  split; [exact B1|]. split; [rewrite A1; f_equal; lia|].
  apply Nat2Z.inj. rewrite Nat2Z.inj_succ, !openDebtors_count. lia.
Qed.

(** X23.  [GET /debtors] answers 500 when the [client] of the query does
    not cast to an id; otherwise it answers 200 with exactly the stored
    debtors that are not flagged and pass every filter the query gives
    ([client], [status], [startDate], [endDate]), each once, each with its
    client populated, ordered from the newest [createdAt] to the oldest;
    it writes nothing. *)
Theorem list_debtors_answer q (db : DB) :
  (lq_client q = BadId ->
   listDebtors q db = (mkReadResponse 500 (RFailure CastError), db))
  /\ (lq_client q <> BadId ->
      exists listed,
        listDebtors q db = (mkReadResponse 200 (RDebtors listed), db)
        /\ (forall x,
              x ∈ listed
              <-> debtors db !! l_id x = Some (l_debtor x)
                  /\ l_client x = clients db !! client (l_debtor x)
                  /\ isDeleted (l_debtor x) = false
                  /\ (forall c, lq_client q = GoodId c ->
                                client (l_debtor x) = c)
                  /\ (forall s, lq_status q = Some s ->
                                statusName (status (l_debtor x)) = s)
                  /\ (forall s, lq_startDate q = Some s ->
                                date_leb s (createdAt (l_id x)) = true)
                  /\ (forall e, lq_endDate q = Some e ->
                                date_leb (createdAt (l_id x)) e = true))
        /\ NoDup (l_id <$> listed)
        /\ StronglySorted
             (fun a b =>
                date_leb (createdAt (l_id b)) (createdAt (l_id a)) = true)
             listed).
Proof.
  clear clientSchema debtorSchema StringToNumber NumberToString.
  split.
  - intros Hc. unfold DebtorQueries.listDebtors, handleRead, bind,
      Debtor_findList. rewrite Hc. reflexivity.
  - intros Hc.
    set (found := List.filter (listFilter createdAt q)
                    (scan (debtors db))).
    set (populate := fun kd : N * Debtor =>
                       mkListed kd.1 kd.2 (clients db !! client kd.2)).
    exists (populate <$> merge_sort (newerFirst createdAt) found).
    split.
    { unfold DebtorQueries.listDebtors, handleRead, bind, Debtor_findList,
        ret.
      destruct (lq_client q); [reflexivity | contradiction | reflexivity]. }
    assert (Hfound : forall kd,
      kd ∈ merge_sort (newerFirst createdAt) found
      <-> debtors db !! kd.1 = Some kd.2
          /\ listFilter createdAt q kd = true).
    { intros kd. rewrite merge_sort_Permutation. unfold found.
      rewrite elem_of_List_filter.
      destruct kd as [k d]. rewrite scan_lookup. tauto. }
    assert (Hfilter : forall kd,
      listFilter createdAt q kd = true
      <-> isDeleted kd.2 = false
          /\ (forall c, lq_client q = GoodId c -> client kd.2 = c)
          /\ (forall s, lq_status q = Some s ->
                        statusName (status kd.2) = s)
          /\ (forall s, lq_startDate q = Some s ->
                        date_leb s (createdAt kd.1) = true)
          /\ (forall e, lq_endDate q = Some e ->
                        date_leb (createdAt kd.1) e = true)).
    { intros kd. unfold listFilter, inWindow.
      rewrite !andb_true_iff, negb_true_iff.
      destruct (lq_client q) as [| |c]; [|contradiction|];
        destruct (lq_status q) as [s|];
        destruct (lq_startDate q) as [sd|];
        destruct (lq_endDate q) as [ed|];
        rewrite ?N.eqb_eq, ?String.eqb_eq;
        (split;
         [ intros; repeat split; intros; simplify_eq; tauto
         | intros (H1 & H2 & H3 & H4 & H5); repeat split; auto ]). }
    split; [|split].
    + intros x. rewrite list_elem_of_fmap. split.
      * intros (kd & -> & Hin). apply Hfound in Hin as [Hlook Hpass].
        apply Hfilter in Hpass. cbn [l_id l_debtor l_client populate].
        split; [exact Hlook|]. split; [reflexivity|]. exact Hpass.
      * intros (Hlook & Hcl & Hpass). exists (l_id x, l_debtor x). split.
        -- destruct x as [i d c]. cbn in *. rewrite Hcl. reflexivity.
        -- apply Hfound. split; [exact Hlook|].
           apply Hfilter. exact Hpass.
    + rewrite <- list_fmap_compose.
      change (l_id ∘ populate) with (@fst N Debtor).
      rewrite merge_sort_Permutation.
      apply (sublist_NoDup _ (scan (debtors db)).*1);
        [apply scan_NoDup|].
      apply fmap_sublist, List_filter_sublist.
    + apply (StronglySorted_fmap populate (newerFirst createdAt)).
      * intros a b Hab. exact Hab.
      * apply StronglySorted_merge_sort; apply _.
Qed.

(** X24.  The two read routes agree: without any filter, [GET /debtors]
    lists as many debtors as the unwindowed summary reports in
    [totalDebtors]. *)
Theorem list_length_is_summary_count (db : DB) :
  exists listed stats,
    listDebtors (mkListQuery NoId None None None) db
    = (mkReadResponse 200 (RDebtors listed), db)
    /\ statsSummary None None db
       = (mkReadResponse 200 (RSummary stats), db)
    /\ length listed = s_totalDebtors stats.
Proof.
  unfold DebtorQueries.statsSummary, DebtorQueries.listDebtors, handleRead,
    bind, Debtor_findActive, Debtor_findList, ret.
  cbn [lq_client].
  unfold summaryLoop. destruct (fold_left _ _ _) as [[a b] c].
  eexists _, _. split; [reflexivity|]. split; [reflexivity|].
  cbn [s_totalDebtors]. rewrite !length_fmap.
  rewrite merge_sort_Permutation. f_equal.
  apply filter_ext. intros kd. unfold listFilter. cbn.
  rewrite !andb_true_r. reflexivity.
Qed.

End ReadProperties.

(** ** The monthly statistics next to the writing routes *)

Section MonthlyProperties.
Import DebtorRoutes TransactionRoutes.
Variable clientSchema : Client -> bool.
Variable debtorSchema : Debtor -> bool.
Variable StringToNumber : string -> num.
Variable NumberToString : num -> string.
Variable sumAccumulator : list num -> num.

Local Abbreviation cashIn := (cashIn clientSchema StringToNumber).
Local Abbreviation cashOut := (cashOut clientSchema StringToNumber).
Local Abbreviation amountOf :=
  (fun req => numberOrZero StringToNumber (cq_amount req)).
Local Abbreviation createDebt :=
  (createDebt clientSchema debtorSchema StringToNumber NumberToString).
Local Abbreviation payDebt :=
  (payDebt clientSchema debtorSchema StringToNumber).
Local Abbreviation editDebt := (editDebt debtorSchema).
Local Abbreviation deleteDebt := (deleteDebt clientSchema debtorSchema).
Local Abbreviation monthlyTransactions :=
  (monthlyTransactions sumAccumulator).
Local Abbreviation monthTotal := (monthTotal sumAccumulator).
Local Abbreviation monthSeries := (monthSeries sumAccumulator).

(** A list of twelve slots is its twelve monthly lookups. *)
Lemma twelve_slots (l : list num) (f : Month -> num) :
  length l = 12%nat ->
  (forall m : Month, l !! (monthNumber m - 1)%nat = Some (f m)) ->
  l = f <$> months.
Proof.
  clear clientSchema debtorSchema StringToNumber NumberToString
    sumAccumulator.
  intros Hlen Hslots.
  pose proof (Hslots Jan) as H1. pose proof (Hslots Feb) as H2.
  pose proof (Hslots Mar) as H3. pose proof (Hslots Apr) as H4.
  pose proof (Hslots May) as H5. pose proof (Hslots Jun) as H6.
  pose proof (Hslots Jul) as H7. pose proof (Hslots Aug) as H8.
  pose proof (Hslots Sep) as H9. pose proof (Hslots Oct) as H10.
  pose proof (Hslots Nov) as H11. pose proof (Hslots Dec) as H12.
  do 12 (destruct l as [|? l]; [discriminate Hlen|]).
  destruct l; [|discriminate Hlen].
  cbn in *. congruence.
Qed.

(** The answer of the statistics route, as an equation. *)
Lemma monthly_series env query (db : DB) :
  monthlyTransactions env query db
  = (mkResponse 200
       (BMonthly (monthSeries db (requestedYear env query) cash_in)
                 (monthSeries db (requestedYear env query) cash_out)), db).
Proof.
  destruct (monthly_slots sumAccumulator env query db)
    as (ci & co & -> & Hl1 & Hl2 & H1 & H2).
  unfold monthSeries.
  rewrite (twelve_slots ci
             (fun m => monthTotal db (requestedYear env query) cash_in m)
             Hl1 H1).
  rewrite (twelve_slots co
             (fun m => monthTotal db (requestedYear env query) cash_out m)
             Hl2 H2).
  reflexivity.
Qed.

Lemma monthAmounts_frame (db db' : DB) year type m :
  transactions db' = transactions db ->
  monthAmounts db' year type m = monthAmounts db year type m.
Proof. intros H. unfold monthAmounts. rewrite H. reflexivity. Qed.

Lemma monthTotal_frame (db db' : DB) year type m :
  transactions db' = transactions db ->
  monthTotal db' year type m = monthTotal db year type m.
Proof.
  intros H. unfold monthTotal.
  rewrite (monthAmounts_frame db db') by exact H. reflexivity.
Qed.

(** A new entry of another year, month or type leaves the amounts of the
    month as they are. *)
Lemma monthAmounts_insert_other (db : DB) (k : N) (t : Transaction)
    year type m :
  transactions db !! k = None ->
  ~ (d_year (t_createdAt t) = year /\ d_month (t_createdAt t) = m
     /\ t_type t = type) ->
  monthAmounts (set_transactions (insert k t) db) year type m
  = monthAmounts db year type m.
Proof.
  intros Hnew Hother. unfold monthAmounts.
  cbn [transactions set_transactions]. f_equal.
  apply scan_insert_filter; [exact Hnew|].
  apply bool_decide_eq_false_2. exact Hother.
Qed.

Lemma afterAppend_monthAmounts env doc (db : DB) year type m :
  x_type doc <> type ->
  monthAmounts (afterAppend env doc db) year type m
  = monthAmounts db year type m.
Proof.
  intros Hty. unfold afterAppend.
  destruct (transactionSchema (now env) doc) as [t|] eqn:Hs; [|reflexivity].
  destruct (ledgerFault env); [reflexivity|].
  apply monthAmounts_insert_other; [apply not_elem_of_dom, is_fresh|].
  assert (t_type t = x_type doc) as Ht.
  { unfold transactionSchema in Hs.
    destruct (negb _); [discriminate|].
    destruct (castPaymentType _); [|discriminate].
    destruct (castId _); [|discriminate].
    destruct (castId _); [|discriminate].
    injection Hs as <-. reflexivity. }
  intros (_ & _ & Heq). congruence.
Qed.

Lemma monthAmounts_none (db : DB) year type :
  (forall id t, transactions db !! id = Some t ->
                d_year (t_createdAt t) = year -> t_type t <> type) ->
  forall m, monthAmounts db year type m = [].
Proof.
  intros Hnone m. unfold monthAmounts.
  assert (Hall : forall kt, kt ∈ scan (transactions db) ->
                            d_year (t_createdAt kt.2) = year ->
                            t_type kt.2 <> type).
  { intros [k t] Hin. apply scan_lookup in Hin. exact (Hnone k t Hin). }
  induction (scan (transactions db)) as [|[k t] l IH]; [reflexivity|].
  cbn [fmap list_fmap snd List.filter].
  rewrite bool_decide_eq_false_2.
  - apply IH. intros kt Hin. apply Hall. right. exact Hin.
  - intros (Hy & _ & Hty). exact (Hall (k, t) ltac:(left) Hy Hty).
Qed.

(** X25.  For a (four-digit) year in which no cash-in and no cash-out was
    recorded, in particular on an empty ledger, the monthly statistics
    answer 200 with two series of twelve zeros. *)
Theorem year_without_cash_entries_gives_zero_series env query (db : DB) :
  1000 <= requestedYear env query <= 9998 ->
  (forall id t,
      transactions db !! id = Some t ->
      d_year (t_createdAt t) = requestedYear env query ->
      t_type t <> cash_in /\ t_type t <> cash_out) ->
  monthlyTransactions env query db
  = (mkResponse 200
       (BMonthly (replicate 12 Num.zero) (replicate 12 Num.zero)), db).
Proof.
  intros _ Hnone. rewrite monthly_series.
  unfold monthSeries, monthTotal, months.
  cbn [fmap list_fmap].
  rewrite !(monthAmounts_none db _ cash_in)
    by (intros id t Hid Hy; apply (Hnone id t Hid Hy)).
  rewrite !(monthAmounts_none db _ cash_out)
    by (intros id t Hid Hy; apply (Hnone id t Hid Hy)).
  reflexivity.
Qed.

Lemma createDebt_monthAmounts env req (db : DB) year type m :
  type <> debt_created ->
  monthAmounts (createDebt env req db).2 year type m
  = monthAmounts db year type m.
Proof.
  intros Hty.
  destruct (decide (cr_errors req = [])) as [He|He];
    [|rewrite createDebt_invalid by exact He; reflexivity].
  destruct (clients db !! cb_client (cr_body req)) as [C|] eqn:HC;
    [|rewrite createDebt_no_client by assumption; reflexivity].
  rewrite (createDebt_run clientSchema debtorSchema StringToNumber
             NumberToString env req db C He HC).
  cbv zeta.
  destruct (DebtorRoutes.newDebtor _ _ _) as [D0|]; [|reflexivity].
  destruct (debtorSchema _); [|reflexivity].
  destruct (DebtorRoutes.createdDebt _ _ _ _);
    [destruct (clientSchema _)|]; cbn [snd];
    try rewrite (monthAmounts_frame (afterAppend env _ _)) by reflexivity;
    rewrite afterAppend_monthAmounts by (cbn; congruence);
    apply monthAmounts_frame; reflexivity.
Qed.

Lemma payDebt_monthAmounts env id req (db : DB) year type m :
  type <> debt_payment ->
  monthAmounts (payDebt env id req db).2 year type m
  = monthAmounts db year type m.
Proof.
  intros Hty.
  destruct (payDebt_cases clientSchema debtorSchema StringToNumber
              env id req db) as [Hg|(p & Hp & Hnz)];
    [rewrite Hg; reflexivity|].
  destruct (findOne_cases id db) as [Hnone|(D & HD & Hdel)].
  { rewrite (payDebt_missing clientSchema debtorSchema StringToNumber
               env id req db p Hp Hnz Hnone). reflexivity. }
  rewrite (payDebt_run clientSchema debtorSchema StringToNumber
             env id req db p D Hp Hnz HD Hdel).
  cbv zeta.
  destruct (debtorSchema _); [|reflexivity].
  destruct (clients db !! client D); [destruct (clientSchema _)|];
    cbn [snd];
    try rewrite (monthAmounts_frame (afterAppend env _ _)) by reflexivity;
    rewrite afterAppend_monthAmounts by (cbn; congruence);
    apply monthAmounts_frame; reflexivity.
Qed.

Lemma editDebt_transactions env id req (db : DB) :
  transactions (editDebt env id req db).2 = transactions db.
Proof.
  destruct (findOne_cases id db) as [Hnone|(D & HD & Hdel)].
  { rewrite (editDebt_missing debtorSchema env id req db Hnone).
    reflexivity. }
  rewrite (editDebt_run debtorSchema env id req db D HD Hdel). cbv zeta.
  destruct (debtorSchema _); [|reflexivity].
  destruct (Num.isNaN _); reflexivity.
Qed.

Lemma deleteDebt_transactions env id (db : DB) :
  transactions (deleteDebt env id db).2 = transactions db.
Proof.
  destruct (findOne_cases id db) as [Hnone|(D & HD & Hdel)].
  { rewrite (deleteDebt_missing clientSchema debtorSchema env id db Hnone).
    reflexivity. }
  rewrite (deleteDebt_run clientSchema debtorSchema env id db D HD Hdel).
  cbv zeta.
  destruct (clients db !! client D); [destruct (clientSchema _)|];
    try destruct (debtorSchema _); reflexivity.
Qed.

Lemma monthSeries_ext (db db' : DB) year type :
  (forall m, monthAmounts db' year type m = monthAmounts db year type m) ->
  monthSeries db' year type = monthSeries db year type.
Proof.
  intros H. unfold monthSeries, monthTotal, months.
  cbn [fmap list_fmap].
  rewrite !H. reflexivity.
Qed.

(** X26.  No debtor route moves the monthly cash statistics: whatever
    [POST /debtors], a payment, a [PATCH] or a [DELETE] is sent and
    whatever it answers, the statistics of any (four-digit) year read the
    same before and after; the [debt-created] and [debt-payment] entries
    these routes append are not counted. *)
Theorem debtor_routes_keep_the_monthly_statistics env env' query (db : DB) :
  1000 <= requestedYear env' query <= 9998 ->
  (forall req,
      (monthlyTransactions env' query (createDebt env req db).2).1
      = (monthlyTransactions env' query db).1)
  /\ (forall id req,
      (monthlyTransactions env' query (payDebt env id req db).2).1
      = (monthlyTransactions env' query db).1)
  /\ (forall id req,
      (monthlyTransactions env' query (editDebt env id req db).2).1
      = (monthlyTransactions env' query db).1)
  /\ (forall id,
      (monthlyTransactions env' query (deleteDebt env id db).2).1
      = (monthlyTransactions env' query db).1).
Proof.
  intros _.
  assert (Hsame : forall db',
    (forall type m, type = cash_in \/ type = cash_out ->
       monthAmounts db' (requestedYear env' query) type m
       = monthAmounts db (requestedYear env' query) type m) ->
    (monthlyTransactions env' query db').1
    = (monthlyTransactions env' query db).1).
  { intros db' H. rewrite !monthly_series. cbn [fst].
    rewrite (monthSeries_ext db db' _ cash_in) by (intros; apply H; auto).
    rewrite (monthSeries_ext db db' _ cash_out) by (intros; apply H; auto).
    reflexivity. }
  split; [|split; [|split]].
  - intros req. apply Hsame. intros type m [-> | ->];
      apply createDebt_monthAmounts; discriminate.
  - intros id req. apply Hsame. intros type m [-> | ->];
      apply payDebt_monthAmounts; discriminate.
  - intros id req. apply Hsame. intros type m _.
    apply monthAmounts_frame, editDebt_transactions.
  - intros id. apply Hsame. intros type m _.
    apply monthAmounts_frame, deleteDebt_transactions.
Qed.

Lemma List_filter_perm {A : Type} (p : A -> bool) (l1 l2 : list A) :
  l1 ≡ₚ l2 -> List.filter p l1 ≡ₚ List.filter p l2.
Proof.
  induction 1 as [|x l1 l2 _ IH|x y l|l1 l2 l3 _ IH1 _ IH2]; cbn.
  - reflexivity.
  - destruct (p x); [constructor|]; exact IH.
  - destruct (p x), (p y); try reflexivity. apply perm_swap.
  - etransitivity; eassumption.
Qed.

(** A new entry of the year, month and type joins the amounts of the
    month. *)
Lemma monthAmounts_insert_same (db : DB) (k : N) (t : Transaction)
    year type m :
  transactions db !! k = None ->
  d_year (t_createdAt t) = year -> d_month (t_createdAt t) = m ->
  t_type t = type ->
  monthAmounts (set_transactions (insert k t) db) year type m
  ≡ₚ t_amount t :: monthAmounts db year type m.
Proof.
  intros Hnew Hy Hm Hty. unfold monthAmounts.
  cbn [transactions set_transactions].
  assert (Hscan : (scan (<[k := t]> (transactions db))).*2
                  ≡ₚ t :: (scan (transactions db)).*2).
  { rewrite !scan_perm, map_to_list_insert by exact Hnew. reflexivity. }
  rewrite (List_filter_perm _ _ _ Hscan). cbn [List.filter].
  rewrite bool_decide_eq_true_2 by (repeat split; assumption).
  reflexivity.
Qed.

Lemma wholeSum_perm (l1 l2 : list num) :
  l1 ≡ₚ l2 -> wholeSum l1 = wholeSum l2.
Proof.
  induction 1 as [|x l1 l2 _ IH|x y l|l1 l2 l3 _ IH1 _ IH2];
    unfold wholeSum in *; cbn [foldr]; lia.
Qed.

Lemma forallb_perm {A : Type} (p : A -> bool) (l1 l2 : list A) :
  l1 ≡ₚ l2 -> forallb p l1 = forallb p l2.
Proof.
  induction 1 as [|x l1 l2 _ IH|x y l|l1 l2 l3 _ IH1 _ IH2]; cbn.
  - reflexivity.
  - rewrite IH. reflexivity.
  - destruct (p x), (p y); reflexivity.
  - congruence.
Qed.

Lemma wholeSum_nonneg (l : list num) :
  forallb isWhole l = true -> 0 <= wholeSum l.
Proof.
  induction l as [|x l IH]; cbn [forallb wholeSum foldr]; [lia|].
  rewrite andb_true_iff. intros [Hx Hl]. apply isWhole_spec in Hx.
  specialize (IH Hl). unfold wholeSum in IH. lia.
Qed.

(** A whole amount passes the guard [amount < 0]. *)
Lemma whole_amount_accepted (a : Z) :
  0 <= a <= 2 ^ 53 - 1 -> Num.ltb (Num.ofZ a) Num.zero = false.
Proof.
  intros Ha. destruct (Z.eq_dec a 0) as [->|Hnz]; [reflexivity|].
  rewrite ofZ_finite by (unfold Num.safe; lia).
  destruct (Z.ltb_spec a 0); [lia | reflexivity].
Qed.

(** X27.  For a [$sum] that is exact on whole amounts adding up to at most
    [2^53 - 1], and over such amounts: an accepted cash-in made in the
    requested (four-digit) year raises the cash-in series by its amount in
    the slot of its month and nowhere else, and leaves the cash-out series
    alone; an accepted cash-out does the same to the cash-out series. *)
Theorem cash_move_shows_in_its_month env env' query req db c C pt by_
    (a : Z) :
  (forall l, forallb isWhole l = true -> wholeSum l <= 2 ^ 53 - 1 ->
             sumAccumulator l = Num.ofZ (wholeSum l)) ->
  1000 <= requestedYear env' query <= 9998 ->
  d_year (now env) = requestedYear env' query ->
  cq_client req = GoodId c ->
  clients db !! c = Some C ->
  amountOf req = Num.ofZ a ->
  0 <= a <= 2 ^ 53 - 1 ->
  castPaymentType (cq_paymentType req) = Some pt ->
  castId (cq_createdBy req) = Some by_ ->
  ledgerFault env = false ->
  let bump := fun (m : Month) (v : num) =>
    if bool_decide (m = d_month (now env))
    then Num.ofZ (whole v + a) else v in
  let before := fun type =>
    monthAmounts db (requestedYear env' query) type (d_month (now env)) in
  forall ins outs,
    monthlyTransactions env' query db
    = (mkResponse 200 (BMonthly ins outs), db) ->
    (forallb isWhole (before cash_in) = true ->
     wholeSum (before cash_in) + a <= 2 ^ 53 - 1 ->
     clientSchema (set_c_debt (Num.sub (c_debt C) (amountOf req)) C)
       = true ->
     (monthlyTransactions env' query (cashIn env req db).2).1
     = mkResponse 200
         (BMonthly
            ((fun m =>
                bump m (default Num.zero (ins !! (monthNumber m - 1)%nat)))
               <$> months) outs))
    /\ (forallb isWhole (before cash_out) = true ->
        wholeSum (before cash_out) + a <= 2 ^ 53 - 1 ->
        clientSchema (set_c_debt (Num.add (c_debt C) (amountOf req)) C)
          = true ->
        (monthlyTransactions env' query (cashOut env req db).2).1
        = mkResponse 200
            (BMonthly ins
               ((fun m =>
                   bump m
                     (default Num.zero (outs !! (monthNumber m - 1)%nat)))
                  <$> months))).
Proof.
  intros Hexact _ Hyear Hc HC Ha Hrange Hpt Hby Hup bump before ins outs
    Hbefore.
  cbv beta in Ha.
  assert (Hpos : Num.ltb (amountOf req) Num.zero = false)
    by (cbv beta; rewrite Ha; apply whole_amount_accepted; exact Hrange).
  destruct (monthly_slots sumAccumulator env' query db)
    as (ci & co & Hrun & Hl1 & Hl2 & H1 & H2).
  rewrite Hrun in Hbefore. injection Hbefore as <- <-.
  assert (Hfresh : transactions db !! fresh (dom (transactions db)) = None)
    by apply not_elem_of_dom, is_fresh.
  (* the slot of the month, for either type *)
  assert (Hslot : forall type pt0 cl by0 (db0 : DB),
    transactions db0 = transactions db ->
    forallb isWhole (before type) = true ->
    wholeSum (before type) + a <= 2 ^ 53 - 1 ->
    monthTotal
      (set_transactions
         (insert (fresh (dom (transactions db)))
            (mkTransaction type (amountOf req) pt0 None None cl by0 false
               (now env))) db0)
      (requestedYear env' query) type (d_month (now env))
    = Num.ofZ
        (whole (monthTotal db (requestedYear env' query) type
                  (d_month (now env))) + a)).
  { intros type pt0 cl by0 db0 Htx Hall Hsum.
    pose proof (wholeSum_nonneg _ Hall) as Hnn.
    assert (Hperm :
      monthAmounts
        (set_transactions
           (insert (fresh (dom (transactions db)))
              (mkTransaction type (amountOf req) pt0 None None cl by0 false
                 (now env))) db0)
        (requestedYear env' query) type (d_month (now env))
      ≡ₚ Num.ofZ a :: before type).
    { rewrite (monthAmounts_frame
                 (set_transactions (insert _ _) db)
                 (set_transactions (insert _ _) db0))
        by (cbn [transactions set_transactions]; rewrite Htx; reflexivity).
      rewrite monthAmounts_insert_same;
        [|exact Hfresh|exact Hyear|reflexivity|reflexivity].
      cbn [t_amount]. rewrite Ha. reflexivity. }
    unfold monthTotal at 1.
    remember (monthAmounts
                (set_transactions
                   (insert (fresh (dom (transactions db)))
                      (mkTransaction type (amountOf req) pt0 None None cl
                         by0 false (now env))) db0)
                (requestedYear env' query) type (d_month (now env)))
      as after eqn:Hafter.
    clear Hafter.
    destruct after as [|x l];
      [exfalso; exact (Permutation_nil_cons Hperm)|].
    rewrite Hexact.
    - rewrite (wholeSum_perm _ _ Hperm). unfold wholeSum at 1.
      cbn [foldr]. fold (wholeSum (before type)).
      rewrite whole_ofZ by (unfold Num.safe; lia).
      f_equal.
      assert (Hold :
        whole (monthTotal db (requestedYear env' query) type
                 (d_month (now env)))
        = wholeSum (before type)).
      { unfold monthTotal.
        change (monthAmounts db (requestedYear env' query) type
                  (d_month (now env))) with (before type).
        destruct (before type) as [|y l'] eqn:Hb; [reflexivity|].
        rewrite <- Hb in *. rewrite Hexact by (assumption || lia).
        apply whole_ofZ. unfold Num.safe. lia. }
      lia.
    - rewrite (forallb_perm _ _ _ Hperm). cbn [forallb].
      rewrite Hall, isWhole_ofZ by exact Hrange. reflexivity.
    - rewrite (wholeSum_perm _ _ Hperm). unfold wholeSum. cbn [foldr].
      fold (wholeSum (before type)).
      rewrite whole_ofZ by (unfold Num.safe; lia). lia. }
  (* every other slot *)
  assert (Hother : forall type type' pt0 cl by0 (db0 : DB) m,
    transactions db0 = transactions db ->
    (type' <> type \/ m <> d_month (now env)) ->
    monthAmounts
      (set_transactions
         (insert (fresh (dom (transactions db)))
            (mkTransaction type (amountOf req) pt0 None None cl by0 false
               (now env))) db0)
      (requestedYear env' query) type' m
    = monthAmounts db (requestedYear env' query) type' m).
  { intros type type' pt0 cl by0 db0 m Htx Hne.
    rewrite (monthAmounts_frame
               (set_transactions (insert _ _) db)
               (set_transactions (insert _ _) db0))
      by (cbn [transactions set_transactions]; rewrite Htx; reflexivity).
    apply monthAmounts_insert_other; [exact Hfresh|].
    cbn [t_createdAt t_type]. intros (_ & Hm & Hty).
    destruct Hne as [Hne|Hne]; congruence. }
  split; intros Hall Hsum Hs.
  - rewrite (cashIn_accepted clientSchema StringToNumber env req db c C pt
               by_) by assumption.
    cbn [snd]. rewrite monthly_series. cbn [fst]. f_equal. f_equal.
    + unfold monthSeries. apply list_fmap_ext. intros i m _.
      rewrite H1. cbn [from_option id]. unfold bump.
      destruct (decide (m = d_month (now env))) as [->|Hne].
      * rewrite bool_decide_eq_true_2 by reflexivity.
        apply (Hslot cash_in pt (Some c) by_
                 (mkDB _ (debtors db) (transactions db)));
          [reflexivity | exact Hall | exact Hsum].
      * rewrite bool_decide_eq_false_2 by exact Hne.
        unfold monthTotal.
        rewrite (Hother cash_in cash_in pt (Some c) by_
                   (mkDB (<[c := set_c_debt
                                   (Num.sub (c_debt C) (amountOf req)) C]>
                            (clients db))
                      (debtors db) (transactions db)) m);
          [reflexivity | reflexivity | right; exact Hne].
    + rewrite (twelve_slots co _ Hl2 H2).
      apply monthSeries_ext. intros m.
      apply (Hother cash_in cash_out pt (Some c) by_
               (mkDB _ (debtors db) (transactions db)) m);
        [reflexivity | left; discriminate].
  - rewrite (cashOut_accepted clientSchema StringToNumber env req db c C pt
               by_) by assumption.
    cbn [snd]. rewrite monthly_series. cbn [fst]. f_equal. f_equal.
    + rewrite (twelve_slots ci _ Hl1 H1).
      apply monthSeries_ext. intros m.
      apply (Hother cash_out cash_in pt (Some c) by_
               (mkDB _ (debtors db) (transactions db)) m);
        [reflexivity | left; discriminate].
    + unfold monthSeries. apply list_fmap_ext. intros i m _.
      rewrite H2. cbn [from_option id]. unfold bump.
      destruct (decide (m = d_month (now env))) as [->|Hne].
      * rewrite bool_decide_eq_true_2 by reflexivity.
        apply (Hslot cash_out pt (Some c) by_
                 (mkDB _ (debtors db) (transactions db)));
          [reflexivity | exact Hall | exact Hsum].
      * rewrite bool_decide_eq_false_2 by exact Hne.
        unfold monthTotal.
        rewrite (Hother cash_out cash_out pt (Some c) by_
                   (mkDB (<[c := set_c_debt
                                   (Num.add (c_debt C) (amountOf req)) C]>
                            (clients db))
                      (debtors db) (transactions db)) m);
          [reflexivity | reflexivity | right; exact Hne].
Qed.

End MonthlyProperties.

(** ** Runs of the read, edit and cash routes on the sample states *)

(** The sample [$sum] is exact on whole amounts. *)
Lemma runningSum_exact (l : list num) :
  forallb isWhole l = true -> wholeSum l <= 2 ^ 53 - 1 ->
  runningSum l = Num.ofZ (wholeSum l).
Proof.
  intros Hall Hsum. unfold runningSum, wholeSum in *.
  pose proof (running_sum_whole l 0 Hall ltac:(lia) ltac:(lia)) as H.
  rewrite Z.add_0_l in H. rewrite <- H. change (Num.ofZ 0) with Num.zero.
  clear H Hsum. generalize Num.zero.
  induction l as [|x l IH]; intros acc; [reflexivity|].
  cbn [forallb] in Hall. apply andb_true_iff in Hall as [Hx Hl].
  cbn [fold_left]. rewrite (IH Hl). f_equal. f_equal.
  apply isWhole_spec in Hx as [Hr ->]. symmetry. apply orZero_ofZ.
  unfold Num.safe. lia.
Qed.

Section MoreRuns.
Import DebtorRoutes TransactionRoutes DebtorQueries TransactionEdit.

(** X1 on the sample ledgers: a negative amount, an id that is not stored,
    and the flagged entry. *)
Lemma edit_refusals_run :
  editTransaction acceptAll notANumber 7 (Sample.move (-5))
    Sample2.live_ledger
  = (mkResponse 400 (BMessage "amount musbat bo'lishi kerak"),
     Sample2.live_ledger)
  /\ editTransaction acceptAll notANumber 8 (Sample.move 5)
       Sample2.live_ledger
     = (mkResponse 404 (BMessage "Transaction topilmadi"),
        Sample2.live_ledger)
  /\ editTransaction acceptAll notANumber 7 (Sample.move 5)
       Sample.flagged_ledger
     = (mkResponse 404 (BMessage "Transaction topilmadi"),
        Sample.flagged_ledger).
Proof.
  split; [|split].
  - apply (proj1 (edit_refuses_negative_missing_and_flagged acceptAll
                    notANumber 7 (Sample.move (-5)) Sample2.live_ledger)).
    vm_compute. reflexivity.
  - apply (proj2 (edit_refuses_negative_missing_and_flagged acceptAll
                    notANumber 8 (Sample.move 5) Sample2.live_ledger)).
    + vm_compute. reflexivity.
    + left. reflexivity.
  - apply (proj2 (edit_refuses_negative_missing_and_flagged acceptAll
                    notANumber 7 (Sample.move 5) Sample.flagged_ledger)).
    + vm_compute. reflexivity.
    + right. exists Sample.flagged_entry. split; reflexivity.
Defined.

(** X2: the cash-in of 50 is corrected to 80; the client's debt goes from
    -50 to -80. *)
Lemma cash_in_corrected_to_80 :
  let t' := mkTransaction cash_in (Num.ofZ 80) cash None None (Some 1%N)
              None false Sample.march in
  let C' := set_c_debt
              (adjusted Sample2.live_entry (Num.ofZ 80) (Num.ofZ (-50)))
              (mkClient "C" (-50)) in
  editTransaction acceptAll notANumber 7 (Sample.move 80)
    Sample2.live_ledger
  = (mkResponse 200 (BTransaction t'),
     mkDB (<[1%N := C']> (clients Sample2.live_ledger)) ∅
          (<[7%N := t']> (transactions Sample2.live_ledger)))
  /\ c_debt C' = Num.add (Num.ofZ (-50)) (Num.sub (Num.ofZ 50) (Num.ofZ 80))
  /\ c_debt C' = Num.ofZ (-50 + (50 - 80)).
Proof.
  intros t' C'.
  destruct (edit_adjusts_same_client acceptAll notANumber 7
              (Sample.move 80) Sample2.live_ledger Sample2.live_entry 1
              (mkClient "C" (-50)) cash None)
    as (Hrun & Hin & _ & _ & Hexact);
    try reflexivity.
  split; [exact Hrun|]. split; [apply Hin; reflexivity|].
  apply (proj1 (Hexact (-50) 50 80 eq_refl eq_refl eq_refl
                  ltac:(unfold Num.safe; lia) ltac:(unfold Num.safe; lia)
                  ltac:(unfold Num.safe; lia) ltac:(unfold Num.safe; lia)));
    [reflexivity | unfold Num.safe; lia].
Defined.

(** X3: a cash movement of 30 corrected to 45 against a direct movement of
    45. *)
Lemma correction_equals_direct_run :
  (editTransaction acceptAll notANumber
     (fresh (dom (transactions Sample.fresh_client))) (Sample.move 45)
     (cashIn acceptAll notANumber Sample.env (Sample.move 30)
        Sample.fresh_client).2).2
  = (cashIn acceptAll notANumber Sample.env (Sample.move 45)
       Sample.fresh_client).2
  /\ (editTransaction acceptAll notANumber
        (fresh (dom (transactions Sample.fresh_client))) (Sample.move 45)
        (cashOut acceptAll notANumber Sample.env (Sample.move 30)
           Sample.fresh_client).2).2
     = (cashOut acceptAll notANumber Sample.env (Sample.move 45)
          Sample.fresh_client).2.
Proof.
  destruct (edit_after_cash_move_equals_direct acceptAll notANumber
              Sample.env (Sample.move 30) (Sample.move 45)
              Sample.fresh_client 1 (mkClient "C" 0) cash None cash None
              0 30 45)
    as [Hin Hout];
    try first [reflexivity | unfold Num.safe; lia].
  split; [apply Hin | apply Hout];
    first [reflexivity | unfold Num.safe; lia].
Defined.

(** X4: the cash-in of 50 of client 1 is moved to client 2 with the amount
    80: client 1 is back at 0, client 2 is at -80. *)
Lemma cash_in_moved_to_second_client :
  let t' := mkTransaction cash_in (Num.ofZ 80) cash None None (Some 2%N)
              None false Sample.march in
  let Co' := set_c_debt (reverted Sample2.live_entry (Num.ofZ (-50)))
               (mkClient "C" (-50)) in
  let Cn' := set_c_debt (applied Sample2.live_entry (Num.ofZ 80) Num.zero)
               (mkClient "B" 0) in
  editTransaction acceptAll notANumber 7 (Sample2.move_for 2 80)
    Sample2.live_ledger
  = (mkResponse 200 (BTransaction t'),
     mkDB (<[2%N := Cn']> (<[1%N := Co']> (clients Sample2.live_ledger)))
          ∅ (<[7%N := t']> (transactions Sample2.live_ledger)))
  /\ c_debt Co' = Num.add (Num.ofZ (-50)) (Num.ofZ 50)
  /\ c_debt Cn' = Num.sub Num.zero (Num.ofZ 80)
  /\ c_debt Co' = Num.zero
  /\ c_debt Cn' = Num.ofZ (-80).
Proof.
  intros t' Co' Cn'.
  destruct (edit_moves_entry_between_clients acceptAll notANumber 7
              (Sample2.move_for 2 80) Sample2.live_ledger
              Sample2.live_entry 1 2 (mkClient "C" (-50)) (mkClient "B" 0)
              cash None)
    as (Hrun & Hin & _);
    try first [reflexivity | discriminate].
  split; [exact Hrun|].
  destruct (Hin eq_refl) as [Ho Hn].
  split; [exact Ho|]. split; [exact Hn|].
  split; vm_compute; reflexivity.
Defined.

(** X5: the cash-in of 50 is corrected to 80 without naming a client: the
    entry reads 80 for client 1, whose debt still reads -50. *)
Lemma correction_without_client_run :
  let out := editTransaction acceptAll notANumber 7
               (Sample2.move_for_nobody 80) Sample2.live_ledger in
  clients out.2 = clients Sample2.live_ledger
  /\ debtors out.2 = debtors Sample2.live_ledger
  /\ exists t',
       transactions out.2 !! 7%N = Some t'
       /\ t_amount t' = Num.ofZ 80
       /\ t_client t' = Some 1%N.
Proof.
  intros out.
  destruct (edit_without_client_keeps_balances acceptAll notANumber 7
              (Sample2.move_for_nobody 80) Sample2.live_ledger eq_refl)
    as (Hc & Hd & Ht).
  split; [exact Hc | split; [exact Hd |]].
  apply (Ht Sample2.live_entry cash None); reflexivity.
Defined.

(** X6: the same correction with the client named and the payment type
    left out: 500, the debt moved to -80, the entry still 50. *)
Lemma correction_without_payment_type_run :
  editTransaction acceptAll notANumber 7 (Sample2.move_without_type 80)
    Sample2.live_ledger
  = (mkResponse 500 (BFailure ValidationError),
     mkDB (<[1%N := set_c_debt
                      (adjusted Sample2.live_entry (Num.ofZ 80)
                         (Num.ofZ (-50)))
                      (mkClient "C" (-50))]>
             (clients Sample2.live_ledger))
          ∅ (transactions Sample2.live_ledger)).
Proof.
  apply (edit_failed_save_keeps_balance_change acceptAll notANumber 7
           (Sample2.move_without_type 80) Sample2.live_ledger
           Sample2.live_entry 1 (mkClient "C" (-50)));
    reflexivity.
Defined.

(** X8: a cash movement of 30 whose entry is then deleted. *)
Lemma deleted_cash_move_run :
  (let db2 := (deleteTransaction
                 (fresh (dom (transactions Sample.fresh_client)))
                 (cashIn acceptAll notANumber Sample.env (Sample.move 30)
                    Sample.fresh_client).2).2 in
   transactions db2 = transactions Sample.fresh_client
   /\ clients db2
      = <[1%N := set_c_debt (Num.sub Num.zero (Num.ofZ 30))
                   (mkClient "C" 0)]>
          (clients Sample.fresh_client))
  /\ (let db2 := (deleteTransaction
                    (fresh (dom (transactions Sample.fresh_client)))
                    (cashOut acceptAll notANumber Sample.env
                       (Sample.move 30) Sample.fresh_client).2).2 in
      transactions db2 = transactions Sample.fresh_client
      /\ clients db2
         = <[1%N := set_c_debt (Num.add Num.zero (Num.ofZ 30))
                      (mkClient "C" 0)]>
             (clients Sample.fresh_client)).
Proof.
  destruct (delete_after_cash_move_keeps_debt acceptAll notANumber
              Sample.env (Sample.move 30) Sample.fresh_client 1
              (mkClient "C" 0) cash None)
    as [Hin Hout];
    try reflexivity.
  split; [apply Hin | apply Hout]; reflexivity.
Defined.

(** X9: 30 in, 30 out. *)
Lemma cash_in_and_out_run :
  let db2 := (cashOut acceptAll notANumber Sample.env (Sample.move 30)
                (cashIn acceptAll notANumber Sample.env (Sample.move 30)
                   Sample.fresh_client).2).2 in
  clients db2 = clients Sample.fresh_client
  /\ debtors db2 = debtors Sample.fresh_client
  /\ size (transactions db2)
     = S (S (size (transactions Sample.fresh_client))).
Proof.
  apply (cash_in_then_cash_out_restores_debt acceptAll notANumber
           Sample.env (Sample.move 30) (Sample.move 30)
           Sample.fresh_client 1 (mkClient "C" 0) cash None cash None
           0 30);
    first [reflexivity | unfold Num.safe; lia].
Defined.

(** X10: a cash-in of 30 for the unknown client 9, and one for a client
    that is no id. *)
Lemma cash_in_for_strangers_run :
  cashIn acceptAll notANumber Sample.env (Sample2.move_for 9 30)
    Sample.fresh_client
  = (mkResponse 201
       (BTransaction
          (mkTransaction cash_in (Num.ofZ 30) cash None None (Some 9%N)
             None false Sample.march)),
     mkDB (clients Sample.fresh_client) ∅
          (<[fresh (dom (transactions Sample.fresh_client))
             := mkTransaction cash_in (Num.ofZ 30) cash None None
                  (Some 9%N) None false Sample.march]>
             (transactions Sample.fresh_client)))
  /\ cashIn acceptAll notANumber Sample.env (Sample2.move_for_garbage 30)
       Sample.fresh_client
     = (mkResponse 500 (BFailure CastError), Sample.fresh_client).
Proof.
  split.
  - apply (proj1 (cash_in_with_unknown_or_malformed_client acceptAll
                    notANumber Sample.env (Sample2.move_for 9 30)
                    Sample.fresh_client eq_refl));
      reflexivity.
  - apply (proj2 (cash_in_with_unknown_or_malformed_client acceptAll
                    notANumber Sample.env (Sample2.move_for_garbage 30)
                    Sample.fresh_client eq_refl)).
    reflexivity.
Defined.

(** X11: a cash-in of 30 without a payment type: 500, the debt at -30, the
    ledger empty. *)
Lemma cash_in_without_payment_type_run :
  cashIn acceptAll notANumber Sample.env (Sample2.move_without_type 30)
    Sample.fresh_client
  = (mkResponse 500 (BFailure ValidationError),
     mkDB (<[1%N := set_c_debt (Num.sub Num.zero (Num.ofZ 30))
                      (mkClient "C" 0)]>
             (clients Sample.fresh_client))
          ∅ (transactions Sample.fresh_client)).
Proof.
  apply (cash_in_failed_record_keeps_debt_change acceptAll notANumber
           Sample.env (Sample2.move_without_type 30) Sample.fresh_client
           1 (mkClient "C" 0));
    reflexivity.
Defined.

(** X12 after the delete of the sample debt. *)
Lemma deleted_sample_debt_is_out_of_reach :
  let out := deleteDebt acceptAll nonNegativeDebtor Sample.env 10
               Sample.one_debt in
  getDebtor 10 out.2
  = (mkResponse 404 (BMessage "Qarzdor topilmadi"), out.2)
  /\ (forall env' req,
        editDebt nonNegativeDebtor env' 10 req out.2
        = (mkResponse 404 (BMessage "Qarzdor topilmadi"), out.2))
  /\ (forall env',
        deleteDebt acceptAll nonNegativeDebtor env' 10 out.2
        = (mkResponse 404 (BMessage "Qarzdor topilmadi"), out.2))
  /\ (forall env' req,
        (payDebt acceptAll nonNegativeDebtor notANumber env' 10 req
           out.2).2 = out.2
        /\ (statusCode
              (payDebt acceptAll nonNegativeDebtor notANumber env' 10 req
                 out.2).1 = 404%N
            \/ statusCode
                 (payDebt acceptAll nonNegativeDebtor notANumber env' 10
                    req out.2).1 = 400%N)).
Proof.
  intros out.
  apply (deleted_debtor_is_out_of_reach acceptAll nonNegativeDebtor
           notANumber Sample.env 10 Sample.one_debt out.1 out.2 Sample.D1).
  - reflexivity.
  - reflexivity.
  - apply surjective_pairing.
  - vm_compute. reflexivity.
Defined.

(** X13 for a created debt of 1000, a payment of 400 and a patch of
    [currentDebt] to 100. *)
Lemma answers_match_reads_run :
  (let out := createDebt acceptAll nonNegativeDebtor notANumber
                wholeToString Sample.env
                (Sample.create 1000) Sample.fresh_client in
   getDebtor (fresh (dom (debtors Sample.fresh_client))) out.2
   = (mkResponse 200 (body out.1), out.2))
  /\ (let out := payDebt acceptAll nonNegativeDebtor notANumber Sample.env
                   10 (Sample.pay 400) Sample.two_debts in
      getDebtor 10 out.2 = (mkResponse 200 (body out.1), out.2))
  /\ (let out := editDebt nonNegativeDebtor Sample.env 10
                   (Sample.patch_currentDebt 100) Sample.two_debts in
      getDebtor 10 out.2 = (mkResponse 200 (body out.1), out.2)).
Proof.
  split; [|split]; intros out.
  - apply (proj1 (write_answers_match_a_later_read acceptAll
                    nonNegativeDebtor notANumber wholeToString Sample.env
                    10 Sample.fresh_client)
             (Sample.create 1000) out.1 out.2).
    + apply surjective_pairing.
    + vm_compute. reflexivity.
  - apply (proj1 (proj2 (write_answers_match_a_later_read acceptAll
                           nonNegativeDebtor notANumber wholeToString
                           Sample.env 10 Sample.two_debts))
             (Sample.pay 400) out.1 out.2).
    + apply surjective_pairing.
    + vm_compute. reflexivity.
  - apply (proj2 (proj2 (write_answers_match_a_later_read acceptAll
                           nonNegativeDebtor notANumber wholeToString
                           Sample.env 10 Sample.two_debts))
             (Sample.patch_currentDebt 100) out.1 out.2 Sample.D1).
    + reflexivity.
    + reflexivity.
    + apply surjective_pairing.
    + vm_compute. reflexivity.
Defined.

(** X14 at a payment of 600 that clears the sample debt and names the next
    one: the status stays [pending]. *)
Lemma clearing_payment_run :
  let req := mkPayReq (VNum (Num.ofZ 600))
               (Some (mkNextPaymentArg (VStr "abc")
                        (Some (mkDate 2024 Apr 0)))) None in
  let out := payDebt acceptAll nonNegativeDebtor notANumber Sample.env 10
               req Sample.one_debt in
  exists D',
    debtors out.2 !! 10%N = Some D'
    /\ currentDebt D' = Num.zero
    /\ totalPaid D' = Num.ofZ 1000
    /\ lastPayment D' = Some (mkPayment (Num.ofZ 600) Sample.march)
    /\ nextPayment D'
       = mkNextPayment (Some Num.zero) (Some (mkDate 2024 Apr 0))
    /\ client D' = 1%N
    /\ initialDebt D' = Num.ofZ 1000
    /\ initialDebtDate D' = mkDate 2024 Jan 0
    /\ description D' = ""
    /\ isDeleted D' = false
    /\ deletedAt D' = None
    /\ status D' = pending
    /\ forall j, j <> 10%N ->
                 debtors out.2 !! j = debtors Sample.one_debt !! j.
Proof.
  intros req out.
  destruct (payment_keeps_the_other_fields acceptAll nonNegativeDebtor
              notANumber Sample.env 10 req Sample.one_debt
              out.1 out.2 (Num.ofZ 600) Sample.D1)
    as (D' & H0 & H1 & H2 & H3 & H4 & H5 & H6 & H7 & H8 & H9 & H10 & H11
        & H12).
  - reflexivity.
  - reflexivity.
  - reflexivity.
  - apply surjective_pairing.
  - vm_compute. reflexivity.
  - exists D'.
    split; [exact H0|].
    split; [rewrite H1; vm_compute; reflexivity|].
    split; [rewrite H2; vm_compute; reflexivity|].
    split; [exact H3|].
    split; [rewrite H4; vm_compute; reflexivity|].
    split; [exact H5|]. split; [exact H6|]. split; [exact H7|].
    split; [exact H8|]. split; [exact H9|]. split; [exact H10|].
    split; [exact H11|]. exact H12.
Defined.

(** X15 on the balanced sample client: a further debt of 100 keeps the
    balance, a payment of 700 against the 600 owed leaves it 100 short. *)
Lemma balance_after_create_and_overpayment :
  (let out := createDebt acceptAll nonNegativeDebtor notANumber
                wholeToString Sample.env
                (Sample.create 100) Sample.one_debt in
   exists C1, clients out.2 !! 1%N = Some C1
              /\ c_debt C1 = Num.ofZ (activeDebtSum out.2 1))
  /\ (let out := payDebt acceptAll nonNegativeDebtor notANumber Sample.env
                   10 (Sample.pay 700) Sample.one_debt in
      exists C1,
        clients out.2 !! 1%N = Some C1
        /\ c_debt C1 = Num.ofZ (activeDebtSum out.2 1 - (700 - 600))).
Proof.
  destruct (balanced_client_stays_balanced acceptAll nonNegativeDebtor
              notANumber wholeToString Sample.env Sample.one_debt 1
              (mkClient "C" 600) eq_refl
              ltac:(vm_compute; split; discriminate) eq_refl)
    as [Hcreate Hpay].
  split; intros out.
  - apply (Hcreate (Sample.create 100) out.1 out.2 100).
    + reflexivity.
    + reflexivity.
    + unfold Num.safe. lia.
    + vm_compute. split; discriminate.
    + apply surjective_pairing.
    + vm_compute. reflexivity.
  - destruct (Hpay 10%N (Sample.pay 700) out.1 out.2 Sample.D1 700 600)
      as (C1 & Hlook & _ & Hover).
    + reflexivity.
    + reflexivity.
    + reflexivity.
    + reflexivity.
    + reflexivity.
    + unfold Num.safe. lia.
    + unfold Num.safe. lia.
    + unfold Num.safe. lia.
    + vm_compute. split; discriminate.
    + apply surjective_pairing.
    + vm_compute. reflexivity.
    + exists C1. split; [exact Hlook|]. apply Hover. lia.
Defined.

(** X16 on a client whose stored debt has drifted to 0 while its two debts
    add up to 850. *)
Lemma empty_patch_run :
  let total := totalDebtLoop (openDebts Sample.drifted 1) in
  (c_debt <$> clients Sample.drifted !! 1%N) = Some Num.zero
  /\ editDebt nonNegativeDebtor Sample.env 10 emptyPatch Sample.drifted
     = (mkResponse 200
          (BDebtor
             (Some (Sample.D1,
                    set_c_debt total <$> clients Sample.drifted !! 1%N))),
        mkDB (alter (set_c_debt total) 1%N (clients Sample.drifted))
             (debtors Sample.drifted) (transactions Sample.drifted))
  /\ total = Num.ofZ (activeDebtSum Sample.drifted 1)
  /\ activeDebtSum Sample.drifted 1 = 850.
Proof.
  intros total.
  destruct (empty_patch_only_reconciles nonNegativeDebtor Sample.env 10
              Sample.drifted Sample.D1 eq_refl eq_refl eq_refl eq_refl)
    as [Hrun Hexact].
  split; [reflexivity|]. split; [exact Hrun|].
  split; [|vm_compute; reflexivity].
  apply Hexact; [vm_compute; reflexivity | vm_compute; discriminate].
Defined.

(** X17 on a debtor whose client is not stored. *)
Lemma orphan_debt_run :
  (exists r db1,
      payDebt acceptAll nonNegativeDebtor notANumber Sample.env 10
        (Sample.pay 400) Sample2.orphan_debt = (r, db1)
      /\ statusCode r = 200%N
      /\ clients db1 = clients Sample2.orphan_debt
      /\ debtors db1
         = <[10%N := applyPayment notANumber Sample.env (Sample.pay 400)
                       Sample.D1]> (debtors Sample2.orphan_debt))
  /\ deleteDebt acceptAll nonNegativeDebtor Sample.env 10
       Sample2.orphan_debt
     = (mkResponse 200 (BMessage "Qarzdor o'chirildi"),
        set_debtors (insert 10%N (softDeleted Sample.env Sample.D1))
          Sample2.orphan_debt).
Proof.
  destruct (missing_client_is_skipped acceptAll nonNegativeDebtor
              notANumber Sample.env 10 Sample2.orphan_debt Sample.D1
              eq_refl eq_refl eq_refl)
    as [Hpay Hdel].
  split.
  - apply (Hpay (Sample.pay 400) (Num.ofZ 400)); reflexivity.
  - apply Hdel. reflexivity.
Defined.

(** X18: 100 and then 200 against 300 at once, on the sample debt. *)
Lemma split_payment_run :
  let split_ :=
    (payDebt acceptAll nonNegativeDebtor notANumber Sample.env 10
       (Sample.pay 200)
       (payDebt acceptAll nonNegativeDebtor notANumber Sample.env 10
          (Sample.pay 100) Sample.one_debt).2).2 in
  let whole_ :=
    (payDebt acceptAll nonNegativeDebtor notANumber Sample.env 10
       (Sample.pay 300) Sample.one_debt).2 in
  exists D2 D',
    debtors split_ !! 10%N = Some D2
    /\ debtors whole_ !! 10%N = Some D'
    /\ currentDebt D2 = currentDebt D'
    /\ totalPaid D2 = totalPaid D'
    /\ clients split_ = clients whole_.
Proof.
  apply (two_payments_equal_one acceptAll nonNegativeDebtor notANumber
           Sample.env Sample.env Sample.env 10 (Sample.pay 100)
           (Sample.pay 200) (Sample.pay 300) Sample.one_debt
           Sample.D1 (mkClient "C" 600) 100 200 600 400 600);
    first [reflexivity | lia | unfold Num.safe; lia
          | vm_compute; reflexivity].
Defined.

(** X20 on the two sample debts. *)
Lemma summary_of_two_debts_run :
  exists stats,
    statsSummary Sample2.stamp None None Sample.two_debts
    = (mkReadResponse 200 (RSummary stats), Sample.two_debts)
    /\ s_totalCurrentDebt stats = Num.ofZ 850
    /\ s_totalPaid stats = Num.ofZ 400
    /\ s_totalDebtors stats = 2%nat.
Proof.
  destruct (summary_totals_range_over_open_debtors Sample2.stamp
              Sample.two_debts)
    as (stats & Hrun & _ & _ & Hcount & Hexact).
  exists stats. split; [exact Hrun|].
  destruct Hexact as [H1 H2];
    [vm_compute; reflexivity | vm_compute; discriminate
    | vm_compute; discriminate |].
  split; [rewrite H1; vm_compute; reflexivity|].
  split; [rewrite H2; vm_compute; reflexivity|].
  rewrite Hcount. vm_compute. reflexivity.
Defined.

(** X21 after a payment of 400 on one of two debts. *)
Lemma summary_after_payment_run :
  let out := payDebt acceptAll nonNegativeDebtor notANumber Sample.env 10
               (Sample.pay 400) Sample.two_debts in
  exists before after,
    statsSummary Sample2.stamp None None Sample.two_debts
    = (mkReadResponse 200 (RSummary before), Sample.two_debts)
    /\ statsSummary Sample2.stamp None None out.2
       = (mkReadResponse 200 (RSummary after), out.2)
    /\ s_totalPaid before = Num.ofZ 400
    /\ s_totalPaid after = Num.ofZ 800
    /\ s_totalCurrentDebt before = Num.ofZ 850
    /\ s_totalCurrentDebt after = Num.ofZ 450
    /\ s_totalDebtors after = s_totalDebtors before.
Proof.
  intros out.
  destruct (summary_follows_a_payment acceptAll nonNegativeDebtor
              notANumber Sample2.stamp Sample.env 10 (Sample.pay 400)
              Sample.two_debts out.1 out.2 Sample.D1 400)
    as (before & after & Hb & Ha & H1 & H2 & H3 & H4 & H5).
  - reflexivity.
  - lia.
  - reflexivity.
  - reflexivity.
  - vm_compute. reflexivity.
  - vm_compute. discriminate.
  - vm_compute. discriminate.
  - apply surjective_pairing.
  - vm_compute. reflexivity.
  - exists before, after.
    split; [exact Hb|]. split; [exact Ha|].
    split; [rewrite H1; vm_compute; reflexivity|].
    split; [rewrite H2; vm_compute; reflexivity|].
    split; [rewrite H3; vm_compute; reflexivity|].
    split; [rewrite H4; vm_compute; reflexivity|].
    exact H5.
Defined.

(** X22 after the delete of one of two debts. *)
Lemma summary_after_delete_run :
  let out := deleteDebt acceptAll nonNegativeDebtor Sample.env 10
               Sample.two_debts in
  exists before after,
    statsSummary Sample2.stamp None None Sample.two_debts
    = (mkReadResponse 200 (RSummary before), Sample.two_debts)
    /\ statsSummary Sample2.stamp None None out.2
       = (mkReadResponse 200 (RSummary after), out.2)
    /\ s_totalPaid before = Num.ofZ 400
    /\ s_totalPaid after = Num.ofZ 0
    /\ s_totalCurrentDebt before = Num.ofZ 850
    /\ s_totalCurrentDebt after = Num.ofZ 250
    /\ S (s_totalDebtors after) = s_totalDebtors before.
Proof.
  intros out.
  destruct (summary_follows_a_delete acceptAll nonNegativeDebtor
              Sample2.stamp Sample.env 10 Sample.two_debts out.1 out.2
              Sample.D1)
    as (before & after & Hb & Ha & H1 & H2 & H3 & H4 & H5).
  - reflexivity.
  - reflexivity.
  - vm_compute. reflexivity.
  - vm_compute. discriminate.
  - vm_compute. discriminate.
  - apply surjective_pairing.
  - vm_compute. reflexivity.
  - exists before, after.
    split; [exact Hb|]. split; [exact Ha|].
    split; [rewrite H1; vm_compute; reflexivity|].
    split; [rewrite H2; vm_compute; reflexivity|].
    split; [rewrite H3; vm_compute; reflexivity|].
    split; [rewrite H4; vm_compute; reflexivity|].
    exact H5.
Defined.

(** X23 on the two sample debts: a [client] that is no id, and the query
    [?client=1&status=pending]. *)
Lemma list_debtors_run :
  listDebtors Sample2.stamp (mkListQuery BadId None None None)
    Sample.two_debts
  = (mkReadResponse 500 (RFailure CastError), Sample.two_debts)
  /\ exists listed,
       listDebtors Sample2.stamp
         (mkListQuery (GoodId 1) (Some "pending") None None)
         Sample.two_debts
       = (mkReadResponse 200 (RDebtors listed), Sample.two_debts)
       /\ NoDup (l_id <$> listed)
       /\ StronglySorted
            (fun a b =>
               date_leb (Sample2.stamp (l_id b)) (Sample2.stamp (l_id a))
               = true)
            listed.
Proof.
  split.
  - apply (proj1 (list_debtors_answer Sample2.stamp
                    (mkListQuery BadId None None None) Sample.two_debts)).
    reflexivity.
  - destruct (proj2 (list_debtors_answer Sample2.stamp
                       (mkListQuery (GoodId 1) (Some "pending") None None)
                       Sample.two_debts)
                ltac:(discriminate))
      as (listed & Hrun & _ & Hnodup & Hsorted).
    exists listed. split; [exact Hrun | split; [exact Hnodup |]].
    exact Hsorted.
Defined.

(** X25 on a ledger without entries, for the current year. *)
Lemma empty_ledger_statistics :
  monthlyTransactions runningSum Sample.env None Sample.one_debt
  = (mkResponse 200
       (BMonthly (replicate 12 Num.zero) (replicate 12 Num.zero)),
     Sample.one_debt).
Proof.
  apply (year_without_cash_entries_gives_zero_series runningSum Sample.env
           None Sample.one_debt).
  - vm_compute. split; discriminate.
  - intros id t H.
    change (transactions Sample.one_debt) with (∅ : gmap N Transaction) in H.
    rewrite lookup_empty in H. discriminate H.
Defined.

(** X26 around a created debt, a payment, a patch and a delete in 2024. *)
Lemma debtor_routes_statistics_run :
  (forall req,
      (monthlyTransactions runningSum Sample.env (Some 2024)
         (createDebt acceptAll nonNegativeDebtor notANumber wholeToString
            Sample.env req Sample.one_debt).2).1
      = (monthlyTransactions runningSum Sample.env (Some 2024)
           Sample.one_debt).1)
  /\ (forall id req,
      (monthlyTransactions runningSum Sample.env (Some 2024)
         (payDebt acceptAll nonNegativeDebtor notANumber Sample.env id req
            Sample.one_debt).2).1
      = (monthlyTransactions runningSum Sample.env (Some 2024)
           Sample.one_debt).1)
  /\ (forall id req,
      (monthlyTransactions runningSum Sample.env (Some 2024)
         (editDebt nonNegativeDebtor Sample.env id req Sample.one_debt).2).1
      = (monthlyTransactions runningSum Sample.env (Some 2024)
           Sample.one_debt).1)
  /\ (forall id,
      (monthlyTransactions runningSum Sample.env (Some 2024)
         (deleteDebt acceptAll nonNegativeDebtor Sample.env id
            Sample.one_debt).2).1
      = (monthlyTransactions runningSum Sample.env (Some 2024)
           Sample.one_debt).1).
Proof.
  apply (debtor_routes_keep_the_monthly_statistics acceptAll
           nonNegativeDebtor notANumber wholeToString runningSum
           Sample.env Sample.env (Some 2024) Sample.one_debt).
  vm_compute. split; discriminate.
Defined.

(** X27: a cash-in and a cash-out of 30 in March 2024 on an empty ledger. *)
Lemma march_cash_move_run :
  let series :=
    [Num.zero; Num.zero; Num.ofZ 30; Num.zero; Num.zero; Num.zero;
     Num.zero; Num.zero; Num.zero; Num.zero; Num.zero; Num.zero] in
  (monthlyTransactions runningSum Sample.env None
     (cashIn acceptAll notANumber Sample.env (Sample.move 30)
        Sample.fresh_client).2).1
  = mkResponse 200 (BMonthly series (replicate 12 Num.zero))
  /\ (monthlyTransactions runningSum Sample.env None
        (cashOut acceptAll notANumber Sample.env (Sample.move 30)
           Sample.fresh_client).2).1
     = mkResponse 200 (BMonthly (replicate 12 Num.zero) series).
Proof.
  intros series.
  destruct (cash_move_shows_in_its_month acceptAll notANumber runningSum
              Sample.env Sample.env None (Sample.move 30)
              Sample.fresh_client 1 (mkClient "C" 0) cash None 30
              runningSum_exact
              ltac:(vm_compute; split; discriminate)
              eq_refl eq_refl eq_refl eq_refl ltac:(lia)
              eq_refl eq_refl eq_refl
              (replicate 12 Num.zero) (replicate 12 Num.zero) eq_refl)
    as [Hin Hout].
  split.
  - rewrite Hin; [vm_compute; reflexivity | reflexivity
                 | vm_compute; discriminate | reflexivity].
  - rewrite Hout; [vm_compute; reflexivity | reflexivity
                  | vm_compute; discriminate | reflexivity].
Defined.

End MoreRuns.
